(** * vk_layer_logging.h: debug-callback dispatch, object names and label stacks

    A shallow embedding of [include/vulkan/vk_layer_logging.h] and the
    verification of its specification.  Flags and handles are unsigned
    machine integers on which the code only performs bitwise operations and
    comparisons, so they are carried as [N]; the unordered maps are finite
    maps; nullable C pointers are options. *)

From Stdlib Require Import NArith String List DecimalString HexadecimalString.
From Equations Require Import Equations.
From Equations.Prop Require Import Logic.
From stdpp Require Import base numbers option list gmap strings.

Local Open Scope N_scope.

(** ** Flag types and the constants of the Vulkan headers *)

(** [VkFlags] is [uint32_t]; [VkDebugReportFlagsEXT],
    [VkDebugUtilsMessageSeverityFlagsEXT], [VkDebugUtilsMessageTypeFlagsEXT]
    and [DebugCallbackStatusFlags] are all typedefs of it. *)
Abbreviation VkFlags := N (only parsing).

(** The enumerators below are declared in [vulkan_core.h], which this header
    only includes.  They are kept as parameters of the development. *)
Class VulkanCore := {
  VK_DEBUG_REPORT_INFORMATION_BIT_EXT : VkFlags;
  VK_DEBUG_REPORT_WARNING_BIT_EXT : VkFlags;
  VK_DEBUG_REPORT_PERFORMANCE_WARNING_BIT_EXT : VkFlags;
  VK_DEBUG_REPORT_ERROR_BIT_EXT : VkFlags;
  VK_DEBUG_REPORT_DEBUG_BIT_EXT : VkFlags;
  VK_DEBUG_UTILS_MESSAGE_SEVERITY_VERBOSE_BIT_EXT : VkFlags;
  VK_DEBUG_UTILS_MESSAGE_SEVERITY_INFO_BIT_EXT : VkFlags;
  VK_DEBUG_UTILS_MESSAGE_SEVERITY_WARNING_BIT_EXT : VkFlags;
  VK_DEBUG_UTILS_MESSAGE_SEVERITY_ERROR_BIT_EXT : VkFlags;
  VK_DEBUG_UTILS_MESSAGE_TYPE_GENERAL_BIT_EXT : VkFlags;
  VK_DEBUG_UTILS_MESSAGE_TYPE_VALIDATION_BIT_EXT : VkFlags;
  VK_DEBUG_UTILS_MESSAGE_TYPE_PERFORMANCE_BIT_EXT : VkFlags;
  VK_SUCCESS : Z;
  VK_OBJECT_TYPE_QUEUE : N;
  VK_OBJECT_TYPE_COMMAND_BUFFER : N;
  (** [convertDebugReportObjectToCoreObject] of [vk_object_types.h]. *)
  convertDebugReportObjectToCoreObject : N -> N;
}.

(** What the translation between the two schemes needs from the header:
    the four severity bits are non-zero and pairwise disjoint, and the
    performance type bit is non-zero and disjoint from the other two. *)
Class VulkanCoreBits `{VulkanCore} : Prop := {
  sev_verbose_nz : VK_DEBUG_UTILS_MESSAGE_SEVERITY_VERBOSE_BIT_EXT ≠ 0;
  sev_info_nz : VK_DEBUG_UTILS_MESSAGE_SEVERITY_INFO_BIT_EXT ≠ 0;
  sev_warning_nz : VK_DEBUG_UTILS_MESSAGE_SEVERITY_WARNING_BIT_EXT ≠ 0;
  sev_error_nz : VK_DEBUG_UTILS_MESSAGE_SEVERITY_ERROR_BIT_EXT ≠ 0;
  sev_verbose_info :
    N.land VK_DEBUG_UTILS_MESSAGE_SEVERITY_VERBOSE_BIT_EXT
           VK_DEBUG_UTILS_MESSAGE_SEVERITY_INFO_BIT_EXT = 0;
  sev_verbose_warning :
    N.land VK_DEBUG_UTILS_MESSAGE_SEVERITY_VERBOSE_BIT_EXT
           VK_DEBUG_UTILS_MESSAGE_SEVERITY_WARNING_BIT_EXT = 0;
  sev_verbose_error :
    N.land VK_DEBUG_UTILS_MESSAGE_SEVERITY_VERBOSE_BIT_EXT
           VK_DEBUG_UTILS_MESSAGE_SEVERITY_ERROR_BIT_EXT = 0;
  sev_info_warning :
    N.land VK_DEBUG_UTILS_MESSAGE_SEVERITY_INFO_BIT_EXT
           VK_DEBUG_UTILS_MESSAGE_SEVERITY_WARNING_BIT_EXT = 0;
  sev_info_error :
    N.land VK_DEBUG_UTILS_MESSAGE_SEVERITY_INFO_BIT_EXT
           VK_DEBUG_UTILS_MESSAGE_SEVERITY_ERROR_BIT_EXT = 0;
  sev_warning_error :
    N.land VK_DEBUG_UTILS_MESSAGE_SEVERITY_WARNING_BIT_EXT
           VK_DEBUG_UTILS_MESSAGE_SEVERITY_ERROR_BIT_EXT = 0;
  type_performance_nz : VK_DEBUG_UTILS_MESSAGE_TYPE_PERFORMANCE_BIT_EXT ≠ 0;
  type_general_performance :
    N.land VK_DEBUG_UTILS_MESSAGE_TYPE_GENERAL_BIT_EXT
           VK_DEBUG_UTILS_MESSAGE_TYPE_PERFORMANCE_BIT_EXT = 0;
  type_validation_performance :
    N.land VK_DEBUG_UTILS_MESSAGE_TYPE_VALIDATION_BIT_EXT
           VK_DEBUG_UTILS_MESSAGE_TYPE_PERFORMANCE_BIT_EXT = 0;
}.

(** The values Vulkan 1.2 gives these enumerators, used to run the model.
    On the object types of the core API the debug-report enumeration and
    [VkObjectType] agree, so the conversion is taken to be the identity. *)
Definition vulkan_core_1_2 : VulkanCore := {|
  VK_DEBUG_REPORT_INFORMATION_BIT_EXT := 0x1;
  VK_DEBUG_REPORT_WARNING_BIT_EXT := 0x2;
  VK_DEBUG_REPORT_PERFORMANCE_WARNING_BIT_EXT := 0x4;
  VK_DEBUG_REPORT_ERROR_BIT_EXT := 0x8;
  VK_DEBUG_REPORT_DEBUG_BIT_EXT := 0x10;
  VK_DEBUG_UTILS_MESSAGE_SEVERITY_VERBOSE_BIT_EXT := 0x1;
  VK_DEBUG_UTILS_MESSAGE_SEVERITY_INFO_BIT_EXT := 0x10;
  VK_DEBUG_UTILS_MESSAGE_SEVERITY_WARNING_BIT_EXT := 0x100;
  VK_DEBUG_UTILS_MESSAGE_SEVERITY_ERROR_BIT_EXT := 0x1000;
  VK_DEBUG_UTILS_MESSAGE_TYPE_GENERAL_BIT_EXT := 0x1;
  VK_DEBUG_UTILS_MESSAGE_TYPE_VALIDATION_BIT_EXT := 0x2;
  VK_DEBUG_UTILS_MESSAGE_TYPE_PERFORMANCE_BIT_EXT := 0x4;
  VK_SUCCESS := 0;
  VK_OBJECT_TYPE_QUEUE := 4;
  VK_OBJECT_TYPE_COMMAND_BUFFER := 6;
  convertDebugReportObjectToCoreObject := fun t => t;
|}.

(** C's [(a & b) != 0], also the truth value of [a & b] in a condition. *)
Definition test_bits (a b : VkFlags) : bool := negb (N.land a b =? 0).

(** [enum DebugCallbackStatusBits] *)
Definition DEBUG_CALLBACK_UTILS : VkFlags := 0x1.
Definition DEBUG_CALLBACK_DEFAULT : VkFlags := 0x2.
Definition DEBUG_CALLBACK_INSTANCE : VkFlags := 0x4.

Section FlagTranslator.
Context `{VulkanCore}.

(** [DebugReportFlagsToAnnotFlags]: the two out-parameters are returned as
    the pair (severity, type). *)
Definition DebugReportFlagsToAnnotFlags (dr_flags : VkFlags) (default_flag_is_spec : bool)
  : VkFlags * VkFlags :=
  let da_severity := 0 in
  let da_type := 0 in
  let '(da_severity, da_type) :=
    if test_bits dr_flags VK_DEBUG_REPORT_PERFORMANCE_WARNING_BIT_EXT
    then (N.lor da_severity VK_DEBUG_UTILS_MESSAGE_SEVERITY_WARNING_BIT_EXT,
          N.lor da_type VK_DEBUG_UTILS_MESSAGE_TYPE_PERFORMANCE_BIT_EXT)
    else (da_severity, da_type) in
  let '(da_severity, da_type) :=
    if test_bits dr_flags VK_DEBUG_REPORT_DEBUG_BIT_EXT
    then (N.lor da_severity VK_DEBUG_UTILS_MESSAGE_SEVERITY_VERBOSE_BIT_EXT,
          N.lor da_type (N.lor VK_DEBUG_UTILS_MESSAGE_TYPE_GENERAL_BIT_EXT
                               VK_DEBUG_UTILS_MESSAGE_TYPE_VALIDATION_BIT_EXT))
    else (da_severity, da_type) in
  let '(da_severity, da_type) :=
    if test_bits dr_flags VK_DEBUG_REPORT_INFORMATION_BIT_EXT
    then (N.lor da_severity VK_DEBUG_UTILS_MESSAGE_SEVERITY_INFO_BIT_EXT,
          N.lor da_type VK_DEBUG_UTILS_MESSAGE_TYPE_VALIDATION_BIT_EXT)
    else (da_severity, da_type) in
  let '(da_severity, da_type) :=
    if test_bits dr_flags VK_DEBUG_REPORT_WARNING_BIT_EXT
    then (N.lor da_severity VK_DEBUG_UTILS_MESSAGE_SEVERITY_WARNING_BIT_EXT,
          N.lor da_type VK_DEBUG_UTILS_MESSAGE_TYPE_VALIDATION_BIT_EXT)
    else (da_severity, da_type) in
  let '(da_severity, da_type) :=
    if test_bits dr_flags VK_DEBUG_REPORT_ERROR_BIT_EXT
    then (N.lor da_severity VK_DEBUG_UTILS_MESSAGE_SEVERITY_ERROR_BIT_EXT,
          N.lor da_type VK_DEBUG_UTILS_MESSAGE_TYPE_VALIDATION_BIT_EXT)
    else (da_severity, da_type) in
  (da_severity, da_type).

(** [DebugAnnotFlagsToReportFlags]: the out-parameter is the result. *)
Definition DebugAnnotFlagsToReportFlags (da_severity da_type : VkFlags) : VkFlags :=
  let dr_flags := 0 in
  if test_bits da_severity VK_DEBUG_UTILS_MESSAGE_SEVERITY_ERROR_BIT_EXT then
    N.lor dr_flags VK_DEBUG_REPORT_ERROR_BIT_EXT
  else if test_bits da_severity VK_DEBUG_UTILS_MESSAGE_SEVERITY_WARNING_BIT_EXT then
    if test_bits da_type VK_DEBUG_UTILS_MESSAGE_TYPE_PERFORMANCE_BIT_EXT then
      N.lor dr_flags VK_DEBUG_REPORT_PERFORMANCE_WARNING_BIT_EXT
    else
      N.lor dr_flags VK_DEBUG_REPORT_WARNING_BIT_EXT
  else if test_bits da_severity VK_DEBUG_UTILS_MESSAGE_SEVERITY_INFO_BIT_EXT then
    N.lor dr_flags VK_DEBUG_REPORT_INFORMATION_BIT_EXT
  else if test_bits da_severity VK_DEBUG_UTILS_MESSAGE_SEVERITY_VERBOSE_BIT_EXT then
    N.lor dr_flags VK_DEBUG_REPORT_DEBUG_BIT_EXT
  else dr_flags.

(** The round trip legacy -> rich -> legacy. *)
Definition report_round_trip (f : VkFlags) : VkFlags :=
  let '(severity, types) := DebugReportFlagsToAnnotFlags f true in
  DebugAnnotFlagsToReportFlags severity types.

(** The dominant legacy bit of [f] as the specification words it: error
    first, then performance-warning, else warning, then information, then
    debug; zero when none of the five is set. *)
Definition dominant_report_bit (f : VkFlags) : VkFlags :=
  if test_bits f VK_DEBUG_REPORT_ERROR_BIT_EXT then VK_DEBUG_REPORT_ERROR_BIT_EXT
  else if test_bits f VK_DEBUG_REPORT_PERFORMANCE_WARNING_BIT_EXT
       then VK_DEBUG_REPORT_PERFORMANCE_WARNING_BIT_EXT
  else if test_bits f VK_DEBUG_REPORT_WARNING_BIT_EXT then VK_DEBUG_REPORT_WARNING_BIT_EXT
  else if test_bits f VK_DEBUG_REPORT_INFORMATION_BIT_EXT
       then VK_DEBUG_REPORT_INFORMATION_BIT_EXT
  else if test_bits f VK_DEBUG_REPORT_DEBUG_BIT_EXT then VK_DEBUG_REPORT_DEBUG_BIT_EXT
  else 0.
End FlagTranslator.


(** ** Handles, strings and numbers *)

(** Vulkan handles ([VkQueue], [VkCommandBuffer], [VkDebugReportCallbackEXT],
    [VkDebugUtilsMessengerEXT]), object handles and [void*] user data are
    64-bit values; [CastToUint64], [CastToHandle] and [HandleToUint64] of
    [cast_utils.h] are the identity on them.  The null handle is 0. *)
Abbreviation Handle := N (only parsing).

(** [SIZE_MAX] of the LP64 targets; [index--] on a [size_t]. *)
Definition SIZE_MAX : N := 2 ^ 64 - 1.
Definition size_t_decr (index : N) : N := if index =? 0 then SIZE_MAX else index - 1.

(** [operator<<] under [std::hex], and [std::to_string]. *)
Definition to_hex (n : N) : string := HexadecimalString.NilZero.string_of_uint (N.to_hex_uint n).
Definition to_string (n : N) : string := DecimalString.NilZero.string_of_uint (N.to_uint n).

(** [std::string::empty] *)
Definition empty (s : string) : bool := bool_decide (s = "").

(** ** Labels *)

(** A [float] is carried as its IEEE-754 bit pattern: the code only copies
    colours, and [0.f] is the pattern 0. *)
Abbreviation float := N (only parsing).
Abbreviation Color := (float * float * float * float)%type.

Module VkDebugUtilsLabelEXT.
Record t := {
  pLabelName : option string;
  color : Color;
}.

(** A value-initialised element, as in [out(count)]. *)
Definition zero : t := {| pLabelName := None; color := (0, 0, 0, 0) |}.
End VkDebugUtilsLabelEXT.
Abbreviation VkDebugUtilsLabelEXT := VkDebugUtilsLabelEXT.t.

Module LoggingLabel.
Record t := {
  name : string;
  color : Color;
}.

(** [LoggingLabel()] *)
Definition default : t := {| name := ""; color := (0, 0, 0, 0) |}.

(** [LoggingLabel(const VkDebugUtilsLabelEXT *label_info)] *)
Definition of_info (label_info : option VkDebugUtilsLabelEXT) : t :=
  match label_info with
  | Some info =>
      match VkDebugUtilsLabelEXT.pLabelName info with
      | Some n => {| name := n; color := VkDebugUtilsLabelEXT.color info |}
      | None => default
      end
  | None => default
  end.

Definition Reset (_ : t) : t := default.
Definition Empty (l : t) : bool := empty (name l).

Definition Export (l : t) : VkDebugUtilsLabelEXT :=
  {| VkDebugUtilsLabelEXT.pLabelName := Some (name l);
     VkDebugUtilsLabelEXT.color := color l |}.
End LoggingLabel.
Abbreviation LoggingLabel := LoggingLabel.t.

Module LoggingLabelState.
Record t := {
  labels : list LoggingLabel;
  insert_label : LoggingLabel;
}.

(** [new LoggingLabelState()] *)
Definition default : t := {| labels := []; insert_label := LoggingLabel.default |}.

(** One iteration of [for (const auto &label : labels) out[index--] = label.Export();]
    on the pair (out, index). *)
Definition Export_step (st : list VkDebugUtilsLabelEXT * N) (label : LoggingLabel)
  : list VkDebugUtilsLabelEXT * N :=
  let '(out, index) := st in
  (<[N.to_nat index := LoggingLabel.Export label]> out, size_t_decr index).

(** [Export]: fills [out] from its last index downwards, the insert label
    first and then the labels in push order. *)
Definition Export (s : t) : list VkDebugUtilsLabelEXT :=
  let count := N.of_nat (length (labels s))
               + (if LoggingLabel.Empty (insert_label s) then 0 else 1) in
  let out := replicate (N.to_nat count) VkDebugUtilsLabelEXT.zero in
  if count =? 0 then out
  else
    let index := count - 1 in
    let '(out, index) :=
      if negb (LoggingLabel.Empty (insert_label s))
      then (<[N.to_nat index := LoggingLabel.Export (insert_label s)]> out, size_t_decr index)
      else (out, index) in
    fst (fold_left Export_step (labels s) (out, index)).
End LoggingLabelState.
Abbreviation LoggingLabelState := LoggingLabelState.t.

(** A [LoggingLabelState*] into one of the label maps is the key of the
    state it points to; [None] is [nullptr]. *)
Definition GetLoggingLabelState (map : gmap Handle LoggingLabelState) (key : Handle)
    (insert : bool) : gmap Handle LoggingLabelState * option Handle :=
  match map !! key with
  | None =>
      if insert then (<[key := LoggingLabelState.default]> map, Some key)
      else (map, None)
  | Some _ => (map, Some key)
  end.


(** ** Callbacks and the shared dispatch state *)

(** [VkDebugUtilsObjectNameInfoEXT] and [VkDebugMarkerObjectNameInfoEXT]
    ([sType] and [pNext] carry no information here). *)
Record VkDebugUtilsObjectNameInfoEXT := {
  objectType : N;
  objectHandle : Handle;
  pObjectName : option string;
}.

Record VkDebugMarkerObjectNameInfoEXT := {
  marker_objectType : N;
  object : Handle;
  marker_pObjectName : option string;
}.

(** [VkDebugUtilsMessengerCallbackDataEXT]: each (count, pointer) pair is a
    list; a null pointer goes with the count 0. *)
Record VkDebugUtilsMessengerCallbackDataEXT := {
  pMessageIdName : option string;
  messageIdNumber : Z;
  pMessage : string;
  pQueueLabels : list VkDebugUtilsLabelEXT;
  pCmdBufLabels : list VkDebugUtilsLabelEXT;
  pObjects : list VkDebugUtilsObjectNameInfoEXT;
}.

(** The arguments a [PFN_vkDebugReportCallbackEXT] is called with. *)
Record ReportCallbackArgs := {
  report_flags : VkFlags;
  report_objectType : N;
  report_object : Handle;
  report_location : N;
  report_messageCode : Z;
  report_pLayerPrefix : option string;
  report_pMessage : string;
  report_pUserData : Handle;
}.

(** The arguments a [PFN_vkDebugUtilsMessengerCallbackEXT] is called with. *)
Record MessengerCallbackArgs := {
  messageSeverity : VkFlags;
  messageTypes : VkFlags;
  pCallbackData : VkDebugUtilsMessengerCallbackDataEXT;
  messenger_pUserData : Handle;
}.

Section Model.
(** What the sinks act on.  A sink is a function pointer of the
    application: it returns its [VkBool32] and may change the world. *)
Context {W : Type}.
Context `{VulkanCore}.

(** [&callback_state] in [layer_create_callback]: the address of the
    element of index [i] in the storage of [debug_callback_list].  Memory
    layout is not modelled; nothing below depends on these values. *)
Context (callback_state_address : nat → Handle).

Definition PFN_vkDebugReportCallbackEXT : Type := ReportCallbackArgs → W → bool * W.
Definition PFN_vkDebugUtilsMessengerCallbackEXT : Type := MessengerCallbackArgs → W → bool * W.

Record VkLayerDbgFunctionState := {
  callback_status : VkFlags;
  debug_report_callback_object : Handle;
  debug_report_callback_function_ptr : option PFN_vkDebugReportCallbackEXT;
  debug_report_msg_flags : VkFlags;
  debug_utils_callback_object : Handle;
  debug_utils_msg_flags : VkFlags;
  debug_utils_msg_type : VkFlags;
  debug_utils_callback_function_ptr : option PFN_vkDebugUtilsMessengerCallbackEXT;
  pUserData : Handle;
}.

Definition IsUtils (s : VkLayerDbgFunctionState) : bool :=
  test_bits (callback_status s) DEBUG_CALLBACK_UTILS.
Definition IsDefault (s : VkLayerDbgFunctionState) : bool :=
  test_bits (callback_status s) DEBUG_CALLBACK_DEFAULT.
Definition IsInstance (s : VkLayerDbgFunctionState) : bool :=
  test_bits (callback_status s) DEBUG_CALLBACK_INSTANCE.

(** [VkLayerDbgFunctionState()] *)
Definition VkLayerDbgFunctionState_zero : VkLayerDbgFunctionState := {|
  callback_status := 0;
  debug_report_callback_object := 0;
  debug_report_callback_function_ptr := None;
  debug_report_msg_flags := 0;
  debug_utils_callback_object := 0;
  debug_utils_msg_flags := 0;
  debug_utils_msg_type := 0;
  debug_utils_callback_function_ptr := None;
  pUserData := 0;
|}.

Record VkDebugUtilsMessengerCreateInfoEXT := {
  messenger_flags : VkFlags;
  ci_messageSeverity : VkFlags;
  ci_messageType : VkFlags;
  pfnUserCallback : option PFN_vkDebugUtilsMessengerCallbackEXT;
  messenger_ci_pUserData : Handle;
}.

Record VkDebugReportCallbackCreateInfoEXT := {
  flags : VkFlags;
  pfnCallback : option PFN_vkDebugReportCallbackEXT;
  report_ci_pUserData : Handle;
}.

(** A structure of a [pNext] chain, told apart by its [sType].  A pointer
    into a chain is the list of the structures from there on; [nullptr]
    is the empty list. *)
Inductive ChainStruct :=
| ChainMessengerCreateInfo (create_info : VkDebugUtilsMessengerCreateInfoEXT)
| ChainReportCreateInfo (create_info : VkDebugReportCallbackCreateInfoEXT)
| ChainOther (sType : N).

(** [debug_report_data], without its mutex. *)
Record debug_report_data := {
  debug_callback_list : list VkLayerDbgFunctionState;
  active_severities : VkFlags;
  active_types : VkFlags;
  queueLabelHasInsert : bool;
  cmdBufLabelHasInsert : bool;
  debugObjectNameMap : gmap Handle string;
  debugUtilsObjectNameMap : gmap Handle string;
  debugUtilsQueueLabels : gmap Handle LoggingLabelState;
  debugUtilsCmdBufLabels : gmap Handle LoggingLabelState;
  instance_pnext_chain : list ChainStruct;
}.

(** [new debug_report_data] with the given [instance_pnext_chain]. *)
Definition debug_report_data_new (chain : list ChainStruct) : debug_report_data := {|
  debug_callback_list := [];
  active_severities := 0;
  active_types := 0;
  queueLabelHasInsert := false;
  cmdBufLabelHasInsert := false;
  debugObjectNameMap := ∅;
  debugUtilsObjectNameMap := ∅;
  debugUtilsQueueLabels := ∅;
  debugUtilsCmdBufLabels := ∅;
  instance_pnext_chain := chain;
|}.

(** Assignments to single members. *)
Definition set_debug_callback_list (l : list VkLayerDbgFunctionState) (d : debug_report_data) :=
  {| debug_callback_list := l;
     active_severities := active_severities d;
     active_types := active_types d;
     queueLabelHasInsert := queueLabelHasInsert d;
     cmdBufLabelHasInsert := cmdBufLabelHasInsert d;
     debugObjectNameMap := debugObjectNameMap d;
     debugUtilsObjectNameMap := debugUtilsObjectNameMap d;
     debugUtilsQueueLabels := debugUtilsQueueLabels d;
     debugUtilsCmdBufLabels := debugUtilsCmdBufLabels d;
     instance_pnext_chain := instance_pnext_chain d |}.

Definition set_active (severities types : VkFlags) (d : debug_report_data) :=
  {| debug_callback_list := debug_callback_list d;
     active_severities := severities;
     active_types := types;
     queueLabelHasInsert := queueLabelHasInsert d;
     cmdBufLabelHasInsert := cmdBufLabelHasInsert d;
     debugObjectNameMap := debugObjectNameMap d;
     debugUtilsObjectNameMap := debugUtilsObjectNameMap d;
     debugUtilsQueueLabels := debugUtilsQueueLabels d;
     debugUtilsCmdBufLabels := debugUtilsCmdBufLabels d;
     instance_pnext_chain := instance_pnext_chain d |}.

Definition set_debugObjectNameMap (m : gmap Handle string) (d : debug_report_data) :=
  {| debug_callback_list := debug_callback_list d;
     active_severities := active_severities d;
     active_types := active_types d;
     queueLabelHasInsert := queueLabelHasInsert d;
     cmdBufLabelHasInsert := cmdBufLabelHasInsert d;
     debugObjectNameMap := m;
     debugUtilsObjectNameMap := debugUtilsObjectNameMap d;
     debugUtilsQueueLabels := debugUtilsQueueLabels d;
     debugUtilsCmdBufLabels := debugUtilsCmdBufLabels d;
     instance_pnext_chain := instance_pnext_chain d |}.

Definition set_debugUtilsObjectNameMap (m : gmap Handle string) (d : debug_report_data) :=
  {| debug_callback_list := debug_callback_list d;
     active_severities := active_severities d;
     active_types := active_types d;
     queueLabelHasInsert := queueLabelHasInsert d;
     cmdBufLabelHasInsert := cmdBufLabelHasInsert d;
     debugObjectNameMap := debugObjectNameMap d;
     debugUtilsObjectNameMap := m;
     debugUtilsQueueLabels := debugUtilsQueueLabels d;
     debugUtilsCmdBufLabels := debugUtilsCmdBufLabels d;
     instance_pnext_chain := instance_pnext_chain d |}.

Definition set_debugUtilsQueueLabels (m : gmap Handle LoggingLabelState)
    (d : debug_report_data) :=
  {| debug_callback_list := debug_callback_list d;
     active_severities := active_severities d;
     active_types := active_types d;
     queueLabelHasInsert := queueLabelHasInsert d;
     cmdBufLabelHasInsert := cmdBufLabelHasInsert d;
     debugObjectNameMap := debugObjectNameMap d;
     debugUtilsObjectNameMap := debugUtilsObjectNameMap d;
     debugUtilsQueueLabels := m;
     debugUtilsCmdBufLabels := debugUtilsCmdBufLabels d;
     instance_pnext_chain := instance_pnext_chain d |}.

Definition set_debugUtilsCmdBufLabels (m : gmap Handle LoggingLabelState)
    (d : debug_report_data) :=
  {| debug_callback_list := debug_callback_list d;
     active_severities := active_severities d;
     active_types := active_types d;
     queueLabelHasInsert := queueLabelHasInsert d;
     cmdBufLabelHasInsert := cmdBufLabelHasInsert d;
     debugObjectNameMap := debugObjectNameMap d;
     debugUtilsObjectNameMap := debugUtilsObjectNameMap d;
     debugUtilsQueueLabels := debugUtilsQueueLabels d;
     debugUtilsCmdBufLabels := m;
     instance_pnext_chain := instance_pnext_chain d |}.

(** *** Object names *)

Definition DebugReportSetUtilsObjectName (d : debug_report_data)
    (pNameInfo : VkDebugUtilsObjectNameInfoEXT) : debug_report_data :=
  match pObjectName pNameInfo with
  | Some n =>
      set_debugUtilsObjectNameMap (<[objectHandle pNameInfo := n]> (debugUtilsObjectNameMap d)) d
  | None =>
      set_debugUtilsObjectNameMap (delete (objectHandle pNameInfo) (debugUtilsObjectNameMap d)) d
  end.

Definition DebugReportSetMarkerObjectName (d : debug_report_data)
    (pNameInfo : VkDebugMarkerObjectNameInfoEXT) : debug_report_data :=
  match marker_pObjectName pNameInfo with
  | Some n => set_debugObjectNameMap (<[object pNameInfo := n]> (debugObjectNameMap d)) d
  | None => set_debugObjectNameMap (delete (object pNameInfo) (debugObjectNameMap d)) d
  end.

Definition DebugReportGetUtilsObjectName (d : debug_report_data) (object : Handle) : string :=
  let label := "" in
  match debugUtilsObjectNameMap d !! object with
  | Some n => n
  | None => label
  end.

Definition DebugReportGetMarkerObjectName (d : debug_report_data) (object : Handle) : string :=
  let label := "" in
  match debugObjectNameMap d !! object with
  | Some n => n
  | None => label
  end.

(** The local [handle_name] of [FormatHandle], which is also the
    [object_label] of [debug_log_msg]. *)
Definition handle_name (d : debug_report_data) (handle : Handle) : string :=
  let handle_name := DebugReportGetUtilsObjectName d handle in
  if empty handle_name then DebugReportGetMarkerObjectName d handle else handle_name.

(** [FormatHandle(const char *, uint64_t)], format ["%s 0x%" PRIxLEAST64 "[%s]"]. *)
Definition FormatHandle (d : debug_report_data) (handle_type_name : string)
    (handle : Handle) : string :=
  handle_type_name +:+ " 0x" +:+ to_hex handle +:+ "[" +:+ handle_name d handle +:+ "]".

(** *** Labels of queues and command buffers *)

(** The body shared by [BeginQueueDebugUtilsLabel] and
    [BeginCmdDebugUtilsLabel], on the map each of them passes. *)
Definition BeginDebugUtilsLabel (map : gmap Handle LoggingLabelState) (key : Handle)
    (label_info : option VkDebugUtilsLabelEXT) : gmap Handle LoggingLabelState :=
  match label_info with
  | Some info =>
      match VkDebugUtilsLabelEXT.pLabelName info with
      | Some _ =>
          let '(map, label_state) := GetLoggingLabelState map key true in
          match label_state with
          | Some p =>
              let map :=
                alter (λ s, {| LoggingLabelState.labels :=
                                 LoggingLabelState.labels s ++ [LoggingLabel.of_info label_info];
                               LoggingLabelState.insert_label :=
                                 LoggingLabelState.insert_label s |}) p map in
              alter (λ s, {| LoggingLabelState.labels := LoggingLabelState.labels s;
                             LoggingLabelState.insert_label :=
                               LoggingLabel.Reset (LoggingLabelState.insert_label s) |}) p map
          | None => map
          end
      | None => map
      end
  | None => map
  end.

(** [labels.pop_back()] *)
Definition pop_back {A} (l : list A) : list A := take (length l - 1) l.

Definition EndDebugUtilsLabel (map : gmap Handle LoggingLabelState) (key : Handle)
  : gmap Handle LoggingLabelState :=
  let '(map, label_state) := GetLoggingLabelState map key false in
  match label_state with
  | Some p =>
      let map :=
        alter (λ s, if bool_decide (LoggingLabelState.labels s = []) then s
                    else {| LoggingLabelState.labels := pop_back (LoggingLabelState.labels s);
                            LoggingLabelState.insert_label :=
                              LoggingLabelState.insert_label s |}) p map in
      alter (λ s, {| LoggingLabelState.labels := LoggingLabelState.labels s;
                     LoggingLabelState.insert_label :=
                       LoggingLabel.Reset (LoggingLabelState.insert_label s) |}) p map
  | None => map
  end.

Definition InsertDebugUtilsLabel (map : gmap Handle LoggingLabelState) (key : Handle)
    (label_info : option VkDebugUtilsLabelEXT) : gmap Handle LoggingLabelState :=
  let '(map, label_state) := GetLoggingLabelState map key true in
  match label_state with
  | Some p =>
      alter (λ s, {| LoggingLabelState.labels := LoggingLabelState.labels s;
                     LoggingLabelState.insert_label := LoggingLabel.of_info label_info |}) p map
  | None => map
  end.

Definition BeginQueueDebugUtilsLabel (report_data : debug_report_data) (queue : Handle)
    (label_info : option VkDebugUtilsLabelEXT) : debug_report_data :=
  set_debugUtilsQueueLabels
    (BeginDebugUtilsLabel (debugUtilsQueueLabels report_data) queue label_info) report_data.

Definition EndQueueDebugUtilsLabel (report_data : debug_report_data) (queue : Handle)
  : debug_report_data :=
  set_debugUtilsQueueLabels
    (EndDebugUtilsLabel (debugUtilsQueueLabels report_data) queue) report_data.

Definition InsertQueueDebugUtilsLabel (report_data : debug_report_data) (queue : Handle)
    (label_info : option VkDebugUtilsLabelEXT) : debug_report_data :=
  set_debugUtilsQueueLabels
    (InsertDebugUtilsLabel (debugUtilsQueueLabels report_data) queue label_info) report_data.

Definition BeginCmdDebugUtilsLabel (report_data : debug_report_data) (command_buffer : Handle)
    (label_info : option VkDebugUtilsLabelEXT) : debug_report_data :=
  set_debugUtilsCmdBufLabels
    (BeginDebugUtilsLabel (debugUtilsCmdBufLabels report_data) command_buffer label_info)
    report_data.

Definition EndCmdDebugUtilsLabel (report_data : debug_report_data) (command_buffer : Handle)
  : debug_report_data :=
  set_debugUtilsCmdBufLabels
    (EndDebugUtilsLabel (debugUtilsCmdBufLabels report_data) command_buffer) report_data.

Definition InsertCmdDebugUtilsLabel (report_data : debug_report_data)
    (command_buffer : Handle) (label_info : option VkDebugUtilsLabelEXT)
  : debug_report_data :=
  set_debugUtilsCmdBufLabels
    (InsertDebugUtilsLabel (debugUtilsCmdBufLabels report_data) command_buffer label_info)
    report_data.

Definition ResetCmdDebugUtilsLabel (report_data : debug_report_data)
    (command_buffer : Handle) : debug_report_data :=
  let '(map, label_state) :=
    GetLoggingLabelState (debugUtilsCmdBufLabels report_data) command_buffer false in
  match label_state with
  | Some p =>
      set_debugUtilsCmdBufLabels
        (alter (λ s, {| LoggingLabelState.labels := [];
                        LoggingLabelState.insert_label :=
                          LoggingLabel.Reset (LoggingLabelState.insert_label s) |}) p map)
        report_data
  | None => report_data
  end.

Definition EraseCmdDebugUtilsLabel (report_data : debug_report_data)
    (command_buffer : Handle) : debug_report_data :=
  set_debugUtilsCmdBufLabels (delete command_buffer (debugUtilsCmdBufLabels report_data))
    report_data.

(** The labels [debug_log_msg] attaches for a queue or a command buffer:
    [find] in the map, then [Export] when the key is there. *)
Definition export_labels (map : gmap Handle LoggingLabelState) (key : Handle)
  : list VkDebugUtilsLabelEXT :=
  match map !! key with
  | Some s => LoggingLabelState.Export s
  | None => []
  end.

(** *** The callback registry *)

Definition SetDebugUtilsSeverityFlags (callbacks : list VkLayerDbgFunctionState)
    (debug_data : debug_report_data) : debug_report_data :=
  fold_left
    (λ debug_data item,
       if IsUtils item then
         set_active (N.lor (active_severities debug_data) (debug_utils_msg_flags item))
                    (N.lor (active_types debug_data) (debug_utils_msg_type item)) debug_data
       else
         let '(severities, types) :=
           DebugReportFlagsToAnnotFlags (debug_report_msg_flags item) true in
         set_active (N.lor (active_severities debug_data) severities)
                    (N.lor (active_types debug_data) types) debug_data)
    callbacks debug_data.

(** The test under which the search loop of [RemoveDebugUtilsCallback]
    breaks at [item]. *)
Definition callback_matches (item : VkLayerDbgFunctionState) (callback : Handle) : bool :=
  if IsUtils item then bool_decide (debug_utils_callback_object item = callback)
  else bool_decide (debug_report_callback_object item = callback).

(** The position at which that loop stops: the index of the first
    matching element, or the size of the vector ([callbacks.end()]). *)
Fixpoint find_callback (callbacks : list VkLayerDbgFunctionState) (callback : Handle) : nat :=
  match callbacks with
  | [] => 0%nat
  | item :: rest =>
      if callback_matches item callback then 0%nat else S (find_callback rest callback)
  end.

(** [RemoveDebugUtilsCallback]; its parameter [callbacks] is a reference to
    [debug_data->debug_callback_list] at its only call. *)
Definition RemoveDebugUtilsCallback (debug_data : debug_report_data) (callback : Handle)
  : debug_report_data :=
  let callbacks := debug_callback_list debug_data in
  let item := find_callback callbacks callback in
  let callbacks :=
    if bool_decide (item ≠ length callbacks) then delete item callbacks else callbacks in
  let debug_data := set_debug_callback_list callbacks debug_data in
  SetDebugUtilsSeverityFlags callbacks debug_data.

(** [RemoveAllMessageCallbacks], likewise on [debug_data->debug_callback_list]. *)
Definition RemoveAllMessageCallbacks (debug_data : debug_report_data) : debug_report_data :=
  set_debug_callback_list [] debug_data.

Definition layer_destroy_callback (debug_data : debug_report_data) (callback : Handle)
  : debug_report_data :=
  RemoveDebugUtilsCallback debug_data callback.

(** The two instances of the template parameter [TCreateInfo]. *)
Inductive CreateInfo :=
| MessengerCreateInfo (create_info : VkDebugUtilsMessengerCreateInfoEXT)
| ReportCreateInfo (create_info : VkDebugReportCallbackCreateInfoEXT).

Definition create_info_pUserData (create_info : CreateInfo) : Handle :=
  match create_info with
  | MessengerCreateInfo ci => messenger_ci_pUserData ci
  | ReportCreateInfo ci => report_ci_pUserData ci
  end.

(** [layer_create_callback].  [callback] is the value of [*callback] on
    entry; the result carries its value on exit.  The element is appended
    and then filled in through [callback_state]; a [reinterpret_cast] of
    the create-info to the structure of the other scheme has no defined
    result ([None]). *)
Definition layer_create_callback (callback_status : VkFlags) (debug_data : debug_report_data)
    (create_info : CreateInfo) (callback : Handle) : option (debug_report_data * Handle) :=
  let callback_state := VkLayerDbgFunctionState_zero in
  let index := length (debug_callback_list debug_data) in
  filled ←
    (if test_bits callback_status DEBUG_CALLBACK_UTILS then
       match create_info with
       | MessengerCreateInfo utils_create_info =>
           let utils_callback :=
             if callback =? 0 then callback_state_address index else callback in
           Some (utils_callback,
                 {| callback_status := callback_status;
                    debug_report_callback_object := debug_report_callback_object callback_state;
                    debug_report_callback_function_ptr :=
                      debug_report_callback_function_ptr callback_state;
                    debug_report_msg_flags := debug_report_msg_flags callback_state;
                    debug_utils_callback_object := utils_callback;
                    debug_utils_msg_flags := ci_messageSeverity utils_create_info;
                    debug_utils_msg_type := ci_messageType utils_create_info;
                    debug_utils_callback_function_ptr := pfnUserCallback utils_create_info;
                    pUserData := create_info_pUserData create_info |})
       | ReportCreateInfo _ => None
       end
     else
       match create_info with
       | ReportCreateInfo report_create_info =>
           let report_callback :=
             if callback =? 0 then callback_state_address index else callback in
           Some (report_callback,
                 {| callback_status := callback_status;
                    debug_report_callback_object := report_callback;
                    debug_report_callback_function_ptr := pfnCallback report_create_info;
                    debug_report_msg_flags := flags report_create_info;
                    debug_utils_callback_object := debug_utils_callback_object callback_state;
                    debug_utils_msg_flags := debug_utils_msg_flags callback_state;
                    debug_utils_msg_type := debug_utils_msg_type callback_state;
                    debug_utils_callback_function_ptr :=
                      debug_utils_callback_function_ptr callback_state;
                    pUserData := create_info_pUserData create_info |})
       | MessengerCreateInfo _ => None
       end);
  let '(callback, callback_state) := filled in
  let callbacks := debug_callback_list debug_data ++ [callback_state] in
  let debug_data := set_debug_callback_list callbacks debug_data in
  Some (SetDebugUtilsSeverityFlags callbacks debug_data, callback).

(** [VkResult] *)
Definition VkResult := Z.

Definition layer_create_messenger_callback (debug_data : debug_report_data)
    (default_callback : bool) (create_info : VkDebugUtilsMessengerCreateInfoEXT)
    (messenger : Handle) : option (VkResult * debug_report_data * Handle) :=
  '(debug_data, messenger) ←
    layer_create_callback
      (N.lor DEBUG_CALLBACK_UTILS (if default_callback then DEBUG_CALLBACK_DEFAULT else 0))
      debug_data (MessengerCreateInfo create_info) messenger;
  Some (VK_SUCCESS, debug_data, messenger).

Definition layer_create_report_callback (debug_data : debug_report_data)
    (default_callback : bool) (create_info : VkDebugReportCallbackCreateInfoEXT)
    (callback : Handle) : option (VkResult * debug_report_data * Handle) :=
  '(debug_data, callback) ←
    layer_create_callback (if default_callback then DEBUG_CALLBACK_DEFAULT else 0)
      debug_data (ReportCreateInfo create_info) callback;
  Some (VK_SUCCESS, debug_data, callback).

(** *** Instance-scoped callbacks *)

(** [LvlTypeMap<T>::kSType == current->sType], with the structure read as
    a [T] when it holds. *)
Definition is_messenger_create_info (current : ChainStruct)
  : option VkDebugUtilsMessengerCreateInfoEXT :=
  match current with
  | ChainMessengerCreateInfo create_info => Some create_info
  | _ => None
  end.

Definition is_report_create_info (current : ChainStruct)
  : option VkDebugReportCallbackCreateInfoEXT :=
  match current with
  | ChainReportCreateInfo create_info => Some create_info
  | _ => None
  end.

(** Modelled from the spec: [lvl_find_in_chain] of [vk_typemap_helper.h] is
    not among the sources.  It scans the extension chain from [next] on
    for the first structure of the wanted kind; the result is that
    structure together with its [pNext], or [None] for [nullptr]. *)
Fixpoint lvl_find_in_chain {T} (kSType : ChainStruct → option T) (next : list ChainStruct)
  : option (T * list ChainStruct) :=
  match next with
  | [] => None
  | current :: pNext =>
      match kSType current with
      | Some found => Some (found, pNext)
      | None => lvl_find_in_chain kSType pNext
      end
  end.

(** The first [for (;;)] loop of [ActivateInstanceDebugCallbacks], from
    [current] on; it yields the [current] it leaves behind. *)
Equations? activate_messengers (current : list ChainStruct) (debug_data : debug_report_data)
  : option (list ChainStruct * debug_report_data) by wf (length current) lt :=
  activate_messengers current debug_data
    with inspect (lvl_find_in_chain is_messenger_create_info current) := {
    | exist _ None _ => Some (current, debug_data)
    | exist _ (Some (create_info, pNext)) Hfound
        with layer_create_callback (N.lor DEBUG_CALLBACK_UTILS DEBUG_CALLBACK_INSTANCE)
               debug_data (MessengerCreateInfo create_info) 0 := {
        | Some (debug_data', utils_callback) => activate_messengers pNext debug_data'
        | None => None } }.
Proof.
  clear -Hfound. revert Hfound.
  induction current as [|s rest IH]; simpl; [done|].
  destruct (_ s); [intros [= _ <-]; lia|].
  intros Hf. specialize (IH Hf). lia.
Qed.

(** The second loop, on report create-infos. *)
Equations? activate_reports (current : list ChainStruct) (debug_data : debug_report_data)
  : option (list ChainStruct * debug_report_data) by wf (length current) lt :=
  activate_reports current debug_data
    with inspect (lvl_find_in_chain is_report_create_info current) := {
    | exist _ None _ => Some (current, debug_data)
    | exist _ (Some (create_info, pNext)) Hfound
        with layer_create_callback DEBUG_CALLBACK_INSTANCE
               debug_data (ReportCreateInfo create_info) 0 := {
        | Some (debug_data', report_callback) => activate_reports pNext debug_data'
        | None => None } }.
Proof.
  clear -Hfound. revert Hfound.
  induction current as [|s rest IH]; simpl; [done|].
  destruct (_ s); [intros [= _ <-]; lia|].
  intros Hf. specialize (IH Hf). lia.
Qed.

Definition ActivateInstanceDebugCallbacks (debug_data : debug_report_data)
  : option debug_report_data :=
  let current := instance_pnext_chain debug_data in
  '(current, debug_data) ← activate_messengers current debug_data;
  '(current, debug_data) ← activate_reports current debug_data;
  Some debug_data.

(** *** Dispatch: [debug_log_msg] *)

(** One call of a sink as observed from outside: the index of the element
    of [debug_callback_list] it belongs to, the arguments it received and
    the [VkBool32] it returned. *)
Inductive Invocation :=
| ReportInvocation (index : nat) (args : ReportCallbackArgs) (result : bool)
| MessengerInvocation (index : nat) (args : MessengerCallbackArgs) (result : bool).

Definition invocation_index (i : Invocation) : nat :=
  match i with ReportInvocation n _ _ | MessengerInvocation n _ _ => n end.

Definition invocation_result (i : Invocation) : bool :=
  match i with ReportInvocation _ _ r | MessengerInvocation _ _ r => r end.

(** The variables the callback loop of [debug_log_msg] changes, with the
    world of the sinks and the calls made so far. *)
Record LogState := {
  bail : bool;
  new_debug_report_message : string;
  world : W;
  calls : list Invocation;
}.

Section debug_log_msg.
Context (debug_data : debug_report_data) (msg_flags : VkFlags) (object_type : N)
  (src_object : Handle) (location : N) (layer_prefix : option string) (message : string)
  (text_vuid : option string).

(** [severity] and [types] after the conversion to the debug-utils form. *)
Definition log_severity : VkFlags := fst (DebugReportFlagsToAnnotFlags msg_flags true).
Definition log_types : VkFlags := snd (DebugReportFlagsToAnnotFlags msg_flags true).

(** [object_name_info.objectType] *)
Definition log_objectType : N := convertDebugReportObjectToCoreObject object_type.

(** [queue_labels] and [cmd_buf_labels] when the callbacks are reached. *)
Definition log_queue_labels : list VkDebugUtilsLabelEXT :=
  if negb (src_object =? 0) then
    if VK_OBJECT_TYPE_QUEUE =? log_objectType
    then export_labels (debugUtilsQueueLabels debug_data) src_object
    else []
  else [].

Definition log_cmd_buf_labels : list VkDebugUtilsLabelEXT :=
  if negb (src_object =? 0) then
    if VK_OBJECT_TYPE_QUEUE =? log_objectType then []
    else if VK_OBJECT_TYPE_COMMAND_BUFFER =? log_objectType
    then export_labels (debugUtilsCmdBufLabels debug_data) src_object
    else []
  else [].

(** [object_label] *)
Definition log_object_label : string :=
  if negb (src_object =? 0) then handle_name debug_data src_object else "".

Definition log_object_name_info : VkDebugUtilsObjectNameInfoEXT :=
  {| objectType := log_objectType;
     objectHandle := src_object;
     pObjectName :=
       if negb (src_object =? 0) && negb (empty log_object_label)
       then Some log_object_label else None |}.

Definition log_callback_data : VkDebugUtilsMessengerCallbackDataEXT :=
  {| pMessageIdName := text_vuid;
     messageIdNumber := 0;
     pMessage := message;
     pQueueLabels := log_queue_labels;
     pCmdBufLabels := log_cmd_buf_labels;
     pObjects := [log_object_name_info] |}.

(** [oss.str()] *)
Definition log_oss : string :=
  if negb (src_object =? 0) then
    "Object: 0x" +:+ to_hex src_object
      +:+ (if negb (empty log_object_label)
           then " (Name = " +:+ log_object_label +:+ " : Type = "
           else " (Type = ")
      +:+ to_string object_type +:+ ")"
  else "Object: VK_NULL_HANDLE (Type = " +:+ to_string object_type +:+ ")".

(** [new_debug_report_message] before the callback loop. *)
Definition log_message : string := "" +:+ log_oss +:+ " | " +:+ message.

(** [use_default_callbacks] after the first loop over the list. *)
Definition use_default_callbacks : bool :=
  fold_left (λ use_default current_callback, use_default && IsDefault current_callback)
    (debug_callback_list debug_data) true.

(** The body of the second loop for the element of index [index].  A
    call through a null function pointer has no result. *)
Definition log_callback (st : LogState) (index : nat)
    (current_callback : VkLayerDbgFunctionState) : option LogState :=
  if IsDefault current_callback && negb use_default_callbacks then Some st
  else if negb (IsUtils current_callback)
          && test_bits (debug_report_msg_flags current_callback) msg_flags then
    let new_message :=
      match text_vuid with
      | Some vuid => " [ " +:+ (vuid +:+ (" ] " +:+ new_debug_report_message st))
      | None => new_debug_report_message st
      end in
    match debug_report_callback_function_ptr current_callback with
    | Some pfn =>
        let args :=
          {| report_flags := msg_flags;
             report_objectType := object_type;
             report_object := src_object;
             report_location := location;
             report_messageCode := 0;
             report_pLayerPrefix := layer_prefix;
             report_pMessage := new_message;
             report_pUserData := pUserData current_callback |} in
        let '(result, w) := pfn args (world st) in
        Some {| bail := if result then true else bail st;
                new_debug_report_message := new_message;
                world := w;
                calls := calls st ++ [ReportInvocation index args result] |}
    | None => None
    end
  else if IsUtils current_callback
          && test_bits (debug_utils_msg_flags current_callback) log_severity
          && test_bits (debug_utils_msg_type current_callback) log_types then
    match debug_utils_callback_function_ptr current_callback with
    | Some pfn =>
        let args :=
          {| messageSeverity := log_severity;
             messageTypes := log_types;
             pCallbackData := log_callback_data;
             messenger_pUserData := pUserData current_callback |} in
        let '(result, w) := pfn args (world st) in
        Some {| bail := if result then true else bail st;
                new_debug_report_message := new_debug_report_message st;
                world := w;
                calls := calls st ++ [MessengerInvocation index args result] |}
    | None => None
    end
  else Some st.

(** [for (auto current_callback : *callback_list)], from the element of
    index [index] on. *)
Fixpoint log_callbacks (callback_list : list VkLayerDbgFunctionState) (index : nat)
    (st : LogState) : option LogState :=
  match callback_list with
  | [] => Some st
  | current_callback :: rest =>
      st ← log_callback st index current_callback;
      log_callbacks rest (S index) st
  end.

(** [debug_log_msg] in the world [w]: the returned [bail], the calls made
    to the sinks, and the world they leave. *)
Definition debug_log_msg (w : W) : option (bool * list Invocation * W) :=
  st ← log_callbacks (debug_callback_list debug_data) 0
         {| bail := false; new_debug_report_message := log_message;
            world := w; calls := [] |};
  Some (bail st, calls st, world st).
End debug_log_msg.
End Model.

(** ** Statements of the specification used below *)

(** The state [begin] leaves for a key whose state was [old]: the label
    pushed on top, the insert slot cleared. *)
Definition pushed (old : option LoggingLabelState) (n : string) (c : Color)
  : LoggingLabelState :=
  {| LoggingLabelState.labels :=
       LoggingLabelState.labels (default LoggingLabelState.default old)
       ++ [{| LoggingLabel.name := n; LoggingLabel.color := c |}];
     LoggingLabelState.insert_label := LoggingLabel.default |}.

(** "[begin(key, label)] is a no-op if label is null or has an empty name",
    for a queue. *)
Definition begin_skips_empty_label {W} (d : @debug_report_data W) (queue : Handle)
    (label_info : option VkDebugUtilsLabelEXT) : Prop :=
  LoggingLabel.Empty (LoggingLabel.of_info label_info) = true →
  BeginQueueDebugUtilsLabel d queue label_info = d.

(** "[setName]: if empty/absent, erase the entry", for the modern scheme. *)
Definition set_name_erases_empty {W} (d : @debug_report_data W)
    (pNameInfo : VkDebugUtilsObjectNameInfoEXT) : Prop :=
  default "" (pObjectName pNameInfo) = "" →
  debugUtilsObjectNameMap (DebugReportSetUtilsObjectName d pNameInfo)
    !! objectHandle pNameInfo = None.

(** The effective modern masks of an entry, and their union over a list:
    what the aggregates are specified to equal. *)
Definition effective_masks {W} `{VulkanCore} (item : @VkLayerDbgFunctionState W)
  : VkFlags * VkFlags :=
  if IsUtils item then (debug_utils_msg_flags item, debug_utils_msg_type item)
  else DebugReportFlagsToAnnotFlags (debug_report_msg_flags item) true.

Definition union_masks {W} `{VulkanCore} (l : list (@VkLayerDbgFunctionState W))
  : VkFlags * VkFlags :=
  foldr (λ item acc, (N.lor (effective_masks item).1 acc.1,
                      N.lor (effective_masks item).2 acc.2)) (0, 0) l.

Definition aggregates_exact {W} `{VulkanCore} (d : @debug_report_data W) : Prop :=
  (active_severities d, active_types d) = union_masks (debug_callback_list d).

Section DispatchSpec.
Context {W : Type} `{VulkanCore}.

(** The function pointer of the scheme of [item] is not null. *)
Definition callable (item : @VkLayerDbgFunctionState W) : bool :=
  if IsUtils item then
    match debug_utils_callback_function_ptr item with Some _ => true | None => false end
  else
    match debug_report_callback_function_ptr item with Some _ => true | None => false end.

(** Step 5 of dispatch: a default-role sink is eligible when no non-default
    sink is registered; any other sink is. *)
Definition sink_eligible (d : @debug_report_data W) (item : @VkLayerDbgFunctionState W)
  : bool :=
  negb (IsDefault item) || forallb IsDefault (debug_callback_list d).

(** Step 6 of dispatch: the filter of each scheme. *)
Definition sink_fires (msg_flags : VkFlags) (item : @VkLayerDbgFunctionState W) : bool :=
  if IsUtils item then
    test_bits (debug_utils_msg_flags item) (log_severity msg_flags)
    && test_bits (debug_utils_msg_type item) (log_types msg_flags)
  else test_bits (debug_report_msg_flags item) msg_flags.

(** The eligible firing sinks of [l] with their indices, counted from
    [index], in registration order. *)
Fixpoint firing_sinks (d : @debug_report_data W) (msg_flags : VkFlags) (index : nat)
    (l : list (@VkLayerDbgFunctionState W)) : list (nat * @VkLayerDbgFunctionState W) :=
  match l with
  | [] => []
  | item :: rest =>
      if sink_eligible d item && sink_fires msg_flags item
      then (index, item) :: firing_sinks d msg_flags (S index) rest
      else firing_sinks d msg_flags (S index) rest
  end.

(** The identifier put in front of a message the way the code does it. *)
Definition prepend_vuid (text_vuid : option string) (msg : string) : string :=
  match text_vuid with
  | Some vuid => " [ " +:+ vuid +:+ " ] " +:+ msg
  | None => msg
  end.

(** The calls [calls] are those the sinks [sinks] receive, in order, when
    the message for the legacy sinks is [msg] before the first of them:
    a modern sink gets the structured record, a legacy sink the message
    with the identifier put in front of what the previous legacy sink got. *)
Fixpoint calls_of (d : @debug_report_data W) (msg_flags : VkFlags) (object_type : N)
    (src_object : Handle) (location : N) (layer_prefix : option string) (message : string)
    (text_vuid : option string) (msg : string)
    (sinks : list (nat * @VkLayerDbgFunctionState W)) (calls : list Invocation) : Prop :=
  match sinks, calls with
  | [], [] => True
  | (index, item) :: sinks, call :: calls =>
      if IsUtils item then
        (∃ result,
           call = MessengerInvocation index
                    {| messageSeverity := log_severity msg_flags;
                       messageTypes := log_types msg_flags;
                       pCallbackData :=
                         log_callback_data d object_type src_object message text_vuid;
                       messenger_pUserData := pUserData item |} result)
        ∧ calls_of d msg_flags object_type src_object location layer_prefix message
            text_vuid msg sinks calls
      else
        (∃ result,
           call = ReportInvocation index
                    {| report_flags := msg_flags;
                       report_objectType := object_type;
                       report_object := src_object;
                       report_location := location;
                       report_messageCode := 0;
                       report_pLayerPrefix := layer_prefix;
                       report_pMessage := prepend_vuid text_vuid msg;
                       report_pUserData := pUserData item |} result)
        ∧ calls_of d msg_flags object_type src_object location layer_prefix message
            text_vuid (prepend_vuid text_vuid msg) sinks calls
  | _, _ => False
  end.

(** "For a firing legacy sink the identifier is prepended to the message in
    the literal form [ <id> ] ": what each call of a legacy sink in [calls]
    carries according to the specification, [msg] being the composed
    message. *)
Definition legacy_messages_as_specified (vuid msg : string) (calls : list Invocation)
  : Prop :=
  ∀ index args result,
    ReportInvocation index args result ∈ calls →
    report_pMessage args = "[ " +:+ vuid +:+ " ] " +:+ msg.

(** What the sink [item] itself answers to the call [call] in the world
    [w]: the function pointer of its scheme applied to the arguments of the
    call, with the world it leaves.  There is no answer when the call is
    not of the scheme of the sink, or when the pointer is null. *)
Definition sink_answer (item : @VkLayerDbgFunctionState W) (call : Invocation) (w : W)
  : option (bool * W) :=
  match call with
  | ReportInvocation _ args _ =>
      if IsUtils item then None
      else (λ pfn, pfn args w) <$> debug_report_callback_function_ptr item
  | MessengerInvocation _ args _ =>
      if IsUtils item
      then (λ pfn, pfn args w) <$> debug_utils_callback_function_ptr item
      else None
  end.

(** The calls [calls] are the sinks [sinks] invoked one after the other
    from the world [w]: each sink is run on the arguments of its call in
    the world the previous sink left, the result of the call is what the
    sink returned, and [w'] is the world the last sink leaves. *)
Fixpoint sinks_answered (sinks : list (nat * @VkLayerDbgFunctionState W))
    (calls : list Invocation) (w w' : W) : Prop :=
  match sinks, calls with
  | [], [] => w' = w
  | (_, item) :: sinks, call :: calls =>
      ∃ w1,
        sink_answer item call w = Some (invocation_result call, w1)
        ∧ sinks_answered sinks calls w1 w'
  | _, _ => False
  end.
End DispatchSpec.

Section ActivationSpec.
Context {W : Type}.

(** Whether a messenger create-info occurs in the chain, and the part of the
    chain that follows the last one (the whole chain when there is none). *)
Fixpoint has_messenger (chain : list (@ChainStruct W)) : bool :=
  match chain with
  | [] => false
  | ChainMessengerCreateInfo _ :: _ => true
  | _ :: rest => has_messenger rest
  end.

Fixpoint after_last_messenger (chain : list (@ChainStruct W)) : list (@ChainStruct W) :=
  match chain with
  | [] => []
  | s :: rest =>
      if has_messenger rest then after_last_messenger rest
      else match s with ChainMessengerCreateInfo _ => rest | _ => s :: rest end
  end.
End ActivationSpec.

(** ** Concrete inputs *)

Module Example.
(** Sinks that act on nothing, and a layout of the callback vector. *)
Definition address (i : nat) : Handle := 0x1000 + 0x40 * N.of_nat i.

Definition fresh : @debug_report_data unit := debug_report_data_new [].

Definition label (n : string) : option VkDebugUtilsLabelEXT :=
  Some {| VkDebugUtilsLabelEXT.pLabelName := Some n;
          VkDebugUtilsLabelEXT.color := (0, 0, 0, 0) |}.

Definition exported (n : string) : VkDebugUtilsLabelEXT :=
  {| VkDebugUtilsLabelEXT.pLabelName := Some n;
     VkDebugUtilsLabelEXT.color := (0, 0, 0, 0) |}.

(** [begin(7, A)], [begin(7, B)], [insert(7, C)] on a queue. *)
Definition begin_begin_insert : @debug_report_data unit :=
  InsertQueueDebugUtilsLabel
    (BeginQueueDebugUtilsLabel (BeginQueueDebugUtilsLabel fresh 7 (label "A")) 7 (label "B"))
    7 (label "C").

Definition utils_name (h : Handle) (n : option string) : VkDebugUtilsObjectNameInfoEXT :=
  {| objectType := 0; objectHandle := h; pObjectName := n |}.

Definition marker_name (h : Handle) (n : option string) : VkDebugMarkerObjectNameInfoEXT :=
  {| marker_objectType := 0; object := h; marker_pObjectName := n |}.

#[local] Existing Instance vulkan_core_1_2.

Definition quiet_report : @PFN_vkDebugReportCallbackEXT unit := λ _ w, (false, w).
Definition quiet_messenger : @PFN_vkDebugUtilsMessengerCallbackEXT unit := λ _ w, (false, w).

(** A messenger for errors of validation, and a report callback for errors. *)
Definition error_messenger : @VkDebugUtilsMessengerCreateInfoEXT unit :=
  {| messenger_flags := 0;
     ci_messageSeverity := VK_DEBUG_UTILS_MESSAGE_SEVERITY_ERROR_BIT_EXT;
     ci_messageType := VK_DEBUG_UTILS_MESSAGE_TYPE_VALIDATION_BIT_EXT;
     pfnUserCallback := Some quiet_messenger;
     messenger_ci_pUserData := 0 |}.

Definition error_report : @VkDebugReportCallbackCreateInfoEXT unit :=
  {| flags := VK_DEBUG_REPORT_ERROR_BIT_EXT;
     pfnCallback := Some quiet_report;
     report_ci_pUserData := 0 |}.

(** The entry and the state that registering [error_messenger] with the
    handle 5 on [fresh] gives. *)
Definition error_messenger_entry : @VkLayerDbgFunctionState unit :=
  {| callback_status := DEBUG_CALLBACK_UTILS;
     debug_report_callback_object := 0;
     debug_report_callback_function_ptr := None;
     debug_report_msg_flags := 0;
     debug_utils_callback_object := 5;
     debug_utils_msg_flags := VK_DEBUG_UTILS_MESSAGE_SEVERITY_ERROR_BIT_EXT;
     debug_utils_msg_type := VK_DEBUG_UTILS_MESSAGE_TYPE_VALIDATION_BIT_EXT;
     debug_utils_callback_function_ptr := Some quiet_messenger;
     pUserData := 0 |}.

Definition one_messenger : @debug_report_data unit :=
  set_active VK_DEBUG_UTILS_MESSAGE_SEVERITY_ERROR_BIT_EXT
    VK_DEBUG_UTILS_MESSAGE_TYPE_VALIDATION_BIT_EXT
    (set_debug_callback_list [error_messenger_entry] fresh).

Definition register_messenger :=
  layer_create_messenger_callback address fresh false error_messenger 5.

Definition messenger_removed : @debug_report_data unit :=
  layer_destroy_callback one_messenger 5.

Definition all_removed : @debug_report_data unit := RemoveAllMessageCallbacks one_messenger.

Definition aggregates_exact_messenger_removed : Prop := aggregates_exact messenger_removed.
Definition aggregates_exact_all_removed : Prop := aggregates_exact all_removed.

(** The state a registration leaves. *)
Definition state_of (r : option (VkResult * @debug_report_data unit * Handle))
  : @debug_report_data unit :=
  match r with Some (_, d, _) => d | None => fresh end.

Definition loud_report : @PFN_vkDebugReportCallbackEXT unit := λ _ w, (true, w).

Definition loud_error_report : @VkDebugReportCallbackCreateInfoEXT unit :=
  {| flags := VK_DEBUG_REPORT_ERROR_BIT_EXT;
     pfnCallback := Some loud_report;
     report_ci_pUserData := 0 |}.

(** One report callback for errors, with the handle 1. *)
Definition one_report : @debug_report_data unit :=
  state_of (layer_create_report_callback address fresh false error_report 1).

(** Two ordinary report callbacks for errors, with the handles 1 and 2;
    the first one answers true, the second one false. *)
Definition two_reports : @debug_report_data unit :=
  state_of (layer_create_report_callback address
              (state_of (layer_create_report_callback address fresh false
                           loud_error_report 1))
              false error_report 2).

(** A default report callback (handle 1) and an ordinary one (handle 2). *)
Definition default_and_ordinary : @debug_report_data unit :=
  state_of (layer_create_report_callback address
              (state_of (layer_create_report_callback address fresh true error_report 1))
              false loud_error_report 2).

Definition default_entry : @VkLayerDbgFunctionState unit :=
  {| callback_status := DEBUG_CALLBACK_DEFAULT;
     debug_report_callback_object := 1;
     debug_report_callback_function_ptr := Some quiet_report;
     debug_report_msg_flags := VK_DEBUG_REPORT_ERROR_BIT_EXT;
     debug_utils_callback_object := 0;
     debug_utils_msg_flags := 0;
     debug_utils_msg_type := 0;
     debug_utils_callback_function_ptr := None;
     pUserData := 0 |}.

Definition ordinary_entry : @VkLayerDbgFunctionState unit :=
  {| callback_status := 0;
     debug_report_callback_object := 2;
     debug_report_callback_function_ptr := Some loud_report;
     debug_report_msg_flags := VK_DEBUG_REPORT_ERROR_BIT_EXT;
     debug_utils_callback_object := 0;
     debug_utils_msg_flags := 0;
     debug_utils_msg_type := 0;
     debug_utils_callback_function_ptr := None;
     pUserData := 0 |}.

Definition ordinary_removed : @debug_report_data unit :=
  layer_destroy_callback default_and_ordinary 2.

(** An error event on the null object, with the identifier "V". *)
Definition log_error (d : @debug_report_data unit) :=
  debug_log_msg d VK_DEBUG_REPORT_ERROR_BIT_EXT 0 0 0 (Some "Validation") "m" (Some "V") tt.

Definition calls_made (r : option (bool * list Invocation * unit)) : list Invocation :=
  match r with Some (_, calls, _) => calls | None => [] end.

Definition error_message : string :=
  log_message one_report 0 0 "m".

Definition one_report_as_specified : Prop :=
  legacy_messages_as_specified "V" error_message (calls_made (log_error one_report)).

Definition error_report_args (msg : string) : ReportCallbackArgs :=
  {| report_flags := VK_DEBUG_REPORT_ERROR_BIT_EXT;
     report_objectType := 0;
     report_object := 0;
     report_location := 0;
     report_messageCode := 0;
     report_pLayerPrefix := Some "Validation";
     report_pMessage := msg;
     report_pUserData := 0 |}.

(** A chain with a report create-info before a messenger create-info. *)
Definition report_then_messenger : @debug_report_data unit :=
  debug_report_data_new
    [ChainReportCreateInfo error_report; ChainMessengerCreateInfo error_messenger].

Definition activated := ActivateInstanceDebugCallbacks address report_then_messenger.
End Example.

(** ** Further statements and the rest of the lifecycle *)

(** [x] when [b] holds, no bit otherwise: the contribution of one rule of
    [DebugReportFlagsToAnnotFlags]. *)
Definition bit_if (b : bool) (x : VkFlags) : VkFlags := if b then x else 0.

(** What the way back from the rich scheme needs from the header: the five
    report bits are non-zero and pairwise disjoint. *)
Class VulkanReportBits `{VulkanCore} : Prop := {
  report_information_nz : VK_DEBUG_REPORT_INFORMATION_BIT_EXT ≠ 0;
  report_warning_nz : VK_DEBUG_REPORT_WARNING_BIT_EXT ≠ 0;
  report_performance_nz : VK_DEBUG_REPORT_PERFORMANCE_WARNING_BIT_EXT ≠ 0;
  report_error_nz : VK_DEBUG_REPORT_ERROR_BIT_EXT ≠ 0;
  report_debug_nz : VK_DEBUG_REPORT_DEBUG_BIT_EXT ≠ 0;
  report_information_warning :
    N.land VK_DEBUG_REPORT_INFORMATION_BIT_EXT VK_DEBUG_REPORT_WARNING_BIT_EXT = 0;
  report_information_performance :
    N.land VK_DEBUG_REPORT_INFORMATION_BIT_EXT VK_DEBUG_REPORT_PERFORMANCE_WARNING_BIT_EXT = 0;
  report_information_error :
    N.land VK_DEBUG_REPORT_INFORMATION_BIT_EXT VK_DEBUG_REPORT_ERROR_BIT_EXT = 0;
  report_information_debug :
    N.land VK_DEBUG_REPORT_INFORMATION_BIT_EXT VK_DEBUG_REPORT_DEBUG_BIT_EXT = 0;
  report_warning_performance :
    N.land VK_DEBUG_REPORT_WARNING_BIT_EXT VK_DEBUG_REPORT_PERFORMANCE_WARNING_BIT_EXT = 0;
  report_warning_error :
    N.land VK_DEBUG_REPORT_WARNING_BIT_EXT VK_DEBUG_REPORT_ERROR_BIT_EXT = 0;
  report_warning_debug :
    N.land VK_DEBUG_REPORT_WARNING_BIT_EXT VK_DEBUG_REPORT_DEBUG_BIT_EXT = 0;
  report_performance_error :
    N.land VK_DEBUG_REPORT_PERFORMANCE_WARNING_BIT_EXT VK_DEBUG_REPORT_ERROR_BIT_EXT = 0;
  report_performance_debug :
    N.land VK_DEBUG_REPORT_PERFORMANCE_WARNING_BIT_EXT VK_DEBUG_REPORT_DEBUG_BIT_EXT = 0;
  report_error_debug :
    N.land VK_DEBUG_REPORT_ERROR_BIT_EXT VK_DEBUG_REPORT_DEBUG_BIT_EXT = 0;
}.

Section MoreStatements.
Context `{VulkanCore}.

(** The rich pair that survives the way to the legacy scheme and back: the
    severity of highest priority alone, with the type the legacy bit stands
    for. *)
Definition dominant_rich (severity types : VkFlags) : VkFlags * VkFlags :=
  if test_bits severity VK_DEBUG_UTILS_MESSAGE_SEVERITY_ERROR_BIT_EXT then
    (VK_DEBUG_UTILS_MESSAGE_SEVERITY_ERROR_BIT_EXT, VK_DEBUG_UTILS_MESSAGE_TYPE_VALIDATION_BIT_EXT)
  else if test_bits severity VK_DEBUG_UTILS_MESSAGE_SEVERITY_WARNING_BIT_EXT then
    if test_bits types VK_DEBUG_UTILS_MESSAGE_TYPE_PERFORMANCE_BIT_EXT then
      (VK_DEBUG_UTILS_MESSAGE_SEVERITY_WARNING_BIT_EXT,
       VK_DEBUG_UTILS_MESSAGE_TYPE_PERFORMANCE_BIT_EXT)
    else
      (VK_DEBUG_UTILS_MESSAGE_SEVERITY_WARNING_BIT_EXT,
       VK_DEBUG_UTILS_MESSAGE_TYPE_VALIDATION_BIT_EXT)
  else if test_bits severity VK_DEBUG_UTILS_MESSAGE_SEVERITY_INFO_BIT_EXT then
    (VK_DEBUG_UTILS_MESSAGE_SEVERITY_INFO_BIT_EXT, VK_DEBUG_UTILS_MESSAGE_TYPE_VALIDATION_BIT_EXT)
  else if test_bits severity VK_DEBUG_UTILS_MESSAGE_SEVERITY_VERBOSE_BIT_EXT then
    (VK_DEBUG_UTILS_MESSAGE_SEVERITY_VERBOSE_BIT_EXT,
     N.lor VK_DEBUG_UTILS_MESSAGE_TYPE_GENERAL_BIT_EXT
           VK_DEBUG_UTILS_MESSAGE_TYPE_VALIDATION_BIT_EXT)
  else (0, 0).
End MoreStatements.

(** [begin] for each label of [infos] in turn, and [end] [n] times, on one
    key of a label map. *)
Definition begin_all (map : gmap N LoggingLabelState) (key : Handle)
    (infos : list VkDebugUtilsLabelEXT) : gmap N LoggingLabelState :=
  fold_left (λ m info, BeginDebugUtilsLabel m key (Some info)) infos map.

Definition end_times (n : nat) (map : gmap N LoggingLabelState) (key : Handle)
  : gmap N LoggingLabelState :=
  Nat.iter n (λ m, EndDebugUtilsLabel m key) map.

(** The labels pushed for a key, none when it has no stack. *)
Definition labels_of (map : gmap N LoggingLabelState) (key : Handle) : list LoggingLabel :=
  LoggingLabelState.labels (default LoggingLabelState.default (map !! key)).

Section Lifecycle.
Context {W : Type} `{VulkanCore}.

(** The loop of [DeactivateInstanceDebugCallbacks] that collects the handles
    of the instance callbacks, the messengers and the report callbacks
    apart. *)
Definition instance_callback_handles (callbacks : list (@VkLayerDbgFunctionState W))
  : list Handle * list Handle :=
  fold_left
    (λ '(instance_utils_callback_handles, instance_report_callback_handles) item,
       if IsInstance item then
         if IsUtils item then
           (instance_utils_callback_handles ++ [debug_utils_callback_object item],
            instance_report_callback_handles)
         else
           (instance_utils_callback_handles,
            instance_report_callback_handles ++ [debug_report_callback_object item])
       else (instance_utils_callback_handles, instance_report_callback_handles))
    callbacks ([], []).

Definition DeactivateInstanceDebugCallbacks (debug_data : @debug_report_data W)
  : @debug_report_data W :=
  match lvl_find_in_chain is_messenger_create_info (instance_pnext_chain debug_data),
        lvl_find_in_chain is_report_create_info (instance_pnext_chain debug_data) with
  | None, None => debug_data
  | _, _ =>
      let '(instance_utils_callback_handles, instance_report_callback_handles) :=
        instance_callback_handles (debug_callback_list debug_data) in
      let debug_data :=
        fold_left layer_destroy_callback instance_utils_callback_handles debug_data in
      fold_left layer_destroy_callback instance_report_callback_handles debug_data
  end.

(** The handle an entry is found by: the one of its own scheme. *)
Definition own_handle (item : @VkLayerDbgFunctionState W) : Handle :=
  if IsUtils item then debug_utils_callback_object item
  else debug_report_callback_object item.

(** The aggregates include the effective masks of every entry of the list. *)
Definition aggregates_cover (d : @debug_report_data W) : Prop :=
  N.lor (active_severities d) (union_masks (debug_callback_list d)).1 = active_severities d
  ∧ N.lor (active_types d) (union_masks (debug_callback_list d)).2 = active_types d.
End Lifecycle.

(** The messages the legacy sinks received, in the order of the calls. *)
Definition report_messages (calls : list Invocation) : list string :=
  omap (λ call, match call with
                | ReportInvocation _ args _ => Some (report_pMessage args)
                | MessengerInvocation _ _ _ => None
                end) calls.

Module Example2.
#[local] Existing Instance vulkan_core_1_2.

(** A state with the chain messenger, report and the two instance callbacks
    [ActivateInstanceDebugCallbacks] registers for it, after an ordinary
    report callback with the handle 1. *)
Definition chain_state : @debug_report_data unit :=
  set_debug_callback_list (debug_callback_list Example.one_report)
    (debug_report_data_new
       [ChainMessengerCreateInfo Example.error_messenger;
        ChainReportCreateInfo Example.error_report]).

Definition activated : @debug_report_data unit :=
  default chain_state (ActivateInstanceDebugCallbacks Example.address chain_state).

Definition deactivated : @debug_report_data unit := DeactivateInstanceDebugCallbacks activated.

(** An ordinary messenger for errors of validation, with the handle 5, on a
    state that has a name and two labels for the queue 9. *)
Definition named_queue : @debug_report_data unit :=
  DebugReportSetUtilsObjectName
    (BeginQueueDebugUtilsLabel
       (BeginQueueDebugUtilsLabel Example.one_messenger 9 (Example.label "outer"))
       9 (Example.label "inner"))
    (Example.utils_name 9 (Some "Q")).

(** An error event on the queue 9 (the type 4 is that of queues). *)
Definition log_queue_error :=
  debug_log_msg named_queue VK_DEBUG_REPORT_ERROR_BIT_EXT 4 9 0 (Some "Validation") "m"
    (Some "V") tt.
End Example2.

(** ** Flag translation *)

Lemma vulkan_core_1_2_bits : @VulkanCoreBits vulkan_core_1_2.
Proof. split; (discriminate || reflexivity). Qed.

Lemma test_bits_true a b : test_bits a b = true ↔ N.land a b ≠ 0.
Proof. unfold test_bits. rewrite negb_true_iff. apply N.eqb_neq. Qed.

Lemma test_bits_false a b : test_bits a b = false ↔ N.land a b = 0.
Proof. unfold test_bits. rewrite negb_false_iff. apply N.eqb_eq. Qed.

Lemma test_bits_self a : a ≠ 0 → test_bits a a = true.
Proof. intros Ha. apply test_bits_true. by rewrite N.land_diag. Qed.

Lemma test_bits_lor_l a b c : test_bits (N.lor a b) c = test_bits a c || test_bits b c.
Proof.
  unfold test_bits. rewrite N.land_lor_distr_l, <- negb_andb. f_equal.
  destruct (N.eqb_spec (N.land a c) 0) as [->|Ha]; simpl.
  - by rewrite N.lor_0_l.
  - apply N.eqb_neq. intros Hz. apply N.lor_eq_0_iff in Hz as [? _]. done.
Qed.

Lemma test_bits_0_l a : test_bits 0 a = false.
Proof. apply test_bits_false, N.land_0_l. Qed.

Section FlagTranslatorFacts.
Context `{VulkanCoreBits}.

Lemma test_bits_disjoint a b : N.land a b = 0 → test_bits a b = false ∧ test_bits b a = false.
Proof. intros Hd. split; apply test_bits_false; [done | by rewrite N.land_comm]. Qed.

(** C5: for every legacy flags value, translating to the rich scheme and
    back yields the dominant legacy bit (error, then performance-warning,
    else warning, then information, then debug), and zero when none of the
    five report bits is set. *)
Theorem report_round_trip_dominant (f : VkFlags) :
  report_round_trip f = dominant_report_bit f.
Proof.
  pose proof (test_bits_self _ sev_verbose_nz) as Hv.
  pose proof (test_bits_self _ sev_info_nz) as Hi.
  pose proof (test_bits_self _ sev_warning_nz) as Hw.
  pose proof (test_bits_self _ sev_error_nz) as He.
  pose proof (test_bits_self _ type_performance_nz) as Hp.
  destruct (test_bits_disjoint _ _ sev_verbose_info) as [Hvi Hiv].
  destruct (test_bits_disjoint _ _ sev_verbose_warning) as [Hvw Hwv].
  destruct (test_bits_disjoint _ _ sev_verbose_error) as [Hve Hev].
  destruct (test_bits_disjoint _ _ sev_info_warning) as [Hiw Hwi].
  destruct (test_bits_disjoint _ _ sev_info_error) as [Hie Hei].
  destruct (test_bits_disjoint _ _ sev_warning_error) as [Hwe Hew].
  destruct (test_bits_disjoint _ _ type_general_performance) as [Hgp _].
  destruct (test_bits_disjoint _ _ type_validation_performance) as [Hvp _].
  unfold report_round_trip, dominant_report_bit, DebugReportFlagsToAnnotFlags,
    DebugAnnotFlagsToReportFlags.
  destruct (test_bits f VK_DEBUG_REPORT_PERFORMANCE_WARNING_BIT_EXT),
    (test_bits f VK_DEBUG_REPORT_DEBUG_BIT_EXT),
    (test_bits f VK_DEBUG_REPORT_INFORMATION_BIT_EXT),
    (test_bits f VK_DEBUG_REPORT_WARNING_BIT_EXT),
    (test_bits f VK_DEBUG_REPORT_ERROR_BIT_EXT);
    cbv beta iota zeta;
    rewrite ?test_bits_lor_l, ?test_bits_0_l, ?Hv, ?Hi, ?Hw, ?He, ?Hp, ?Hvi, ?Hiv, ?Hvw,
      ?Hwv, ?Hve, ?Hev, ?Hiw, ?Hwi, ?Hie, ?Hei, ?Hwe, ?Hew, ?Hgp, ?Hvp;
    cbn [orb]; rewrite ?N.lor_0_l; reflexivity.
Qed.
End FlagTranslatorFacts.

Lemma report_round_trip_dominant_witness :
  @report_round_trip vulkan_core_1_2 (N.lor 0x8 0x2) = 0x8.
Proof.
  rewrite (@report_round_trip_dominant vulkan_core_1_2 vulkan_core_1_2_bits).
  reflexivity.
Defined.

(** ** Label stacks *)

Lemma size_t_decr_pos index : index ≠ 0 → size_t_decr index = index - 1.
Proof. intros Hi. unfold size_t_decr. by destruct (N.eqb_spec index 0). Qed.

(** The loop of [Export] writes the labels downwards from [length ls - 1]
    and leaves the rest of [out] alone. *)
Lemma Export_fold (ls : list LoggingLabel) :
  ∀ (out : list VkDebugUtilsLabelEXT) (index : N),
    (ls ≠ [] → index = N.of_nat (length ls) - 1) →
    (length ls ≤ length out)%nat →
    (fold_left LoggingLabelState.Export_step ls (out, index)).1
    = (LoggingLabel.Export <$> reverse ls) ++ drop (length ls) out.
Proof.
  induction ls as [|label ls IH]; intros out index Hindex Hlen; simpl.
  - by rewrite drop_0.
  - rewrite Hindex by done. simpl in Hlen.
    replace (N.to_nat (N.of_nat (length (label :: ls)) - 1)) with (length ls)
      by (simpl; lia).
    rewrite IH.
    + rewrite reverse_cons, fmap_app, <- app_assoc. f_equal. simpl.
      rewrite drop_insert_ge, Nat.sub_diag by lia.
      destruct (drop (length ls) out) as [|x rest] eqn:Hd.
      { apply (f_equal length) in Hd. rewrite length_drop in Hd. simpl in Hd. lia. }
      simpl. f_equal.
      change (drop (S (length ls)) out) with (drop (1 + length ls) out).
      by rewrite Nat.add_comm, <- drop_drop, Hd.
    + intros Hne. rewrite size_t_decr_pos.
      * simpl length. lia.
      * destruct ls; [done|]. simpl length. lia.
    + rewrite length_insert. lia.
Qed.

Lemma Export_spec (s : LoggingLabelState) :
  LoggingLabelState.Export s
  = (LoggingLabel.Export <$> reverse (LoggingLabelState.labels s))
    ++ (if LoggingLabel.Empty (LoggingLabelState.insert_label s) then []
        else [LoggingLabel.Export (LoggingLabelState.insert_label s)]).
Proof.
  destruct s as [ls ins]. unfold LoggingLabelState.Export. simpl.
  destruct (LoggingLabel.Empty ins) eqn:He; simpl.
  - rewrite N.add_0_r, Nat2N.id.
    destruct (N.eqb_spec (N.of_nat (length ls)) 0) as [Hz|Hnz].
    + destruct ls; [done|simpl in Hz; lia].
    + rewrite Export_fold.
      * by rewrite drop_replicate, Nat.sub_diag.
      * done.
      * by rewrite length_replicate.
  - destruct (N.eqb_spec (N.of_nat (length ls) + 1) 0) as [Hz|_]; [lia|].
    replace (N.to_nat (N.of_nat (length ls) + 1)) with (S (length ls)) by lia.
    replace (N.to_nat (N.of_nat (length ls) + 1 - 1)) with (length ls) by lia.
    rewrite Export_fold.
    + f_equal. rewrite drop_insert_ge, Nat.sub_diag by lia.
      change (S (length ls)) with (1 + length ls)%nat.
      rewrite Nat.add_comm, drop_replicate_add. done.
    + intros Hne. destruct ls; [done|]. simpl length.
      rewrite size_t_decr_pos by lia. lia.
    + rewrite length_insert, length_replicate. lia.
Qed.

(** C2 (the code departs from the claim): [Export] yields the pushed labels
    most recent first, but it writes the insert label at the last index, so
    a non-empty insert label comes last, not first.  A key with no stack
    exports nothing; after begin A, begin B, insert C the export is
    [B; A; C] where the claim has [C; B; A]; after a further end it is [A]. *)
Theorem Export_insert_label_last :
  (∀ s : LoggingLabelState,
     LoggingLabelState.Export s
     = (LoggingLabel.Export <$> reverse (LoggingLabelState.labels s))
       ++ (if LoggingLabel.Empty (LoggingLabelState.insert_label s) then []
           else [LoggingLabel.Export (LoggingLabelState.insert_label s)]))
  ∧ export_labels (debugUtilsQueueLabels Example.fresh) 7 = []
  ∧ export_labels (debugUtilsQueueLabels Example.begin_begin_insert) 7
    = [Example.exported "B"; Example.exported "A"; Example.exported "C"]
  ∧ export_labels
      (debugUtilsQueueLabels (EndQueueDebugUtilsLabel Example.begin_begin_insert 7)) 7
    = [Example.exported "A"].
Proof.
  split; [exact Export_spec|].
  split; [reflexivity|]. split; vm_compute; reflexivity.
Qed.

Lemma BeginDebugUtilsLabel_null map key label_info :
  label_info = None
  ∨ (∃ info, label_info = Some info ∧ VkDebugUtilsLabelEXT.pLabelName info = None) →
  BeginDebugUtilsLabel map key label_info = map.
Proof.
  intros [->|(info & -> & Hn)]; [done|]. unfold BeginDebugUtilsLabel. by rewrite Hn.
Qed.

Lemma BeginDebugUtilsLabel_named map key info n :
  VkDebugUtilsLabelEXT.pLabelName info = Some n →
  BeginDebugUtilsLabel map key (Some info)
  = <[key := pushed (map !! key) n (VkDebugUtilsLabelEXT.color info)]> map.
Proof.
  intros Hn. unfold BeginDebugUtilsLabel, GetLoggingLabelState, pushed. rewrite Hn.
  unfold LoggingLabel.of_info. rewrite Hn.
  destruct (map !! key) as [s|] eqn:Hs; simpl.
  - rewrite (alter_alt_Some _ map _ s), alter_insert_eq by done. done.
  - by rewrite !alter_insert_eq.
Qed.

Lemma EndDebugUtilsLabel_spec (map : gmap Handle LoggingLabelState) key :
  EndDebugUtilsLabel map key
  = match map !! key with
    | Some s =>
        <[key := {| LoggingLabelState.labels := pop_back (LoggingLabelState.labels s);
                    LoggingLabelState.insert_label := LoggingLabel.default |}]> map
    | None => map
    end.
Proof.
  unfold EndDebugUtilsLabel, GetLoggingLabelState.
  destruct (map !! key) as [s|] eqn:Hs; [|done].
  rewrite (alter_alt_Some _ map _ s), alter_insert_eq by done. f_equal.
  case_bool_decide as Hl; simpl; [|done]. by rewrite Hl.
Qed.

Lemma InsertDebugUtilsLabel_spec (map : gmap Handle LoggingLabelState) key label_info :
  InsertDebugUtilsLabel map key label_info
  = <[key := {| LoggingLabelState.labels :=
                  LoggingLabelState.labels (default LoggingLabelState.default (map !! key));
                LoggingLabelState.insert_label := LoggingLabel.of_info label_info |}]> map.
Proof.
  unfold InsertDebugUtilsLabel, GetLoggingLabelState.
  destruct (map !! key) as [s|] eqn:Hs; simpl.
  - by rewrite (alter_alt_Some _ _ _ s) by done.
  - by rewrite alter_insert_eq.
Qed.

Section Labels.
Context {W : Type}.
Implicit Types d : @debug_report_data W.

Lemma set_debugUtilsQueueLabels_id d : set_debugUtilsQueueLabels (debugUtilsQueueLabels d) d = d.
Proof. by destruct d. Qed.

Lemma set_debugUtilsCmdBufLabels_id d :
  set_debugUtilsCmdBufLabels (debugUtilsCmdBufLabels d) d = d.
Proof. by destruct d. Qed.

(** C8 (amended): [begin] tests the two pointers, not the name.  With a
    null label or a null name it is a no-op; with any name, the empty one
    included, it creates the stack of the key when there is none, pushes
    the label and clears the insert slot, and it touches nothing else.
    This holds for queues and for command buffers. *)
Theorem Begin_label_pointer_guard d key label_info :
  (label_info = None
   ∨ (∃ info, label_info = Some info ∧ VkDebugUtilsLabelEXT.pLabelName info = None) →
   BeginQueueDebugUtilsLabel d key label_info = d
   ∧ BeginCmdDebugUtilsLabel d key label_info = d)
  ∧ (∀ info n,
       label_info = Some info → VkDebugUtilsLabelEXT.pLabelName info = Some n →
       BeginQueueDebugUtilsLabel d key label_info
       = set_debugUtilsQueueLabels
           (<[key := pushed (debugUtilsQueueLabels d !! key) n
                       (VkDebugUtilsLabelEXT.color info)]> (debugUtilsQueueLabels d)) d
       ∧ BeginCmdDebugUtilsLabel d key label_info
         = set_debugUtilsCmdBufLabels
             (<[key := pushed (debugUtilsCmdBufLabels d !! key) n
                         (VkDebugUtilsLabelEXT.color info)]> (debugUtilsCmdBufLabels d)) d).
Proof.
  split.
  - intros Hnull. unfold BeginQueueDebugUtilsLabel, BeginCmdDebugUtilsLabel.
    rewrite !BeginDebugUtilsLabel_null by done.
    by rewrite set_debugUtilsQueueLabels_id, set_debugUtilsCmdBufLabels_id.
  - intros info n -> Hn. unfold BeginQueueDebugUtilsLabel, BeginCmdDebugUtilsLabel.
    by rewrite !(BeginDebugUtilsLabel_named _ _ _ n).
Qed.
End Labels.

(** C8 as stated fails: [begin] with an empty (non-null) name pushes. *)
Lemma begin_pushes_empty_name :
  ¬ begin_skips_empty_label Example.fresh 7 (Example.label "").
Proof.
  unfold begin_skips_empty_label. intros Hclaim.
  specialize (Hclaim eq_refl).
  apply (f_equal (λ d, debugUtilsQueueLabels d !! 7)) in Hclaim.
  vm_compute in Hclaim. discriminate Hclaim.
Qed.

Lemma Begin_label_pointer_guard_witness :
  BeginQueueDebugUtilsLabel Example.fresh 7 None = Example.fresh
  ∧ debugUtilsQueueLabels (BeginQueueDebugUtilsLabel Example.fresh 7 (Example.label ""))
      !! 7
    = Some {| LoggingLabelState.labels :=
                [{| LoggingLabel.name := ""; LoggingLabel.color := (0, 0, 0, 0) |}];
              LoggingLabelState.insert_label := LoggingLabel.default |}.
Proof.
  split.
  - apply (Begin_label_pointer_guard Example.fresh 7 None). left. reflexivity.
  - destruct (Begin_label_pointer_guard Example.fresh 7 (Example.label "")) as [_ Hpush].
    destruct (Hpush _ "" eq_refl eq_refl) as [-> _]. reflexivity.
Defined.

(** ** Object names *)

Section Names.
Context {W : Type}.
Implicit Types d : @debug_report_data W.

Lemma handle_name_lookup d h :
  handle_name d h
  = match debugUtilsObjectNameMap d !! h with
    | Some n => if empty n then default "" (debugObjectNameMap d !! h) else n
    | None => default "" (debugObjectNameMap d !! h)
    end.
Proof.
  unfold handle_name, DebugReportGetUtilsObjectName, DebugReportGetMarkerObjectName.
  destruct (debugUtilsObjectNameMap d !! h) as [n|]; simpl.
  - by destruct (debugObjectNameMap d !! h).
  - by destruct (debugObjectNameMap d !! h).
Qed.

(** C7 (amended): the two setters test the name pointer, not the name.  A
    non-null name, the empty string included, is stored under the handle in
    the map of its scheme; a null name erases the entry, present or not;
    the map of the other scheme is left alone.  The resolved name is the
    modern one when it is present and not empty, else the legacy one when
    present, else the empty string.  After legacy "Foo" and modern "Bar"
    for a handle its name is "Bar", and "Foo" again once the modern name is
    set to the empty string or to null. *)
Theorem set_name_pointer_guard d t h :
  (∀ n,
     debugUtilsObjectNameMap
       (DebugReportSetUtilsObjectName d
          {| objectType := t; objectHandle := h; pObjectName := Some n |})
     = <[h := n]> (debugUtilsObjectNameMap d)
     ∧ debugObjectNameMap
         (DebugReportSetMarkerObjectName d
            {| marker_objectType := t; object := h; marker_pObjectName := Some n |})
       = <[h := n]> (debugObjectNameMap d))
  ∧ (debugUtilsObjectNameMap
       (DebugReportSetUtilsObjectName d
          {| objectType := t; objectHandle := h; pObjectName := None |})
     = delete h (debugUtilsObjectNameMap d)
     ∧ debugObjectNameMap
         (DebugReportSetMarkerObjectName d
            {| marker_objectType := t; object := h; marker_pObjectName := None |})
       = delete h (debugObjectNameMap d))
  ∧ (∀ info minfo,
       debugObjectNameMap (DebugReportSetUtilsObjectName d info) = debugObjectNameMap d
       ∧ debugUtilsObjectNameMap (DebugReportSetMarkerObjectName d minfo)
         = debugUtilsObjectNameMap d)
  ∧ handle_name d h
    = match debugUtilsObjectNameMap d !! h with
      | Some n => if empty n then default "" (debugObjectNameMap d !! h) else n
      | None => default "" (debugObjectNameMap d !! h)
      end
  ∧ (let named :=
       DebugReportSetUtilsObjectName
         (DebugReportSetMarkerObjectName d
            {| marker_objectType := t; object := h; marker_pObjectName := Some "Foo" |})
         {| objectType := t; objectHandle := h; pObjectName := Some "Bar" |} in
     handle_name named h = "Bar"
     ∧ handle_name
         (DebugReportSetUtilsObjectName named
            {| objectType := t; objectHandle := h; pObjectName := Some "" |}) h = "Foo"
     ∧ handle_name
         (DebugReportSetUtilsObjectName named
            {| objectType := t; objectHandle := h; pObjectName := None |}) h = "Foo").
Proof.
  split; [done|]. split; [done|].
  split; [intros [? ? [?|]] [? ? [?|]]; done|].
  split; [apply handle_name_lookup|].
  cbv zeta. rewrite !handle_name_lookup. simpl.
  rewrite !lookup_insert_eq, lookup_delete_eq. done.
Qed.
End Names.

(** C7 as stated fails: an empty (non-null) modern name is stored. *)
Lemma set_name_stores_empty_name :
  ¬ set_name_erases_empty Example.fresh (Example.utils_name 1 (Some "")).
Proof.
  unfold set_name_erases_empty. intros Hclaim.
  specialize (Hclaim eq_refl). vm_compute in Hclaim. discriminate Hclaim.
Qed.

(** ** The callback registry *)

Section Registry.
Context {W : Type} `{VulkanCore}.
Implicit Types d : @debug_report_data W.
Implicit Types l : list (@VkLayerDbgFunctionState W).

(** [SetDebugUtilsSeverityFlags] only ever adds to the aggregates. *)
Lemma SetDebugUtilsSeverityFlags_accumulates l d :
  SetDebugUtilsSeverityFlags l d
  = set_active (N.lor (active_severities d) (union_masks l).1)
               (N.lor (active_types d) (union_masks l).2) d.
Proof.
  unfold SetDebugUtilsSeverityFlags. revert d.
  induction l as [|item l IH]; intros d; simpl.
  - rewrite !N.lor_0_r. by destruct d.
  - rewrite IH. unfold effective_masks.
    destruct (IsUtils item); [|destruct (DebugReportFlagsToAnnotFlags _ _)];
      simpl; unfold set_active; simpl; f_equal; by rewrite N.lor_assoc.
Qed.

Lemma SetDebugUtilsSeverityFlags_list l d :
  debug_callback_list (SetDebugUtilsSeverityFlags l d) = debug_callback_list d.
Proof. by rewrite SetDebugUtilsSeverityFlags_accumulates. Qed.

Lemma union_masks_app l1 l2 :
  union_masks (l1 ++ l2)
  = (N.lor (union_masks l1).1 (union_masks l2).1, N.lor (union_masks l1).2 (union_masks l2).2).
Proof.
  induction l1 as [|item l1 IH]; simpl.
  - by destruct (union_masks l2).
  - rewrite IH. simpl. by rewrite !N.lor_assoc.
Qed.

(** Registration keeps the aggregates exact when they were. *)
Lemma layer_create_callback_exact address status d create_info callback d' callback' :
  aggregates_exact d →
  layer_create_callback address status d create_info callback = Some (d', callback') →
  aggregates_exact d'.
Proof.
  unfold aggregates_exact, layer_create_callback. intros Hexact Hcreate.
  destruct (union_masks (debug_callback_list d)) as [sev typ] eqn:Hunion.
  injection Hexact as Hs Ht.
  assert (∀ item,
    (active_severities
       (SetDebugUtilsSeverityFlags (debug_callback_list d ++ [item])
          (set_debug_callback_list (debug_callback_list d ++ [item]) d)),
     active_types
       (SetDebugUtilsSeverityFlags (debug_callback_list d ++ [item])
          (set_debug_callback_list (debug_callback_list d ++ [item]) d)))
    = union_masks
        (debug_callback_list
           (SetDebugUtilsSeverityFlags (debug_callback_list d ++ [item])
              (set_debug_callback_list (debug_callback_list d ++ [item]) d)))) as Hstep.
  { intros item. rewrite SetDebugUtilsSeverityFlags_accumulates. simpl.
    rewrite union_masks_app, Hunion, Hs, Ht. simpl.
    by rewrite !N.lor_assoc, !N.lor_diag. }
  destruct (test_bits status DEBUG_CALLBACK_UTILS), create_info; simplify_eq/=;
    apply Hstep.
Qed.

(** C10: registration through [layer_create_messenger_callback] and
    [layer_create_report_callback] has no failure path: in every state and
    for every create-info each appends exactly one entry to the callback
    list and returns [VK_SUCCESS]. *)
Theorem layer_create_callbacks_succeed address d default_callback
    (messenger_info : VkDebugUtilsMessengerCreateInfoEXT)
    (report_info : VkDebugReportCallbackCreateInfoEXT) (handle : Handle) :
  (∃ d' item handle',
     layer_create_messenger_callback address d default_callback messenger_info handle
     = Some (VK_SUCCESS, d', handle')
     ∧ debug_callback_list d' = debug_callback_list d ++ [item]
     ∧ IsUtils item = true ∧ IsDefault item = default_callback)
  ∧ (∃ d' item handle',
       layer_create_report_callback address d default_callback report_info handle
       = Some (VK_SUCCESS, d', handle')
       ∧ debug_callback_list d' = debug_callback_list d ++ [item]
       ∧ IsUtils item = false ∧ IsDefault item = default_callback).
Proof.
  split.
  - unfold layer_create_messenger_callback, layer_create_callback.
    assert (test_bits (N.lor DEBUG_CALLBACK_UTILS
              (if default_callback then DEBUG_CALLBACK_DEFAULT else 0))
              DEBUG_CALLBACK_UTILS = true) as -> by by destruct default_callback.
    simpl. eexists _, _, _. split; [reflexivity|].
    rewrite SetDebugUtilsSeverityFlags_list. simpl.
    split; [reflexivity|]. by destruct default_callback.
  - unfold layer_create_report_callback, layer_create_callback.
    assert (test_bits (if default_callback then DEBUG_CALLBACK_DEFAULT else 0)
              DEBUG_CALLBACK_UTILS = false) as -> by by destruct default_callback.
    simpl. eexists _, _, _. split; [reflexivity|].
    rewrite SetDebugUtilsSeverityFlags_list. simpl.
    split; [reflexivity|]. by destruct default_callback.
Qed.
(** *** Instance-scoped callbacks *)

Section Activation.
Context (address : nat → N).
Implicit Types chain : list (@ChainStruct W).

Lemma find_messenger_None chain :
  lvl_find_in_chain is_messenger_create_info chain = None ↔ has_messenger chain = false.
Proof. induction chain as [|[]]; simpl; try done. Qed.

Lemma find_messenger_Some chain ci pNext :
  lvl_find_in_chain is_messenger_create_info chain = Some (ci, pNext) →
  omap is_messenger_create_info chain = ci :: omap is_messenger_create_info pNext
  ∧ after_last_messenger chain
    = if has_messenger pNext then after_last_messenger pNext else pNext.
Proof.
  induction chain as [|s chain IH]; [done|].
  assert (lvl_find_in_chain is_messenger_create_info chain = Some (ci, pNext) →
          has_messenger chain = true) as Hhas.
  { intros Hf. apply not_false_iff_true. rewrite <- find_messenger_None. congruence. }
  destruct s as [ci'| |]; cbn.
  - intros [= -> ->]. split; [done|]. by destruct (has_messenger pNext).
  - intros Hf. destruct (IH Hf) as [Ho Ha]. by rewrite (Hhas Hf).
  - intros Hf. destruct (IH Hf) as [Ho Ha]. by rewrite (Hhas Hf).
Qed.

Lemma after_last_messenger_none chain :
  has_messenger chain = false → after_last_messenger chain = chain.
Proof.
  induction chain as [|s chain IH]; simpl; [done|].
  destruct s; try done; intros Hc; rewrite Hc; done.
Qed.

Lemma find_None_omap {T} (kSType : @ChainStruct W → option T) chain :
  lvl_find_in_chain kSType chain = None → omap kSType chain = [].
Proof.
  induction chain as [|s chain IH]; [done|]. cbn.
  destruct (kSType s); [done|]. exact IH.
Qed.

Lemma find_Some_omap {T} (kSType : @ChainStruct W → option T) chain found pNext :
  lvl_find_in_chain kSType chain = Some (found, pNext) →
  omap kSType chain = found :: omap kSType pNext.
Proof.
  induction chain as [|s chain IH]; [done|]. cbn.
  destruct (kSType s); [by intros [= -> ->]|]. exact IH.
Qed.

Lemma layer_create_callback_appends status d create_info callback :
  test_bits status DEBUG_CALLBACK_UTILS
  = match create_info with MessengerCreateInfo _ => true | ReportCreateInfo _ => false end →
  ∃ d' item callback',
    layer_create_callback address status d create_info callback = Some (d', callback')
    ∧ debug_callback_list d' = debug_callback_list d ++ [item]
    ∧ callback_status item = status.
Proof.
  intros Hstatus. unfold layer_create_callback. rewrite Hstatus.
  destruct create_info; simpl; eexists _, _, _; (split; [reflexivity|]);
    rewrite SetDebugUtilsSeverityFlags_list; done.
Qed.

Lemma activate_messengers_spec chain d :
  ∃ d' new,
    activate_messengers address chain d = Some (after_last_messenger chain, d')
    ∧ debug_callback_list d' = debug_callback_list d ++ new
    ∧ callback_status <$> new
      = (λ _, N.lor DEBUG_CALLBACK_UTILS DEBUG_CALLBACK_INSTANCE)
          <$> omap is_messenger_create_info chain.
Proof.
  with_strategy opaque [layer_create_callback] funelim (activate_messengers address chain d).
  - exists debug_data, []. rewrite app_nil_r, (find_None_omap _ _ e).
    by rewrite after_last_messenger_none by (by apply find_messenger_None).
  - destruct H0 as (d' & new & Hrun & Hlist & Hstatus).
    destruct (layer_create_callback_appends
                (N.lor DEBUG_CALLBACK_UTILS DEBUG_CALLBACK_INSTANCE) debug_data
                (MessengerCreateInfo create_info) 0 eq_refl)
      as (d1 & item & cb & Hcreate & Hlist1 & Hitem).
    rewrite Heq in Hcreate. simplify_eq.
    exists d', (item :: new).
    destruct (find_messenger_Some _ _ _ Hfound) as [-> Hafter].
    split; [|split].
    + rewrite Hrun, Hafter. destruct (has_messenger pNext) eqn:Hp; [done|].
      by rewrite after_last_messenger_none.
    + by rewrite Hlist, Hlist1, <- app_assoc.
    + by rewrite !fmap_cons, Hstatus, Hitem.
  - destruct (layer_create_callback_appends
                (N.lor DEBUG_CALLBACK_UTILS DEBUG_CALLBACK_INSTANCE) debug_data
                (MessengerCreateInfo create_info) 0 eq_refl)
      as (d1 & item & cb & Hcreate & _). congruence.
Qed.

Lemma activate_reports_spec chain d :
  ∃ current d' new,
    activate_reports address chain d = Some (current, d')
    ∧ debug_callback_list d' = debug_callback_list d ++ new
    ∧ callback_status <$> new
      = (λ _, DEBUG_CALLBACK_INSTANCE) <$> omap is_report_create_info chain.
Proof.
  with_strategy opaque [layer_create_callback] funelim (activate_reports address chain d).
  - exists current, debug_data, []. by rewrite app_nil_r, (find_None_omap _ _ e).
  - destruct H0 as (current' & d' & new & Hrun & Hlist & Hstatus).
    destruct (layer_create_callback_appends DEBUG_CALLBACK_INSTANCE debug_data
                (ReportCreateInfo create_info) 0 eq_refl)
      as (d1 & item & cb & Hcreate & Hlist1 & Hitem).
    rewrite Heq in Hcreate. simplify_eq.
    exists current', d', (item :: new).
    rewrite (find_Some_omap _ _ _ _ Hfound).
    split; [done|]. split.
    + by rewrite Hlist, Hlist1, <- app_assoc.
    + by rewrite !fmap_cons, Hstatus, Hitem.
  - destruct (layer_create_callback_appends DEBUG_CALLBACK_INSTANCE debug_data
                (ReportCreateInfo create_info) 0 eq_refl)
      as (d1 & item & cb & Hcreate & _). congruence.
Qed.

Lemma ActivateInstanceDebugCallbacks_spec d :
  ∃ d' new,
    ActivateInstanceDebugCallbacks address d = Some d'
    ∧ debug_callback_list d' = debug_callback_list d ++ new
    ∧ callback_status <$> new
      = ((λ _, N.lor DEBUG_CALLBACK_UTILS DEBUG_CALLBACK_INSTANCE)
           <$> omap is_messenger_create_info (instance_pnext_chain d))
        ++ ((λ _, DEBUG_CALLBACK_INSTANCE)
              <$> omap is_report_create_info
                    (after_last_messenger (instance_pnext_chain d))).
Proof.
  unfold ActivateInstanceDebugCallbacks.
  destruct (activate_messengers_spec (instance_pnext_chain d) d)
    as (d1 & new1 & -> & Hlist1 & Hstatus1). simpl.
  destruct (activate_reports_spec (after_last_messenger (instance_pnext_chain d)) d1)
    as (current & d2 & new2 & -> & Hlist2 & Hstatus2). simpl.
  exists d2, (new1 ++ new2). split; [done|]. split.
  - by rewrite Hlist2, Hlist1, <- app_assoc.
  - by rewrite fmap_app, Hstatus1, Hstatus2.
Qed.
End Activation.
End Registry.

(** C1 (the code departs from the claim): the aggregates are only ever
    or-ed into.  [SetDebugUtilsSeverityFlags] adds the union over the list
    to what the aggregates held and never resets them, so after the removal
    of an entry its bits stay, and [RemoveAllMessageCallbacks] does not
    touch them at all.  Registering a messenger for errors of validation and
    removing it again, by handle or with the whole list, leaves an empty list
    with both aggregates still set. *)
Theorem aggregates_never_cleared :
  (∀ (W : Type) (core : VulkanCore) (l : list (@VkLayerDbgFunctionState W))
     (d : @debug_report_data W),
     SetDebugUtilsSeverityFlags l d
     = set_active (N.lor (active_severities d) (union_masks l).1)
                  (N.lor (active_types d) (union_masks l).2) d)
  ∧ Example.register_messenger = Some (0%Z, Example.one_messenger, 5)
  ∧ debug_callback_list Example.messenger_removed = []
  ∧ active_severities Example.messenger_removed = 0x1000
  ∧ active_types Example.messenger_removed = 0x2
  ∧ ¬ Example.aggregates_exact_messenger_removed
  ∧ debug_callback_list Example.all_removed = []
  ∧ active_severities Example.all_removed = 0x1000
  ∧ active_types Example.all_removed = 0x2
  ∧ ¬ Example.aggregates_exact_all_removed.
Proof.
  split; [intros; apply SetDebugUtilsSeverityFlags_accumulates|].
  repeat split; try (vm_compute; reflexivity); vm_compute; discriminate.
Qed.

(** C9 (the code departs from the claim): the second loop of
    [ActivateInstanceDebugCallbacks] starts where the first one stopped, so
    the entries it appends are one per messenger create-info of the chain
    followed by one per report create-info that comes after the last
    messenger create-info; a report create-info before it is never
    registered.  For the chain report, messenger only the messenger gets an
    entry. *)
Theorem Activate_skips_report_before_messenger :
  (∀ (W : Type) (core : VulkanCore) (address : nat → N) (d : @debug_report_data W),
     ∃ d' new,
       ActivateInstanceDebugCallbacks address d = Some d'
       ∧ debug_callback_list d' = debug_callback_list d ++ new
       ∧ callback_status <$> new
         = ((λ _, N.lor DEBUG_CALLBACK_UTILS DEBUG_CALLBACK_INSTANCE)
              <$> omap is_messenger_create_info (instance_pnext_chain d))
           ++ ((λ _, DEBUG_CALLBACK_INSTANCE)
                 <$> omap is_report_create_info
                       (after_last_messenger (instance_pnext_chain d))))
  ∧ length (instance_pnext_chain Example.report_then_messenger) = 2%nat
  ∧ ∃ d, Example.activated = Some d
         ∧ callback_status <$> debug_callback_list d
           = [N.lor DEBUG_CALLBACK_UTILS DEBUG_CALLBACK_INSTANCE].
Proof.
  split; [intros; apply ActivateInstanceDebugCallbacks_spec|].
  split; [reflexivity|]. eexists. split; vm_compute; reflexivity.
Qed.

(** ** Dispatch *)

Lemma string_app_assoc (a b c : string) : (a +:+ b) +:+ c = a +:+ b +:+ c.
Proof.
  induction a as [|x a IH]; [done|].
  change (String x ((a +:+ b) +:+ c) = String x (a +:+ b +:+ c)). by rewrite IH.
Qed.

Section Dispatch.
Context {W : Type} `{VulkanCore}.
Implicit Types d : @debug_report_data W.
Implicit Types l : list (@VkLayerDbgFunctionState W).
Implicit Types st : @LogState W.

Lemma use_default_callbacks_forallb d :
  use_default_callbacks d = forallb IsDefault (debug_callback_list d).
Proof.
  unfold use_default_callbacks.
  assert (∀ l b, fold_left (λ use_default (c : @VkLayerDbgFunctionState W), use_default && IsDefault c) l b
                 = b && forallb IsDefault l) as Hfold.
  { induction l as [|c l IH]; intros b; simpl.
    - by rewrite andb_true_r.
    - by rewrite IH, andb_assoc. }
  by rewrite Hfold.
Qed.

Section run.
Context (d : @debug_report_data W) (msg_flags : VkFlags) (object_type : N)
  (src_object : Handle) (location : N) (layer_prefix : option string) (message : string)
  (text_vuid : option string).

Lemma log_callback_skips st index item :
  sink_eligible d item && sink_fires msg_flags item = false →
  log_callback d msg_flags object_type src_object location layer_prefix message text_vuid
    st index item = Some st.
Proof.
  unfold log_callback, sink_eligible, sink_fires.
  rewrite use_default_callbacks_forallb.
  destruct (IsDefault item), (forallb IsDefault (debug_callback_list d)),
    (IsUtils item); simpl; try done; intros Hs; rewrite ?Hs; done.
Qed.

Lemma log_callback_calls st index item :
  sink_eligible d item && sink_fires msg_flags item = true →
  callable item = true →
  ∃ st' call,
    log_callback d msg_flags object_type src_object location layer_prefix message
      text_vuid st index item = Some st'
    ∧ calls st' = calls st ++ [call]
    ∧ bail st' = bail st || invocation_result call
    ∧ calls_of d msg_flags object_type src_object location layer_prefix message
        text_vuid (new_debug_report_message st) [(index, item)] [call]
    ∧ new_debug_report_message st'
      = if IsUtils item then new_debug_report_message st
        else prepend_vuid text_vuid (new_debug_report_message st).
Proof.
  unfold log_callback, sink_eligible, sink_fires, callable.
  rewrite use_default_callbacks_forallb.
  intros [Hel Hfire]%andb_true_iff Hcall.
  assert (IsDefault item && negb (forallb IsDefault (debug_callback_list d)) = false)
    as -> by (by destruct (IsDefault item), (forallb IsDefault _)).
  simpl. destruct (IsUtils item) eqn:Hutils; simpl.
  - rewrite Hfire.
    destruct (debug_utils_callback_function_ptr item) as [pfn|]; [|done].
    destruct (pfn _ _) as [result w] eqn:Hpfn.
    eexists _, _. split; [reflexivity|]. simpl.
    split; [done|]. split; [by destruct result, (bail st)|].
    split; [|done]. split; [|done]. by eexists.
  - rewrite Hfire.
    destruct (debug_report_callback_function_ptr item) as [pfn|]; [|done].
    destruct (pfn _ _) as [result w] eqn:Hpfn.
    eexists _, _. split; [reflexivity|]. simpl.
    split; [done|]. split; [by destruct result, (bail st)|].
    split.
    + split; [|done]. eexists. by destruct text_vuid.
    + by destruct text_vuid.
Qed.

Lemma log_callbacks_run l :
  Forall (λ item, callable item = true) l →
  ∀ index st,
  ∃ st' new,
    log_callbacks d msg_flags object_type src_object location layer_prefix message
      text_vuid l index st = Some st'
    ∧ calls st' = calls st ++ new
    ∧ bail st' = bail st || existsb invocation_result new
    ∧ calls_of d msg_flags object_type src_object location layer_prefix message
        text_vuid (new_debug_report_message st) (firing_sinks d msg_flags index l) new.
Proof.
  induction 1 as [|item l Hcall _ IH]; intros index st; simpl.
  - exists st, []. by rewrite app_nil_r, orb_false_r.
  - destruct (sink_eligible d item && sink_fires msg_flags item) eqn:Hsink.
    + destruct (log_callback_calls st index item Hsink Hcall)
        as (st1 & call & -> & Hcalls & Hbail & Hof & Hmsg).
      destruct (IH (S index) st1) as (st' & new & Hrun & Hcalls' & Hbail' & Hof').
      exists st', (call :: new). simpl. split; [done|].
      split; [by rewrite Hcalls', Hcalls, <- app_assoc|].
      split; [by rewrite Hbail', Hbail, orb_assoc|].
      simpl in Hof. destruct (IsUtils item).
      * destruct Hof as [Hc _]. split; [done|]. by rewrite Hmsg in Hof'.
      * destruct Hof as [Hc _]. split; [done|]. by rewrite Hmsg in Hof'.
    + rewrite log_callback_skips by done. simpl. apply IH.
Qed.

Lemma log_callback_answer st index item :
  sink_eligible d item && sink_fires msg_flags item = true →
  callable item = true →
  ∃ st' call,
    log_callback d msg_flags object_type src_object location layer_prefix message
      text_vuid st index item = Some st'
    ∧ calls st' = calls st ++ [call]
    ∧ sink_answer item call (world st) = Some (invocation_result call, world st').
Proof.
  unfold log_callback, sink_eligible, sink_fires, callable, sink_answer.
  rewrite use_default_callbacks_forallb.
  intros [Hel Hfire]%andb_true_iff Hcall.
  assert (IsDefault item && negb (forallb IsDefault (debug_callback_list d)) = false)
    as -> by (by destruct (IsDefault item), (forallb IsDefault _)).
  simpl. destruct (IsUtils item) eqn:Hutils; simpl.
  - rewrite Hfire.
    destruct (debug_utils_callback_function_ptr item) as [pfn|]; [|done].
    destruct (pfn _ _) as [result w] eqn:Hpfn.
    eexists _, _. split; [reflexivity|]. simpl. split; [done|].
    cbv beta iota. unfold invocation_result. by rewrite Hpfn.
  - rewrite Hfire.
    destruct (debug_report_callback_function_ptr item) as [pfn|]; [|done].
    destruct (pfn _ _) as [result w] eqn:Hpfn.
    eexists _, _. split; [reflexivity|]. simpl. split; [done|].
    cbv beta iota. unfold invocation_result. by rewrite Hpfn.
Qed.

Lemma log_callbacks_answered l :
  Forall (λ item, callable item = true) l →
  ∀ index st,
  ∃ st' new,
    log_callbacks d msg_flags object_type src_object location layer_prefix message
      text_vuid l index st = Some st'
    ∧ calls st' = calls st ++ new
    ∧ sinks_answered (firing_sinks d msg_flags index l) new (world st) (world st').
Proof.
  induction 1 as [|item l Hcall _ IH]; intros index st; simpl.
  - exists st, []. by rewrite app_nil_r.
  - destruct (sink_eligible d item && sink_fires msg_flags item) eqn:Hsink.
    + destruct (log_callback_answer st index item Hsink Hcall)
        as (st1 & call & -> & Hcalls & Hanswer).
      destruct (IH (S index) st1) as (st' & new & Hrun & Hcalls' & Hanswered).
      exists st', (call :: new). simpl. split; [done|].
      split; [by rewrite Hcalls', Hcalls, <- app_assoc|].
      by exists (world st1).
    + rewrite log_callback_skips by done. simpl. apply IH.
Qed.

Lemma calls_of_indices msg sinks :
  ∀ calls,
    calls_of d msg_flags object_type src_object location layer_prefix message text_vuid
      msg sinks calls →
    invocation_index <$> calls = sinks.*1.
Proof.
  revert msg. induction sinks as [|[index item] sinks IH]; intros msg [|call calls];
    simpl; try done.
  destruct (IsUtils item); intros [[result ->] Hrest]; simpl; f_equal; eauto.
Qed.

Lemma calls_of_messenger msg sinks :
  ∀ calls index args result,
    calls_of d msg_flags object_type src_object location layer_prefix message text_vuid
      msg sinks calls →
    MessengerInvocation index args result ∈ calls →
    ∃ item,
      (index, item) ∈ sinks
      ∧ args = {| messageSeverity := log_severity msg_flags;
                  messageTypes := log_types msg_flags;
                  pCallbackData :=
                    log_callback_data d object_type src_object message text_vuid;
                  messenger_pUserData := pUserData item |}.
Proof.
  revert msg. induction sinks as [|[i item] sinks IH]; intros msg [|call calls];
    simpl; try done.
  { intros ? ? ? _ Hin. by apply elem_of_nil in Hin. }
  intros index args result Hof Hin.
  apply elem_of_cons in Hin as [Hhead|Htail].
  - destruct (IsUtils item); destruct Hof as [[r Hc] _]; simplify_eq.
    exists item. split; [left|done].
  - assert (∃ msg', calls_of d msg_flags object_type src_object location layer_prefix
                      message text_vuid msg' sinks calls) as [msg' Hof'].
    { destruct (IsUtils item); destruct Hof as [_ Hof]; eauto. }
    destruct (IH _ _ _ _ _ Hof' Htail) as (item' & Hin' & Hargs).
    exists item'. split; [by right|done].
Qed.

Lemma calls_of_report msg sinks :
  ∀ calls index args result,
    calls_of d msg_flags object_type src_object location layer_prefix message text_vuid
      msg sinks calls →
    ReportInvocation index args result ∈ calls →
    match text_vuid with
    | Some vuid => ∃ mid, report_pMessage args = " [ " +:+ vuid +:+ " ] " +:+ mid +:+ msg
    | None => report_pMessage args = msg
    end.
Proof.
  revert msg. induction sinks as [|[i item] sinks IH]; intros msg [|call calls];
    simpl; try done.
  { intros ? ? ? _ Hin. by apply elem_of_nil in Hin. }
  intros index args result Hof Hin.
  apply elem_of_cons in Hin as [Hhead|Htail].
  - destruct (IsUtils item); destruct Hof as [[r Hc] _]; simplify_eq. simpl.
    destruct text_vuid as [vuid|]; simpl; [by exists ""|done].
  - destruct (IsUtils item); destruct Hof as [_ Hof].
    + by eapply IH.
    + specialize (IH _ _ _ _ _ Hof Htail).
      destruct text_vuid as [vuid|]; simpl in *; [|done].
      destruct IH as [mid ->]. exists (mid +:+ " [ " +:+ vuid +:+ " ] ").
      by rewrite !string_app_assoc.
Qed.

Lemma calls_of_first_report msg sinks :
  ∀ before index args result after,
    calls_of d msg_flags object_type src_object location layer_prefix message text_vuid
      msg sinks (before ++ ReportInvocation index args result :: after) →
    (∀ i a r, ReportInvocation i a r ∉ before) →
    report_pMessage args = prepend_vuid text_vuid msg.
Proof.
  revert msg. induction sinks as [|[i item] sinks IH]; intros msg [|call before];
    simpl; try done.
  - intros index args result after.
    destruct (IsUtils item); intros [[r Hc] _] _; by simplify_eq.
  - intros index args result after Hof Hbefore.
    destruct (IsUtils item); destruct Hof as [[r Hc] Hof].
    + eapply IH; [done|]. intros ? ? ? Hin. eapply Hbefore. by right.
    + exfalso. eapply Hbefore. rewrite Hc. left.
Qed.

Lemma firing_sinks_elem l :
  ∀ index i item,
    (i, item) ∈ firing_sinks d msg_flags index l
    ↔ ∃ j, i = (index + j)%nat ∧ l !! j = Some item
           ∧ sink_eligible d item = true ∧ sink_fires msg_flags item = true.
Proof.
  induction l as [|c l IH]; intros index i item; simpl.
  - split; [by intros ?%elem_of_nil|by intros (j & _ & ? & _)].
  - destruct (sink_eligible d c && sink_fires msg_flags c) eqn:Hc.
    + rewrite elem_of_cons, IH. split.
      * intros [[= -> ->]|(j & -> & Hj & He & Hf)].
        -- exists 0%nat. apply andb_true_iff in Hc as [? ?].
           split; [lia|done].
        -- exists (S j). split; [lia|done].
      * intros ([|j] & -> & Hj & He & Hf); simpl in Hj.
        -- left. simplify_eq. f_equal. lia.
        -- right. exists j. split; [lia|done].
    + rewrite IH. split.
      * intros (j & -> & Hj & He & Hf). exists (S j). split; [lia|done].
      * intros ([|j] & -> & Hj & He & Hf); simpl in Hj.
        -- simplify_eq. rewrite He, Hf in Hc. done.
        -- exists j. split; [lia|done].
Qed.
End run.

Lemma find_callback_middle l1 c l2 callback :
  Forall (λ item, callback_matches item callback = false) l1 →
  callback_matches c callback = true →
  find_callback (l1 ++ c :: l2) callback = length l1.
Proof.
  intros Hl1 Hc. induction Hl1 as [|item l1 Hitem _ IH]; simpl.
  - by rewrite Hc.
  - by rewrite Hitem, IH.
Qed.

Lemma RemoveDebugUtilsCallback_middle d l1 c l2 callback :
  debug_callback_list d = l1 ++ c :: l2 →
  Forall (λ item, callback_matches item callback = false) l1 →
  callback_matches c callback = true →
  debug_callback_list (RemoveDebugUtilsCallback d callback) = l1 ++ l2.
Proof.
  intros Hl Hl1 Hc. unfold RemoveDebugUtilsCallback.
  rewrite SetDebugUtilsSeverityFlags_list. simpl.
  rewrite Hl, find_callback_middle by done.
  rewrite bool_decide_true by (rewrite length_app; simpl; lia).
  by rewrite delete_middle.
Qed.

Lemma debug_log_msg_run d msg_flags object_type src_object location layer_prefix message
    text_vuid w :
  Forall (λ item, callable item = true) (debug_callback_list d) →
  ∃ bail calls w',
    debug_log_msg d msg_flags object_type src_object location layer_prefix message
      text_vuid w = Some (bail, calls, w')
    ∧ bail = existsb invocation_result calls
    ∧ calls_of d msg_flags object_type src_object location layer_prefix message text_vuid
        (log_message d object_type src_object message)
        (firing_sinks d msg_flags 0 (debug_callback_list d)) calls.
Proof.
  intros Hcallable. unfold debug_log_msg.
  destruct (log_callbacks_run d msg_flags object_type src_object location layer_prefix
              message text_vuid _ Hcallable 0%nat
              {| bail := false;
                 new_debug_report_message := log_message d object_type src_object message;
                 world := w; calls := [] |})
    as (st' & new & -> & Hcalls & Hbail & Hof).
  simpl in *. subst. by eexists _, _, _.
Qed.

Lemma debug_log_msg_answered d msg_flags object_type src_object location layer_prefix
    message text_vuid w bail calls w' :
  Forall (λ item, callable item = true) (debug_callback_list d) →
  debug_log_msg d msg_flags object_type src_object location layer_prefix message
    text_vuid w = Some (bail, calls, w') →
  sinks_answered (firing_sinks d msg_flags 0 (debug_callback_list d)) calls w w'.
Proof.
  intros Hcallable. unfold debug_log_msg.
  destruct (log_callbacks_answered d msg_flags object_type src_object location layer_prefix
              message text_vuid _ Hcallable 0%nat
              {| bail := false;
                 new_debug_report_message := log_message d object_type src_object message;
                 world := w; calls := [] |})
    as (st' & new & -> & Hcalls & Hanswered).
  simpl in *. intros [= <- <- <-]. by rewrite Hcalls.
Qed.

(** C3: [debug_log_msg] returns true exactly when one of the sinks it
    called returned true.  It calls every eligible firing sink, once and in
    registration order, whatever the earlier sinks returned: the calls are
    these sinks run one after the other, each on the arguments of its call
    in the world the previous one left, the result of a call is what the
    function pointer of the sink returned, and the world [debug_log_msg]
    leaves is the one the last sink leaves.  With an empty callback list,
    as [RemoveAllMessageCallbacks] leaves it, it calls nothing, returns
    false and leaves the world as it was. *)
Theorem debug_log_msg_reports_to_all d msg_flags object_type src_object location
    layer_prefix message text_vuid w :
  Forall (λ item, callable item = true) (debug_callback_list d) →
  ∃ bail calls w',
    debug_log_msg d msg_flags object_type src_object location layer_prefix message
      text_vuid w = Some (bail, calls, w')
    ∧ (bail = true ↔ ∃ call, call ∈ calls ∧ invocation_result call = true)
    ∧ sinks_answered (firing_sinks d msg_flags 0 (debug_callback_list d)) calls w w'
    ∧ calls_of d msg_flags object_type src_object location layer_prefix message text_vuid
        (log_message d object_type src_object message)
        (firing_sinks d msg_flags 0 (debug_callback_list d)) calls
    ∧ invocation_index <$> calls
      = (firing_sinks d msg_flags 0 (debug_callback_list d)).*1
    ∧ (∀ i item,
         debug_callback_list d !! i = Some item →
         sink_eligible d item = true → sink_fires msg_flags item = true →
         i ∈ invocation_index <$> calls)
    ∧ (debug_callback_list d = [] → calls = [] ∧ bail = false ∧ w' = w)
    ∧ debug_log_msg (RemoveAllMessageCallbacks d) msg_flags object_type src_object
        location layer_prefix message text_vuid w = Some (false, [], w).
Proof.
  intros Hcallable.
  destruct (debug_log_msg_run d msg_flags object_type src_object location layer_prefix
              message text_vuid w Hcallable) as (bail & calls & w' & Hrun & Hbail & Hof).
  pose proof (debug_log_msg_answered _ _ _ _ _ _ _ _ _ _ _ _ Hcallable Hrun) as Hanswered.
  exists bail, calls, w'. split; [done|].
  pose proof (calls_of_indices _ _ _ _ _ _ _ _ _ _ _ Hof) as Hindices.
  split; [|split; [done|split; [done|split; [done|split; [|split; [|done]]]]]].
  - rewrite Hbail, existsb_exists. by setoid_rewrite <- list_elem_of_In.
  - intros i item Hi He Hf. rewrite Hindices.
    apply list_elem_of_fmap. exists (i, item). split; [done|].
    apply firing_sinks_elem. by exists i.
  - intros Hnil. rewrite Hnil in Hindices, Hanswered. simpl in Hindices.
    apply fmap_nil_inv in Hindices. subst calls. simpl in Hanswered.
    split; [done|]. split; [|done].
    rewrite Hbail. done.
Qed.

(** C4: a default-role sink is eligible exactly when every entry of the
    callback list is default-role.  [use_default_callbacks] says so; in a
    dispatch a default sink is called exactly when all entries are default
    and its filter passes, so it is skipped as soon as one non-default sink
    is registered; and once the only non-default sink is removed the
    remaining, default, sinks are eligible again. *)
Theorem default_sinks_only_when_alone d :
  (use_default_callbacks d = true
   ↔ Forall (λ item, IsDefault item = true) (debug_callback_list d))
  ∧ (Forall (λ item, callable item = true) (debug_callback_list d) →
     ∀ msg_flags object_type src_object location layer_prefix message text_vuid w i item,
       debug_callback_list d !! i = Some item → IsDefault item = true →
       ∃ bail calls w',
         debug_log_msg d msg_flags object_type src_object location layer_prefix message
           text_vuid w = Some (bail, calls, w')
         ∧ (i ∈ invocation_index <$> calls
            ↔ Forall (λ item, IsDefault item = true) (debug_callback_list d)
              ∧ sink_fires msg_flags item = true))
  ∧ (∀ l1 c l2 callback,
       debug_callback_list d = l1 ++ c :: l2 →
       IsDefault c = false →
       Forall (λ item, IsDefault item = true) (l1 ++ l2) →
       Forall (λ item, callback_matches item callback = false) l1 →
       callback_matches c callback = true →
       use_default_callbacks d = false
       ∧ debug_callback_list (layer_destroy_callback d callback) = l1 ++ l2
       ∧ use_default_callbacks (layer_destroy_callback d callback) = true).
Proof.
  assert (∀ d', use_default_callbacks d' = true
                ↔ Forall (λ item, IsDefault item = true) (debug_callback_list d'))
    as Hdefault.
  { intros d'. rewrite use_default_callbacks_forallb, forallb_forall, Forall_forall.
    by setoid_rewrite <- list_elem_of_In. }
  split; [apply Hdefault|]. split.
  - intros Hcallable msg_flags object_type src_object location layer_prefix message
      text_vuid w i item Hi Hitem.
    destruct (debug_log_msg_run d msg_flags object_type src_object location layer_prefix
                message text_vuid w Hcallable) as (bail & calls & w' & Hrun & _ & Hof).
    exists bail, calls, w'. split; [done|].
    rewrite (calls_of_indices _ _ _ _ _ _ _ _ _ _ _ Hof), <- Hdefault,
      use_default_callbacks_forallb.
    rewrite list_elem_of_fmap. split.
    + intros ([i' item'] & -> & (j & Hj & Hlook & He & Hf)%firing_sinks_elem).
      simpl in *. replace j with i' in * by lia. simplify_eq.
      unfold sink_eligible in He. rewrite Hitem in He. done.
    + intros [Hall Hf]. exists (i, item). split; [done|].
      apply firing_sinks_elem. exists i. unfold sink_eligible.
      rewrite Hall, orb_true_r. done.
  - intros l1 c l2 callback Hl Hc Hrest Hl1 Hmatch.
    split; [|split].
    + apply not_true_is_false. rewrite Hdefault, Hl. intros Hall.
      apply Forall_app in Hall as [_ Hall].
      apply Forall_cons in Hall as [Hc' _]. congruence.
    + by apply RemoveDebugUtilsCallback_middle with c.
    + apply Hdefault. unfold layer_destroy_callback.
      by rewrite (RemoveDebugUtilsCallback_middle d l1 c l2).
Qed.

(** C6 (amended): in one dispatch every modern sink that fires receives
    the structured record unmodified: the severity and types of the event,
    the original message, the identifier, the named object and the exported
    labels.  Every legacy sink that fires receives, when the identifier is
    not null, a message that begins with " [ <id> ] " (with a leading
    space) and ends with the composed message, and the first legacy sink
    to fire receives exactly " [ <id> ] " followed by the composed message;
    when the identifier is null it receives the composed message. *)
Theorem legacy_sinks_get_prefixed_message d msg_flags object_type src_object location
    layer_prefix message text_vuid w :
  Forall (λ item, callable item = true) (debug_callback_list d) →
  ∃ bail calls w',
    debug_log_msg d msg_flags object_type src_object location layer_prefix message
      text_vuid w = Some (bail, calls, w')
    ∧ (∀ index args result,
         MessengerInvocation index args result ∈ calls →
         messageSeverity args = log_severity msg_flags
         ∧ messageTypes args = log_types msg_flags
         ∧ pCallbackData args
           = log_callback_data d object_type src_object message text_vuid
         ∧ pMessage (pCallbackData args) = message
         ∧ pMessageIdName (pCallbackData args) = text_vuid)
    ∧ (∀ index args result,
         ReportInvocation index args result ∈ calls →
         match text_vuid with
         | Some vuid =>
             ∃ mid,
               report_pMessage args
               = " [ " +:+ vuid +:+ " ] " +:+ mid
                 +:+ log_message d object_type src_object message
         | None => report_pMessage args = log_message d object_type src_object message
         end)
    ∧ (∀ before index args result after,
         calls = before ++ ReportInvocation index args result :: after →
         (∀ i a r, ReportInvocation i a r ∉ before) →
         report_pMessage args
         = match text_vuid with
           | Some vuid =>
               " [ " +:+ vuid +:+ " ] " +:+ log_message d object_type src_object message
           | None => log_message d object_type src_object message
           end).
Proof.
  intros Hcallable.
  destruct (debug_log_msg_run d msg_flags object_type src_object location layer_prefix
              message text_vuid w Hcallable) as (bail & calls & w' & Hrun & _ & Hof).
  exists bail, calls, w'. split; [done|]. split; [|split].
  - intros index args result Hin.
    destruct (calls_of_messenger _ _ _ _ _ _ _ _ _ _ _ _ _ _ Hof Hin) as (item & _ & ->).
    done.
  - intros index args result Hin.
    exact (calls_of_report _ _ _ _ _ _ _ _ _ _ _ _ _ _ Hof Hin).
  - intros before index args result after -> Hbefore.
    exact (calls_of_first_report _ _ _ _ _ _ _ _ _ _ _ _ _ _ _ Hof Hbefore).
Qed.
End Dispatch.

Lemma debug_log_msg_reports_to_all_witness :
  ∃ calls,
    Example.log_error Example.two_reports = Some (true, calls, tt)
    ∧ invocation_index <$> calls = [0; 1]%nat
    ∧ invocation_result <$> calls = [true; false]
    ∧ sinks_answered
        (firing_sinks (H:=vulkan_core_1_2) Example.two_reports 0x8 0
           (debug_callback_list Example.two_reports)) calls tt tt.
Proof.
  destruct (@debug_log_msg_reports_to_all unit vulkan_core_1_2 Example.two_reports
              0x8 0 0 0 (Some "Validation") "m" (Some "V") tt)
    as (bail & calls & w' & Hrun & _ & Hanswered & _ & Hindices & _).
  - repeat constructor.
  - exists calls. destruct w'. split; [|split; [|split; [|exact Hanswered]]].
    + vm_compute in Hrun. injection Hrun as <- <-. reflexivity.
    + vm_compute in Hindices. exact Hindices.
    + vm_compute in Hrun. injection Hrun as <- <-. reflexivity.
Defined.

Lemma default_sinks_only_when_alone_witness :
  use_default_callbacks Example.default_and_ordinary = false
  ∧ use_default_callbacks Example.ordinary_removed = true
  ∧ ∃ calls,
      Example.log_error Example.default_and_ordinary = Some (true, calls, tt)
      ∧ 0%nat ∉ invocation_index <$> calls.
Proof.
  destruct (@default_sinks_only_when_alone unit vulkan_core_1_2 Example.default_and_ordinary)
    as (_ & Hdispatch & Hremove).
  destruct (Hremove [Example.default_entry] Example.ordinary_entry [] 2)
    as (Hbefore & _ & Hafter);
    [reflexivity | reflexivity | repeat constructor | repeat constructor | reflexivity |].
  split; [exact Hbefore|]. split; [exact Hafter|].
  destruct (Hdispatch ltac:(repeat constructor) 0x8 0 0 0 (Some "Validation") "m" (Some "V")
              tt 0%nat Example.default_entry eq_refl eq_refl)
    as (bail & calls & w' & Hrun & Hiff).
  exists calls. split.
  - vm_compute in Hrun. injection Hrun as <- <- <-. reflexivity.
  - intros Hin. apply Hiff in Hin as [Hall _].
    apply Forall_cons in Hall as [_ Hall]. apply Forall_cons in Hall as [Hc _].
    vm_compute in Hc. discriminate Hc.
Defined.

(** C6 as stated fails: the message of a legacy sink starts with a space. *)
Lemma legacy_message_has_leading_space : ¬ Example.one_report_as_specified.
Proof.
  unfold Example.one_report_as_specified, legacy_messages_as_specified. intros Hclaim.
  specialize (Hclaim 0%nat
                (Example.error_report_args " [ V ] Object: VK_NULL_HANDLE (Type = 0) | m")
                false).
  assert (Example.calls_made (Example.log_error Example.one_report)
          = [ReportInvocation 0
               (Example.error_report_args " [ V ] Object: VK_NULL_HANDLE (Type = 0) | m")
               false]) as Hcalls by (vm_compute; reflexivity).
  rewrite Hcalls in Hclaim. specialize (Hclaim ltac:(left)).
  vm_compute in Hclaim. discriminate Hclaim.
Qed.

Lemma legacy_sinks_get_prefixed_message_witness :
  ∃ calls,
    Example.log_error Example.one_report = Some (false, calls, tt)
    ∧ ∀ index args result,
        ReportInvocation index args result ∈ calls →
        report_pMessage args = " [ V ] Object: VK_NULL_HANDLE (Type = 0) | m".
Proof.
  destruct (@legacy_sinks_get_prefixed_message unit vulkan_core_1_2 Example.one_report
              0x8 0 0 0 (Some "Validation") "m" (Some "V") tt)
    as (bail & calls & w' & Hrun & _ & _ & Hfirst).
  - repeat constructor.
  - exists calls. vm_compute in Hrun. injection Hrun as <- <- <-. split; [reflexivity|].
    intros index args result Hin. apply list_elem_of_singleton in Hin.
    injection Hin as -> -> ->. reflexivity.
Defined.

(** ** More on the flag translation *)

Lemma bit_if_orb b1 b2 x : bit_if (b1 || b2) x = N.lor (bit_if b1 x) (bit_if b2 x).
Proof.
  destruct b1, b2; unfold bit_if, orb.
  - symmetry. apply N.lor_diag.
  - symmetry. apply N.lor_0_r.
  - reflexivity.
  - reflexivity.
Qed.

Lemma testbit_bit_if b x n : N.testbit (bit_if b x) n = b && N.testbit x n.
Proof. destruct b; [done|]. apply N.bits_0. Qed.

(** Equalities between disjunctions of flag words, bit by bit. *)
Ltac flag_bits :=
  apply N.bits_inj; intros ?n;
  rewrite ?N.land_spec, ?N.lor_spec, ?testbit_bit_if, ?N.lor_spec;
  repeat match goal with
         | |- context [N.testbit ?x ?n] =>
             is_var n; let b := fresh "b" in generalize (N.testbit x n); intros b
         end;
  repeat match goal with |- context [test_bits ?a ?b] =>
           let t := fresh "t" in generalize (test_bits a b); intros t end;
  repeat match goal with b : bool |- _ => destruct b end; reflexivity.

Section MoreFlagTranslator.
Context `{VulkanCore}.

(** [DebugReportFlagsToAnnotFlags] as the disjunction of what its five rules
    contribute. *)
Lemma DebugReportFlagsToAnnotFlags_sum f t :
  DebugReportFlagsToAnnotFlags f t
  = (N.lor (N.lor (N.lor (N.lor
       (bit_if (test_bits f VK_DEBUG_REPORT_PERFORMANCE_WARNING_BIT_EXT)
               VK_DEBUG_UTILS_MESSAGE_SEVERITY_WARNING_BIT_EXT)
       (bit_if (test_bits f VK_DEBUG_REPORT_DEBUG_BIT_EXT)
               VK_DEBUG_UTILS_MESSAGE_SEVERITY_VERBOSE_BIT_EXT))
       (bit_if (test_bits f VK_DEBUG_REPORT_INFORMATION_BIT_EXT)
               VK_DEBUG_UTILS_MESSAGE_SEVERITY_INFO_BIT_EXT))
       (bit_if (test_bits f VK_DEBUG_REPORT_WARNING_BIT_EXT)
               VK_DEBUG_UTILS_MESSAGE_SEVERITY_WARNING_BIT_EXT))
       (bit_if (test_bits f VK_DEBUG_REPORT_ERROR_BIT_EXT)
               VK_DEBUG_UTILS_MESSAGE_SEVERITY_ERROR_BIT_EXT),
     N.lor (N.lor (N.lor (N.lor
       (bit_if (test_bits f VK_DEBUG_REPORT_PERFORMANCE_WARNING_BIT_EXT)
               VK_DEBUG_UTILS_MESSAGE_TYPE_PERFORMANCE_BIT_EXT)
       (bit_if (test_bits f VK_DEBUG_REPORT_DEBUG_BIT_EXT)
               (N.lor VK_DEBUG_UTILS_MESSAGE_TYPE_GENERAL_BIT_EXT
                      VK_DEBUG_UTILS_MESSAGE_TYPE_VALIDATION_BIT_EXT)))
       (bit_if (test_bits f VK_DEBUG_REPORT_INFORMATION_BIT_EXT)
               VK_DEBUG_UTILS_MESSAGE_TYPE_VALIDATION_BIT_EXT))
       (bit_if (test_bits f VK_DEBUG_REPORT_WARNING_BIT_EXT)
               VK_DEBUG_UTILS_MESSAGE_TYPE_VALIDATION_BIT_EXT))
       (bit_if (test_bits f VK_DEBUG_REPORT_ERROR_BIT_EXT)
               VK_DEBUG_UTILS_MESSAGE_TYPE_VALIDATION_BIT_EXT)).
Proof.
  unfold DebugReportFlagsToAnnotFlags, bit_if.
  destruct (test_bits f VK_DEBUG_REPORT_PERFORMANCE_WARNING_BIT_EXT),
    (test_bits f VK_DEBUG_REPORT_DEBUG_BIT_EXT),
    (test_bits f VK_DEBUG_REPORT_INFORMATION_BIT_EXT),
    (test_bits f VK_DEBUG_REPORT_WARNING_BIT_EXT),
    (test_bits f VK_DEBUG_REPORT_ERROR_BIT_EXT);
    cbv beta iota zeta; rewrite ?N.lor_0_l, ?N.lor_0_r; reflexivity.
Qed.

(** X1: the translation to the rich scheme accumulates over combined legacy
    flags: the masks of [a | b] are the disjunctions of the masks of [a] and
    of [b]; no flag gives no mask; the second argument is never looked at. *)
Theorem DebugReportFlagsToAnnotFlags_lor a b t t' :
  DebugReportFlagsToAnnotFlags (N.lor a b) t
  = (N.lor (DebugReportFlagsToAnnotFlags a t).1 (DebugReportFlagsToAnnotFlags b t).1,
     N.lor (DebugReportFlagsToAnnotFlags a t).2 (DebugReportFlagsToAnnotFlags b t).2)
  ∧ DebugReportFlagsToAnnotFlags 0 t = (0, 0)
  ∧ DebugReportFlagsToAnnotFlags a t = DebugReportFlagsToAnnotFlags a t'.
Proof.
  split; [|split].
  - rewrite !DebugReportFlagsToAnnotFlags_sum, !test_bits_lor_l, !bit_if_orb. cbn [fst snd].
    f_equal; flag_bits.
  - unfold DebugReportFlagsToAnnotFlags. by rewrite !test_bits_0_l.
  - reflexivity.
Qed.

(** X2: the translation never sets a bit outside the four severity bits and
    the three type bits. *)
Theorem DebugReportFlagsToAnnotFlags_range f t :
  N.land (DebugReportFlagsToAnnotFlags f t).1
    (N.lor (N.lor (N.lor VK_DEBUG_UTILS_MESSAGE_SEVERITY_VERBOSE_BIT_EXT
                         VK_DEBUG_UTILS_MESSAGE_SEVERITY_INFO_BIT_EXT)
                  VK_DEBUG_UTILS_MESSAGE_SEVERITY_WARNING_BIT_EXT)
           VK_DEBUG_UTILS_MESSAGE_SEVERITY_ERROR_BIT_EXT)
  = (DebugReportFlagsToAnnotFlags f t).1
  ∧ N.land (DebugReportFlagsToAnnotFlags f t).2
      (N.lor (N.lor VK_DEBUG_UTILS_MESSAGE_TYPE_GENERAL_BIT_EXT
                    VK_DEBUG_UTILS_MESSAGE_TYPE_VALIDATION_BIT_EXT)
             VK_DEBUG_UTILS_MESSAGE_TYPE_PERFORMANCE_BIT_EXT)
    = (DebugReportFlagsToAnnotFlags f t).2.
Proof.
  rewrite DebugReportFlagsToAnnotFlags_sum. cbn [fst snd]. split; flag_bits.
Qed.
End MoreFlagTranslator.

Lemma vulkan_core_1_2_report_bits : @VulkanReportBits vulkan_core_1_2.
Proof. split; (discriminate || reflexivity). Qed.

Section RichRoundTrip.
Context `{VulkanReportBits}.

(** X3: from the rich scheme to the legacy one and back, what is left is the
    severity of highest priority alone (error, warning, information,
    verbose) with the type of the legacy bit chosen for it: performance for
    a warning of performance type, validation otherwise, general and
    validation for verbose; nothing when the severity has none of the four
    bits. *)
Theorem rich_round_trip_dominant severity types t :
  DebugReportFlagsToAnnotFlags (DebugAnnotFlagsToReportFlags severity types) t
  = dominant_rich severity types.
Proof.
  pose proof (test_bits_self _ report_information_nz) as Hi.
  pose proof (test_bits_self _ report_warning_nz) as Hw.
  pose proof (test_bits_self _ report_performance_nz) as Hp.
  pose proof (test_bits_self _ report_error_nz) as He.
  pose proof (test_bits_self _ report_debug_nz) as Hd.
  destruct (test_bits_disjoint _ _ report_information_warning) as [Hiw Hwi].
  destruct (test_bits_disjoint _ _ report_information_performance) as [Hip Hpi].
  destruct (test_bits_disjoint _ _ report_information_error) as [Hie Hei].
  destruct (test_bits_disjoint _ _ report_information_debug) as [Hid Hdi].
  destruct (test_bits_disjoint _ _ report_warning_performance) as [Hwp Hpw].
  destruct (test_bits_disjoint _ _ report_warning_error) as [Hwe Hew].
  destruct (test_bits_disjoint _ _ report_warning_debug) as [Hwd Hdw].
  destruct (test_bits_disjoint _ _ report_performance_error) as [Hpe Hep].
  destruct (test_bits_disjoint _ _ report_performance_debug) as [Hpd Hdp].
  destruct (test_bits_disjoint _ _ report_error_debug) as [Hed Hde].
  unfold DebugAnnotFlagsToReportFlags, dominant_rich, DebugReportFlagsToAnnotFlags.
  destruct (test_bits severity VK_DEBUG_UTILS_MESSAGE_SEVERITY_ERROR_BIT_EXT),
    (test_bits severity VK_DEBUG_UTILS_MESSAGE_SEVERITY_WARNING_BIT_EXT),
    (test_bits types VK_DEBUG_UTILS_MESSAGE_TYPE_PERFORMANCE_BIT_EXT),
    (test_bits severity VK_DEBUG_UTILS_MESSAGE_SEVERITY_INFO_BIT_EXT),
    (test_bits severity VK_DEBUG_UTILS_MESSAGE_SEVERITY_VERBOSE_BIT_EXT);
    cbv beta iota zeta;
    rewrite ?N.lor_0_l, ?test_bits_0_l, ?Hi, ?Hw, ?Hp, ?He, ?Hd, ?Hiw, ?Hwi, ?Hip, ?Hpi,
      ?Hie, ?Hei, ?Hid, ?Hdi, ?Hwp, ?Hpw, ?Hwe, ?Hew, ?Hwd, ?Hdw, ?Hpe, ?Hep, ?Hpd, ?Hdp,
      ?Hed, ?Hde;
    rewrite ?N.lor_0_l; reflexivity.
Qed.
End RichRoundTrip.

Lemma rich_round_trip_dominant_witness :
  @DebugReportFlagsToAnnotFlags vulkan_core_1_2
    (@DebugAnnotFlagsToReportFlags vulkan_core_1_2 (N.lor 0x100 0x1) 0x4) true
  = (0x100, 0x4).
Proof.
  rewrite (@rich_round_trip_dominant vulkan_core_1_2 vulkan_core_1_2_report_bits).
  reflexivity.
Defined.

(** ** More on the label stacks *)

Lemma pop_back_app {A} (l : list A) x : pop_back (l ++ [x]) = l.
Proof.
  unfold pop_back. rewrite length_app. simpl.
  replace (length l + 1 - 1)%nat with (length l) by lia. by rewrite take_app_length.
Qed.

Lemma labels_of_insert (map : gmap N LoggingLabelState) key s :
  labels_of (<[key := s]> map) key = LoggingLabelState.labels s.
Proof. unfold labels_of. by rewrite lookup_insert_eq. Qed.

(** [GetLoggingLabelState] with [insert] set always yields a state for the
    key: an existing state is kept as it is, a missing one starts empty, and
    no other key changes.  Without [insert] the map is never changed and a
    missing key gives the null pointer. *)
Lemma GetLoggingLabelState_insert (map : gmap N LoggingLabelState) key :
  (∃ map',
     GetLoggingLabelState map key true = (map', Some key)
     ∧ map' !! key = Some (default LoggingLabelState.default (map !! key))
     ∧ ∀ k, k ≠ key → map' !! k = map !! k)
  ∧ GetLoggingLabelState map key false = (map, (λ _, key) <$> map !! key).
Proof.
  unfold GetLoggingLabelState. destruct (map !! key) as [s|] eqn:Hs; simpl.
  - split; [|done]. exists map. by rewrite Hs.
  - split; [|done]. eexists. split; [done|]. rewrite lookup_insert_eq.
    split; [done|]. intros k Hk. by rewrite lookup_insert_ne.
Qed.

Lemma begin_all_spec (map : gmap N LoggingLabelState) key infos :
  infos ≠ [] →
  Forall (λ info, is_Some (VkDebugUtilsLabelEXT.pLabelName info)) infos →
  begin_all map key infos
  = <[key := {| LoggingLabelState.labels :=
                  labels_of map key ++ ((λ info, LoggingLabel.of_info (Some info)) <$> infos);
                LoggingLabelState.insert_label := LoggingLabel.default |}]> map.
Proof.
  intros Hne Hnamed. revert map Hne.
  induction Hnamed as [|info infos [n Hn] _ IH]; intros map Hne; [done|].
  change (begin_all map key (info :: infos))
    with (begin_all (BeginDebugUtilsLabel map key (Some info)) key infos).
  rewrite (BeginDebugUtilsLabel_named _ _ _ n Hn).
  assert (LoggingLabel.of_info (Some info)
          = {| LoggingLabel.name := n; LoggingLabel.color := VkDebugUtilsLabelEXT.color info |})
    as Hinfo by (unfold LoggingLabel.of_info; by rewrite Hn).
  destruct infos as [|info' infos].
  - unfold begin_all, pushed, labels_of. cbn [fold_left]. rewrite fmap_cons, fmap_nil.
    by rewrite Hinfo.
  - rewrite IH by done. rewrite insert_insert_eq, labels_of_insert. f_equal.
    unfold pushed, labels_of. cbn [LoggingLabelState.labels].
    rewrite (fmap_cons _ info), Hinfo, <- app_assoc. done.
Qed.

Lemma end_times_missing (map : gmap N LoggingLabelState) key n :
  map !! key = None → end_times n map key = map.
Proof.
  intros Hk. induction n as [|n IH]; [done|].
  unfold end_times in *. simpl. rewrite IH, EndDebugUtilsLabel_spec. by rewrite Hk.
Qed.

Lemma end_times_pushed (map : gmap N LoggingLabelState) key ls pushed_labels ins :
  end_times (length pushed_labels)
    (<[key := {| LoggingLabelState.labels := ls ++ pushed_labels;
                 LoggingLabelState.insert_label := ins |}]> map) key
  = <[key := {| LoggingLabelState.labels := ls;
                LoggingLabelState.insert_label :=
                  if bool_decide (pushed_labels = []) then ins else LoggingLabel.default |}]> map.
Proof.
  revert ins. induction pushed_labels as [|x pushed_labels IH] using rev_ind; intros ins.
  - simpl. by rewrite app_nil_r.
  - rewrite length_app. simpl. replace (length pushed_labels + 1)%nat with
      (S (length pushed_labels)) by lia.
    unfold end_times in *. rewrite Nat.iter_succ_r.
    rewrite EndDebugUtilsLabel_spec, lookup_insert_eq, insert_insert_eq. simpl.
    rewrite app_assoc, pop_back_app, IH.
    rewrite (bool_decide_false (pushed_labels ++ [x] = [])) by (by destruct pushed_labels).
    by destruct (bool_decide (pushed_labels = [])).
Qed.

(** X4: the labels of a key form a stack.  After [begin] for each of a
    non-empty sequence of labels with non-null names and as many [end]s,
    the key has the labels it had before (none if it had no stack) and an
    empty insert slot; [end] on a key with no stack changes nothing, however
    often it is called. *)
Theorem begin_end_restores_labels (map : gmap N LoggingLabelState) key infos n :
  (infos ≠ [] →
   Forall (λ info, is_Some (VkDebugUtilsLabelEXT.pLabelName info)) infos →
   end_times (length infos) (begin_all map key infos) key
   = <[key := {| LoggingLabelState.labels := labels_of map key;
                 LoggingLabelState.insert_label := LoggingLabel.default |}]> map)
  ∧ (map !! key = None → end_times n map key = map).
Proof.
  split; [|apply end_times_missing].
  intros Hne Hnamed. rewrite begin_all_spec by done.
  rewrite <- (length_fmap (λ info, LoggingLabel.of_info (Some info)) infos).
  rewrite end_times_pushed. rewrite bool_decide_false; [done|].
  by destruct infos.
Qed.

(** X5: after [begin] for each of a non-empty sequence of labels with
    non-null names, the export for the key lists these labels from the last
    begun to the first, then the labels the key had before, most recent
    first; the insert label it had is gone. *)
Theorem export_after_begins (map : gmap N LoggingLabelState) key infos :
  infos ≠ [] →
  Forall (λ info, is_Some (VkDebugUtilsLabelEXT.pLabelName info)) infos →
  export_labels (begin_all map key infos) key
  = ((λ info, LoggingLabel.Export (LoggingLabel.of_info (Some info))) <$> reverse infos)
    ++ (LoggingLabel.Export <$> reverse (labels_of map key)).
Proof.
  intros Hne Hnamed. rewrite begin_all_spec by done.
  unfold export_labels. rewrite lookup_insert_eq, Export_spec. simpl.
  rewrite app_nil_r, reverse_app, fmap_app, fmap_reverse, <- list_fmap_compose.
  f_equal. by rewrite fmap_reverse.
Qed.

(** X6: [insert] sets the insert slot of the key whatever the label is,
    creating the stack when there is none and leaving the pushed labels
    alone: the export is the pushed labels, most recent first, followed by
    the inserted label unless it is empty (a null label or name clears the
    slot); a second [insert] replaces the first; and the next [end] drops
    the inserted label along with the top of the stack. *)
Theorem insert_label_slot (map : gmap N LoggingLabelState) key label_info label_info' :
  export_labels (InsertDebugUtilsLabel map key label_info) key
  = (LoggingLabel.Export <$> reverse (labels_of map key))
    ++ (if LoggingLabel.Empty (LoggingLabel.of_info label_info) then []
        else [LoggingLabel.Export (LoggingLabel.of_info label_info)])
  ∧ InsertDebugUtilsLabel (InsertDebugUtilsLabel map key label_info) key label_info'
    = InsertDebugUtilsLabel map key label_info'
  ∧ export_labels (EndDebugUtilsLabel (InsertDebugUtilsLabel map key label_info) key) key
    = LoggingLabel.Export <$> reverse (pop_back (labels_of map key)).
Proof.
  rewrite !InsertDebugUtilsLabel_spec. split; [|split].
  - unfold export_labels. by rewrite lookup_insert_eq, Export_spec.
  - by rewrite lookup_insert_eq, insert_insert_eq.
  - rewrite EndDebugUtilsLabel_spec, lookup_insert_eq, insert_insert_eq.
    unfold export_labels. rewrite lookup_insert_eq, Export_spec. simpl.
    by rewrite app_nil_r.
Qed.

(** X7: the operations on one key leave every other key of the map as it
    was. *)
Theorem label_operations_keep_other_keys (map : gmap N LoggingLabelState) key k label_info :
  k ≠ key →
  BeginDebugUtilsLabel map key label_info !! k = map !! k
  ∧ EndDebugUtilsLabel map key !! k = map !! k
  ∧ InsertDebugUtilsLabel map key label_info !! k = map !! k.
Proof.
  intros Hk. split; [|split].
  - destruct label_info as [info|]; [|done].
    destruct (VkDebugUtilsLabelEXT.pLabelName info) as [n|] eqn:Hn.
    + rewrite (BeginDebugUtilsLabel_named _ _ _ n Hn). by rewrite lookup_insert_ne.
    + rewrite BeginDebugUtilsLabel_null; [done|]. right. by exists info.
  - rewrite EndDebugUtilsLabel_spec. destruct (map !! key); [|done].
    by rewrite lookup_insert_ne.
  - rewrite InsertDebugUtilsLabel_spec. by rewrite lookup_insert_ne.
Qed.

Section MoreLabels.
Context {W : Type}.
Implicit Types d : @debug_report_data W.

(** X8: [ResetCmdDebugUtilsLabel] empties the stack and the insert slot of a
    command buffer but keeps its entry, and does nothing for a command
    buffer without one; [EraseCmdDebugUtilsLabel] removes the entry, present
    or not.  Either way the command buffer exports no label afterwards and
    the other command buffers are untouched. *)
Theorem Reset_and_Erase_cmd_labels d command_buffer :
  debugUtilsCmdBufLabels (ResetCmdDebugUtilsLabel d command_buffer) !! command_buffer
  = (λ _, LoggingLabelState.default) <$> debugUtilsCmdBufLabels d !! command_buffer
  ∧ debugUtilsCmdBufLabels (EraseCmdDebugUtilsLabel d command_buffer) !! command_buffer = None
  ∧ export_labels (debugUtilsCmdBufLabels (ResetCmdDebugUtilsLabel d command_buffer))
      command_buffer = []
  ∧ export_labels (debugUtilsCmdBufLabels (EraseCmdDebugUtilsLabel d command_buffer))
      command_buffer = []
  ∧ (∀ k, k ≠ command_buffer →
          debugUtilsCmdBufLabels (ResetCmdDebugUtilsLabel d command_buffer) !! k
          = debugUtilsCmdBufLabels d !! k
          ∧ debugUtilsCmdBufLabels (EraseCmdDebugUtilsLabel d command_buffer) !! k
            = debugUtilsCmdBufLabels d !! k).
Proof.
  assert (debugUtilsCmdBufLabels (ResetCmdDebugUtilsLabel d command_buffer)
          = match debugUtilsCmdBufLabels d !! command_buffer with
            | Some _ => <[command_buffer := LoggingLabelState.default]> (debugUtilsCmdBufLabels d)
            | None => debugUtilsCmdBufLabels d
            end) as Hreset.
  { unfold ResetCmdDebugUtilsLabel, GetLoggingLabelState.
    destruct (debugUtilsCmdBufLabels d !! command_buffer) as [s|] eqn:Hs; [|done].
    simpl. by rewrite (alter_alt_Some _ _ _ s). }
  rewrite !Hreset. unfold EraseCmdDebugUtilsLabel, export_labels. simpl.
  rewrite lookup_delete_eq.
  destruct (debugUtilsCmdBufLabels d !! command_buffer) as [s|] eqn:Hs.
  - rewrite lookup_insert_eq. repeat split; try done.
    + by rewrite lookup_insert_ne.
    + by rewrite lookup_delete_ne.
  - rewrite Hs. repeat split; try done. by rewrite lookup_delete_ne.
Qed.
End MoreLabels.

Section MoreNames.
Context {W : Type}.
Implicit Types d : @debug_report_data W.

(** X9: a name set with the modern setter is the one read back by
    [DebugReportGetUtilsObjectName], and likewise for the legacy pair; a
    non-empty modern name is what [FormatHandle] prints between the
    brackets, whatever the legacy name is.  Setting or erasing the name of
    one handle, in either scheme, changes neither the resolved name nor the
    formatted text of any other handle. *)
Theorem names_read_back d t h n other type_name :
  DebugReportGetUtilsObjectName
    (DebugReportSetUtilsObjectName d
       {| objectType := t; objectHandle := h; pObjectName := Some n |}) h = n
  ∧ DebugReportGetMarkerObjectName
      (DebugReportSetMarkerObjectName d
         {| marker_objectType := t; object := h; marker_pObjectName := Some n |}) h = n
  ∧ (empty n = false →
     FormatHandle
       (DebugReportSetUtilsObjectName d
          {| objectType := t; objectHandle := h; pObjectName := Some n |}) type_name h
     = type_name +:+ " 0x" +:+ to_hex h +:+ "[" +:+ n +:+ "]")
  ∧ (other ≠ h →
     ∀ name,
       let d1 :=
         DebugReportSetUtilsObjectName d
           {| objectType := t; objectHandle := h; pObjectName := name |} in
       let d2 :=
         DebugReportSetMarkerObjectName d
           {| marker_objectType := t; object := h; marker_pObjectName := name |} in
       handle_name d1 other = handle_name d other
       ∧ handle_name d2 other = handle_name d other
       ∧ FormatHandle d1 type_name other = FormatHandle d type_name other
       ∧ FormatHandle d2 type_name other = FormatHandle d type_name other).
Proof.
  split; [|split; [|split]].
  - unfold DebugReportGetUtilsObjectName. simpl. by rewrite lookup_insert_eq.
  - unfold DebugReportGetMarkerObjectName. simpl. by rewrite lookup_insert_eq.
  - intros Hn. unfold FormatHandle. rewrite handle_name_lookup. simpl.
    by rewrite lookup_insert_eq, Hn.
  - intros Hother name d1 d2.
    assert (handle_name d1 other = handle_name d other) as H1.
    { subst d1. rewrite !handle_name_lookup. destruct name; simpl.
      + by rewrite lookup_insert_ne.
      + by rewrite lookup_delete_ne. }
    assert (handle_name d2 other = handle_name d other) as H2.
    { subst d2. rewrite !handle_name_lookup. destruct name; simpl.
      + by rewrite lookup_insert_ne.
      + by rewrite lookup_delete_ne. }
    unfold FormatHandle. by rewrite H1, H2.
Qed.
End MoreNames.

Lemma names_read_back_witness :
  FormatHandle
    (DebugReportSetUtilsObjectName Example.fresh (Example.utils_name 255 (Some "img")))
    "VkImage" 255
  = "VkImage 0xff[img]"
  ∧ FormatHandle
      (DebugReportSetUtilsObjectName Example.fresh (Example.utils_name 255 (Some "img")))
      "VkImage" 254
    = "VkImage 0xfe[]".
Proof.
  destruct (names_read_back Example.fresh 0 255 "img" 254 "VkImage")
    as (_ & _ & Hformat & Hother).
  split.
  - etransitivity; [apply Hformat; reflexivity|]. reflexivity.
  - destruct (Hother ltac:(discriminate) (Some "img")) as (_ & _ & Hfmt & _).
    etransitivity; [apply Hfmt|]. reflexivity.
Defined.

Lemma Reset_and_Erase_cmd_labels_witness :
  let d :=
    BeginCmdDebugUtilsLabel
      (BeginCmdDebugUtilsLabel Example.fresh 3 (Example.label "a")) 4 (Example.label "b") in
  export_labels (debugUtilsCmdBufLabels (ResetCmdDebugUtilsLabel d 3)) 3 = []
  ∧ export_labels (debugUtilsCmdBufLabels (ResetCmdDebugUtilsLabel d 3)) 4
    = [Example.exported "b"].
Proof.
  intros d.
  destruct (Reset_and_Erase_cmd_labels d 3) as (_ & _ & Hreset & _ & Hother).
  split; [exact Hreset|].
  destruct (Hother 4 ltac:(discriminate)) as [Hkept _].
  unfold export_labels. rewrite Hkept. reflexivity.
Defined.

Lemma begin_end_restores_labels_witness :
  end_times 2 (begin_all ∅ 7 [Example.exported "A"; Example.exported "B"]) 7
  = {[ 7 := LoggingLabelState.default ]}.
Proof.
  destruct (begin_end_restores_labels ∅ 7 [Example.exported "A"; Example.exported "B"] 0)
    as [Hrestore _].
  etransitivity; [apply Hrestore; [discriminate | repeat constructor; by eexists]|].
  reflexivity.
Defined.

Lemma export_after_begins_witness :
  export_labels (begin_all ∅ 7 [Example.exported "A"; Example.exported "B"]) 7
  = [Example.exported "B"; Example.exported "A"].
Proof.
  etransitivity; [apply export_after_begins; [discriminate | repeat constructor; by eexists]|].
  reflexivity.
Defined.

Lemma label_operations_keep_other_keys_witness :
  BeginDebugUtilsLabel {[ 3 := LoggingLabelState.default ]} 7 (Example.label "A") !! 3
  = Some LoggingLabelState.default.
Proof.
  destruct (label_operations_keep_other_keys {[ 3 := LoggingLabelState.default ]} 7 3
              (Example.label "A")) as [-> _]; [discriminate|reflexivity].
Defined.

(** ** More on the callback registry *)

Section MoreRegistry.
Context {W : Type} `{VulkanCore}.
Implicit Types d : @debug_report_data W.
Implicit Types l : list (@VkLayerDbgFunctionState W).

Lemma callback_matches_own_handle (item : @VkLayerDbgFunctionState W) callback :
  callback_matches item callback = bool_decide (own_handle item = callback).
Proof. unfold callback_matches, own_handle. by destruct (IsUtils item). Qed.

Lemma find_callback_absent l callback :
  Forall (λ item, callback_matches item callback = false) l →
  find_callback l callback = length l.
Proof. induction 1 as [|item l Hitem _ IH]; simpl; [done|]. by rewrite Hitem, IH. Qed.

(** X10: [layer_destroy_callback] removes the first entry whose handle, the
    one of its own scheme, is the given one, and keeps the others in their
    order; when no entry has the handle the list stays as it is.  Names,
    labels and the extension chain are never touched. *)
Theorem layer_destroy_callback_first_match d callback :
  (Forall (λ item, callback_matches item callback = false) (debug_callback_list d) →
   debug_callback_list (layer_destroy_callback d callback) = debug_callback_list d)
  ∧ (∀ l1 c l2,
       debug_callback_list d = l1 ++ c :: l2 →
       Forall (λ item, callback_matches item callback = false) l1 →
       callback_matches c callback = true →
       debug_callback_list (layer_destroy_callback d callback) = l1 ++ l2)
  ∧ debugObjectNameMap (layer_destroy_callback d callback) = debugObjectNameMap d
  ∧ debugUtilsObjectNameMap (layer_destroy_callback d callback) = debugUtilsObjectNameMap d
  ∧ debugUtilsQueueLabels (layer_destroy_callback d callback) = debugUtilsQueueLabels d
  ∧ debugUtilsCmdBufLabels (layer_destroy_callback d callback) = debugUtilsCmdBufLabels d
  ∧ instance_pnext_chain (layer_destroy_callback d callback) = instance_pnext_chain d.
Proof.
  split; [|split].
  - intros Habsent. unfold layer_destroy_callback, RemoveDebugUtilsCallback.
    rewrite SetDebugUtilsSeverityFlags_list. simpl.
    rewrite find_callback_absent by done. by rewrite bool_decide_false by (by intros []).
  - intros l1 c l2 Hl Hl1 Hc. by apply RemoveDebugUtilsCallback_middle with c.
  - unfold layer_destroy_callback, RemoveDebugUtilsCallback.
    by rewrite SetDebugUtilsSeverityFlags_accumulates.
Qed.

(** X11: registration returns the handle it was given when that is not
    null, and otherwise the address of the new entry; the entry is found by
    the handle returned, so destroying it right away gives back the
    callback list as it was, provided no earlier entry has the same
    handle. *)
Theorem create_then_destroy_restores address d default_callback
    (messenger_info : VkDebugUtilsMessengerCreateInfoEXT)
    (report_info : VkDebugReportCallbackCreateInfoEXT) (handle : Handle) :
  let returned :=
    if handle =? 0 then address (length (debug_callback_list d)) else handle in
  Forall (λ item, callback_matches item returned = false) (debug_callback_list d) →
  (∃ d',
     layer_create_messenger_callback address d default_callback messenger_info handle
     = Some (VK_SUCCESS, d', returned)
     ∧ debug_callback_list (layer_destroy_callback d' returned) = debug_callback_list d)
  ∧ (∃ d',
       layer_create_report_callback address d default_callback report_info handle
       = Some (VK_SUCCESS, d', returned)
       ∧ debug_callback_list (layer_destroy_callback d' returned) = debug_callback_list d).
Proof.
  intros returned Hfresh. split.
  - unfold layer_create_messenger_callback, layer_create_callback.
    assert (test_bits (N.lor DEBUG_CALLBACK_UTILS
              (if default_callback then DEBUG_CALLBACK_DEFAULT else 0))
              DEBUG_CALLBACK_UTILS = true) as Hutils by by destruct default_callback.
    rewrite Hutils. simpl. eexists. split; [reflexivity|].
    unfold layer_destroy_callback.
    etransitivity;
      [eapply (RemoveDebugUtilsCallback_middle _ (debug_callback_list d) _ [])
      |apply app_nil_r].
    + rewrite SetDebugUtilsSeverityFlags_list. reflexivity.
    + done.
    + unfold callback_matches, IsUtils. simpl. rewrite Hutils. by apply bool_decide_true.
  - unfold layer_create_report_callback, layer_create_callback.
    assert (test_bits (if default_callback then DEBUG_CALLBACK_DEFAULT else 0)
              DEBUG_CALLBACK_UTILS = false) as Hutils by by destruct default_callback.
    rewrite Hutils. simpl. eexists. split; [reflexivity|].
    unfold layer_destroy_callback.
    etransitivity;
      [eapply (RemoveDebugUtilsCallback_middle _ (debug_callback_list d) _ [])
      |apply app_nil_r].
    + rewrite SetDebugUtilsSeverityFlags_list. reflexivity.
    + done.
    + unfold callback_matches, IsUtils. simpl. rewrite Hutils. by apply bool_decide_true.
Qed.

Lemma SetDebugUtilsSeverityFlags_cover d :
  aggregates_cover (SetDebugUtilsSeverityFlags (debug_callback_list d) d).
Proof.
  unfold aggregates_cover. rewrite SetDebugUtilsSeverityFlags_accumulates. simpl.
  by rewrite <- !N.lor_assoc, !N.lor_diag.
Qed.

(** X12: whatever the state was, after a registration or the removal of a
    handle the aggregates include the effective severity and type masks of
    every entry of the callback list: an event some registered sink accepts
    is never outside the aggregates.  The same holds once the list is
    cleared. *)
Theorem aggregates_cover_entries address d status create_info callback :
  (∀ d' callback',
     layer_create_callback address status d create_info callback = Some (d', callback') →
     aggregates_cover d')
  ∧ aggregates_cover (layer_destroy_callback d callback)
  ∧ aggregates_cover (RemoveAllMessageCallbacks d).
Proof.
  split; [|split].
  - intros d' callback' Hcreate. unfold layer_create_callback in Hcreate.
    destruct (test_bits status DEBUG_CALLBACK_UTILS), create_info; simplify_eq/=;
      match goal with
      | |- aggregates_cover (SetDebugUtilsSeverityFlags ?l ?d0) =>
          apply (SetDebugUtilsSeverityFlags_cover d0)
      end.
  - unfold layer_destroy_callback, RemoveDebugUtilsCallback.
    match goal with
    | |- aggregates_cover (SetDebugUtilsSeverityFlags ?l ?d0) =>
        apply (SetDebugUtilsSeverityFlags_cover d0)
    end.
  - unfold aggregates_cover, RemoveAllMessageCallbacks. simpl. by rewrite !N.lor_0_r.
Qed.

(** X13: registrations keep the aggregates exact: a new dispatch state has
    them equal to the union over its (empty) list, and when they are equal
    to the union before [layer_create_messenger_callback] or
    [layer_create_report_callback] they are equal to it afterwards. *)
Theorem registrations_keep_aggregates_exact address d default_callback
    (messenger_info : VkDebugUtilsMessengerCreateInfoEXT)
    (report_info : VkDebugReportCallbackCreateInfoEXT) (handle : Handle) :
  (∀ chain, aggregates_exact (debug_report_data_new (W:=W) chain))
  ∧ (aggregates_exact d →
     (∀ result d' handle',
        layer_create_messenger_callback address d default_callback messenger_info handle
        = Some (result, d', handle') →
        aggregates_exact d')
     ∧ (∀ result d' handle',
          layer_create_report_callback address d default_callback report_info handle
          = Some (result, d', handle') →
          aggregates_exact d')).
Proof.
  split; [done|]. intros Hexact. split.
  - intros result d' handle' Hcreate. unfold layer_create_messenger_callback in Hcreate.
    destruct (layer_create_callback _ _ _ _ _) as [[d1 h1]|] eqn:Hc; simplify_eq/=.
    by eapply layer_create_callback_exact.
  - intros result d' handle' Hcreate. unfold layer_create_report_callback in Hcreate.
    destruct (layer_create_callback _ _ _ _ _) as [[d1 h1]|] eqn:Hc; simplify_eq/=.
    by eapply layer_create_callback_exact.
Qed.
End MoreRegistry.

(** *** Deactivation of the instance callbacks *)

Section Deactivation.
Context {W : Type} `{VulkanCore}.
Implicit Types d : @debug_report_data W.
Implicit Types l : list (@VkLayerDbgFunctionState W).

Lemma instance_callback_handles_filter l :
  instance_callback_handles l
  = (own_handle <$> filter (λ item, IsInstance item = true ∧ IsUtils item = true) l,
     own_handle <$> filter (λ item, IsInstance item = true ∧ IsUtils item = false) l).
Proof.
  unfold instance_callback_handles.
  assert (∀ l us rs,
    fold_left
      (λ '(us, rs) (item : @VkLayerDbgFunctionState W),
         if IsInstance item then
           if IsUtils item then (us ++ [debug_utils_callback_object item], rs)
           else (us, rs ++ [debug_report_callback_object item])
         else (us, rs)) l (us, rs)
    = (us ++ (own_handle <$> filter (λ item, IsInstance item = true ∧ IsUtils item = true) l),
       rs ++ (own_handle <$> filter (λ item, IsInstance item = true ∧ IsUtils item = false) l)))
    as Hfold.
  { clear l. induction l as [|item l IH]; intros us rs; simpl.
    - by rewrite !app_nil_r.
    - rewrite !filter_cons.
      destruct (IsInstance item) eqn:Hi, (IsUtils item) eqn:Hu; rewrite IH;
        repeat case_decide; destruct_and?; try congruence;
        try (exfalso; match goal with Hn : ¬ _ |- _ => apply Hn; done end);
        rewrite ?fmap_cons, <- ?app_assoc; try done;
        assert (own_handle item
                = if IsUtils item then debug_utils_callback_object item
                  else debug_report_callback_object item) as -> by done;
        by rewrite Hu. }
  by rewrite Hfold.
Qed.

Lemma filter_all {A} (P : A → Prop) `{∀ x, Decision (P x)} (l : list A) :
  Forall P l → filter P l = l.
Proof.
  induction 1 as [|x l Hx _ IH]; [done|]. by rewrite filter_cons_True, IH.
Qed.

Lemma filter_none {A} (P : A → Prop) `{∀ x, Decision (P x)} (l : list A) :
  Forall (λ x, ¬ P x) l → filter P l = [].
Proof.
  induction 1 as [|x l Hx _ IH]; [done|]. by rewrite filter_cons_False.
Qed.

Lemma filter_ext_in {A} (P Q : A → Prop) `{∀ x, Decision (P x)} `{∀ x, Decision (Q x)}
    (l : list A) :
  (∀ x, x ∈ l → P x ↔ Q x) → filter P l = filter Q l.
Proof.
  induction l as [|x l IH]; intros Hext; [done|].
  rewrite !filter_cons, IH by (intros y Hy; apply Hext; by right).
  destruct (decide (P x)) as [HP|HP], (decide (Q x)) as [HQ|HQ]; try done.
  - exfalso. apply HQ, Hext; [left|done].
  - exfalso. apply HP, Hext; [left|done].
Qed.

Lemma NoDup_fmap_filter {A B} (f : A → B) (P : A → Prop) `{∀ x, Decision (P x)}
    (l : list A) :
  NoDup (f <$> l) → NoDup (f <$> filter P l).
Proof.
  induction l as [|x l IH]; [done|]. rewrite fmap_cons, NoDup_cons. intros [Hx Hl].
  rewrite filter_cons. destruct (decide (P x)); [|by apply IH].
  rewrite fmap_cons. apply NoDup_cons. split; [|by apply IH].
  intros (y & Hy & Hin)%list_elem_of_fmap. apply list_elem_of_filter in Hin as [_ Hin].
  apply Hx, list_elem_of_fmap. by exists y.
Qed.

Lemma NoDup_fmap_elem_inj {A B} (f : A → B) (l : list A) x y :
  NoDup (f <$> l) → x ∈ l → y ∈ l → f x = f y → x = y.
Proof.
  induction l as [|z l IH]; [by intros _ ?%elem_of_nil|].
  rewrite fmap_cons, NoDup_cons. intros [Hz Hl] Hx Hy Hf.
  apply elem_of_cons in Hx as [->|Hx], Hy as [->|Hy]; try done.
  - exfalso. apply Hz. rewrite Hf. by apply list_elem_of_fmap_2.
  - exfalso. apply Hz. rewrite <- Hf. by apply list_elem_of_fmap_2.
  - by apply IH.
Qed.

Lemma layer_destroy_callback_filter d callback :
  NoDup (own_handle <$> debug_callback_list d) →
  debug_callback_list (layer_destroy_callback d callback)
  = filter (λ item, own_handle item ≠ callback) (debug_callback_list d).
Proof.
  unfold layer_destroy_callback, RemoveDebugUtilsCallback.
  rewrite SetDebugUtilsSeverityFlags_list. simpl.
  generalize (debug_callback_list d). clear d. intros l Hnodup.
  induction l as [|item l IH]; [done|].
  rewrite fmap_cons in Hnodup. apply NoDup_cons in Hnodup as [Hnotin Hnodup].
  specialize (IH Hnodup).
  simpl. rewrite callback_matches_own_handle, filter_cons.
  destruct (decide (own_handle item = callback)) as [Hitem|Hitem];
    [rewrite (bool_decide_true _ Hitem)|rewrite (bool_decide_false _ Hitem)].
  - rewrite bool_decide_true by (simpl; lia). simpl.
    rewrite decide_False by (intros Hne; by apply Hne).
    symmetry. apply filter_all, Forall_forall. intros x Hx Heq.
    apply Hnotin. rewrite Hitem, <- Heq. by apply list_elem_of_fmap_2.
  - rewrite decide_True by done. rewrite <- IH.
    case_bool_decide as Hfound.
    + rewrite bool_decide_true by (simpl; lia). done.
    + rewrite bool_decide_false by (simpl; lia). done.
Qed.

Lemma fold_layer_destroy_callback_filter handles :
  ∀ d,
    NoDup (own_handle <$> debug_callback_list d) →
    debug_callback_list (fold_left layer_destroy_callback handles d)
    = filter (λ item, own_handle item ∉ handles) (debug_callback_list d).
Proof.
  induction handles as [|h handles IH]; intros d Hnodup; simpl.
  - symmetry. apply filter_all, Forall_forall. intros x _. apply not_elem_of_nil.
  - rewrite IH by (rewrite layer_destroy_callback_filter by done; by apply NoDup_fmap_filter).
    rewrite layer_destroy_callback_filter by done. rewrite list_filter_filter.
    apply list_filter_iff. intros x. rewrite not_elem_of_cons. tauto.
Qed.

Lemma Deactivate_without_create_info d :
  omap is_messenger_create_info (instance_pnext_chain d) = [] →
  omap is_report_create_info (instance_pnext_chain d) = [] →
  DeactivateInstanceDebugCallbacks d = d.
Proof.
  unfold DeactivateInstanceDebugCallbacks. intros Hm Hr.
  destruct (lvl_find_in_chain is_messenger_create_info _) as [[ci rest]|] eqn:Hfm.
  { apply find_Some_omap in Hfm. congruence. }
  destruct (lvl_find_in_chain is_report_create_info _) as [[ci rest]|] eqn:Hfr.
  { apply find_Some_omap in Hfr. congruence. }
  done.
Qed.

Lemma Deactivate_filter d :
  NoDup (own_handle <$> debug_callback_list d) →
  omap is_messenger_create_info (instance_pnext_chain d) ≠ []
  ∨ omap is_report_create_info (instance_pnext_chain d) ≠ [] →
  debug_callback_list (DeactivateInstanceDebugCallbacks d)
  = filter (λ item, IsInstance item = false) (debug_callback_list d).
Proof.
  unfold DeactivateInstanceDebugCallbacks. intros Hnodup Hsome.
  assert (debug_callback_list
            (let '(us, rs) := instance_callback_handles (debug_callback_list d) in
             fold_left layer_destroy_callback rs (fold_left layer_destroy_callback us d))
          = filter (λ item, IsInstance item = false) (debug_callback_list d)) as Hall.
  { rewrite instance_callback_handles_filter.
    rewrite fold_layer_destroy_callback_filter by
      (rewrite fold_layer_destroy_callback_filter by done; by apply NoDup_fmap_filter).
    rewrite fold_layer_destroy_callback_filter by done. rewrite list_filter_filter.
    apply filter_ext_in. intros x Hx. split.
    - intros [Hrs Hus]. destruct (IsInstance x) eqn:Hi; [|done]. exfalso.
      destruct (IsUtils x) eqn:Hu.
      + apply Hus, list_elem_of_fmap_2, list_elem_of_filter. done.
      + apply Hrs, list_elem_of_fmap_2, list_elem_of_filter. done.
    - intros Hi. split.
      + intros (y & Hy & [[Hyi _] Hyl]%list_elem_of_filter)%list_elem_of_fmap.
        assert (x = y) by (by eapply NoDup_fmap_elem_inj). congruence.
      + intros (y & Hy & [[Hyi _] Hyl]%list_elem_of_filter)%list_elem_of_fmap.
        assert (x = y) by (by eapply NoDup_fmap_elem_inj). congruence. }
  destruct (lvl_find_in_chain is_messenger_create_info _) as [[ci rest]|] eqn:Hfm;
    [exact Hall|].
  destruct (lvl_find_in_chain is_report_create_info _) as [[ci rest]|] eqn:Hfr;
    [exact Hall|].
  apply find_None_omap in Hfm, Hfr. destruct Hsome; congruence.
Qed.

(** X14: [DeactivateInstanceDebugCallbacks] does nothing when the extension
    chain holds no create-info of either scheme.  Otherwise, when the
    entries of the callback list have pairwise different handles, it removes
    exactly the instance callbacks: the list that is left is the entries
    that are not instance callbacks, in their order. *)
Theorem Deactivate_removes_instance_callbacks d :
  (omap is_messenger_create_info (instance_pnext_chain d) = [] →
   omap is_report_create_info (instance_pnext_chain d) = [] →
   DeactivateInstanceDebugCallbacks d = d)
  ∧ (NoDup (own_handle <$> debug_callback_list d) →
     omap is_messenger_create_info (instance_pnext_chain d) ≠ []
     ∨ omap is_report_create_info (instance_pnext_chain d) ≠ [] →
     debug_callback_list (DeactivateInstanceDebugCallbacks d)
     = filter (λ item, IsInstance item = false) (debug_callback_list d)).
Proof.
  split; [apply Deactivate_without_create_info|apply Deactivate_filter].
Qed.
End Deactivation.

Lemma Deactivate_removes_instance_callbacks_witness :
  debug_callback_list Example2.deactivated = debug_callback_list Example.one_report.
Proof.
  destruct (@Deactivate_removes_instance_callbacks unit vulkan_core_1_2 Example2.activated)
    as [_ Hremove].
  etransitivity; [apply Hremove|].
  - apply (bool_decide_unpack _). vm_compute. reflexivity.
  - left. discriminate.
  - reflexivity.
Defined.

Section RoundTrip.
Context {W : Type} `{VulkanCore}.
Variable address : nat → Handle.
Implicit Types d : @debug_report_data W.

Lemma layer_create_callback_instance status d create_info :
  test_bits status DEBUG_CALLBACK_UTILS
  = match create_info with MessengerCreateInfo _ => true | ReportCreateInfo _ => false end →
  ∃ d' item callback',
    layer_create_callback address status d create_info 0 = Some (d', callback')
    ∧ debug_callback_list d' = debug_callback_list d ++ [item]
    ∧ callback_status item = status
    ∧ own_handle item = address (length (debug_callback_list d))
    ∧ instance_pnext_chain d' = instance_pnext_chain d.
Proof.
  intros Hstatus. unfold layer_create_callback. rewrite Hstatus.
  destruct create_info; simpl; eexists _, _, _; (split; [reflexivity|]);
    rewrite SetDebugUtilsSeverityFlags_accumulates; simpl;
    (split; [done|]); (split; [done|]); unfold own_handle, IsUtils; simpl;
    by rewrite Hstatus.
Qed.

Lemma activate_messengers_handles chain d :
  ∃ d' new,
    activate_messengers address chain d = Some (after_last_messenger chain, d')
    ∧ debug_callback_list d' = debug_callback_list d ++ new
    ∧ Forall (λ item, IsInstance item = true) new
    ∧ own_handle <$> new = address <$> seq (length (debug_callback_list d)) (length new)
    ∧ length new = length (omap is_messenger_create_info chain)
    ∧ instance_pnext_chain d' = instance_pnext_chain d.
Proof.
  with_strategy opaque [layer_create_callback] funelim (activate_messengers address chain d).
  - exists debug_data, []. rewrite app_nil_r, (find_None_omap _ _ e).
    by rewrite after_last_messenger_none by (by apply find_messenger_None).
  - destruct H0 as (d' & new & Hrun & Hlist & Hinstance & Hhandles & Hlength & Hchain).
    destruct (layer_create_callback_instance
                (N.lor DEBUG_CALLBACK_UTILS DEBUG_CALLBACK_INSTANCE) debug_data
                (MessengerCreateInfo create_info) eq_refl)
      as (d1 & item & cb & Hcreate & Hlist1 & Hitem & Hown & Hchain1).
    rewrite Heq in Hcreate. simplify_eq.
    exists d', (item :: new).
    destruct (find_messenger_Some _ _ _ Hfound) as [Homap Hafter].
    split; [|split; [|split; [|split; [|split]]]].
    + rewrite Hrun, Hafter. destruct (has_messenger pNext) eqn:Hp; [done|].
      by rewrite after_last_messenger_none.
    + by rewrite Hlist, Hlist1, <- app_assoc.
    + constructor; [|done]. unfold IsInstance. by rewrite Hitem.
    + cbn [length seq]. rewrite !fmap_cons, Hown, Hhandles, Hlist1, length_app. simpl.
      by rewrite Nat.add_1_r.
    + rewrite Homap. simpl. by rewrite Hlength.
    + congruence.
  - destruct (layer_create_callback_instance
                (N.lor DEBUG_CALLBACK_UTILS DEBUG_CALLBACK_INSTANCE) debug_data
                (MessengerCreateInfo create_info) eq_refl)
      as (d1 & item & cb & Hcreate & _). congruence.
Qed.

Lemma activate_reports_handles chain d :
  ∃ current d' new,
    activate_reports address chain d = Some (current, d')
    ∧ debug_callback_list d' = debug_callback_list d ++ new
    ∧ Forall (λ item, IsInstance item = true) new
    ∧ own_handle <$> new = address <$> seq (length (debug_callback_list d)) (length new)
    ∧ length new = length (omap is_report_create_info chain)
    ∧ instance_pnext_chain d' = instance_pnext_chain d.
Proof.
  with_strategy opaque [layer_create_callback] funelim (activate_reports address chain d).
  - exists current, debug_data, []. by rewrite app_nil_r, (find_None_omap _ _ e).
  - destruct H0 as (current' & d' & new & Hrun & Hlist & Hinstance & Hhandles & Hlength
                    & Hchain).
    destruct (layer_create_callback_instance DEBUG_CALLBACK_INSTANCE debug_data
                (ReportCreateInfo create_info) eq_refl)
      as (d1 & item & cb & Hcreate & Hlist1 & Hitem & Hown & Hchain1).
    rewrite Heq in Hcreate. simplify_eq.
    exists current', d', (item :: new).
    split; [|split; [|split; [|split; [|split]]]].
    + done.
    + by rewrite Hlist, Hlist1, <- app_assoc.
    + constructor; [|done]. unfold IsInstance. by rewrite Hitem.
    + cbn [length seq]. rewrite !fmap_cons, Hown, Hhandles, Hlist1, length_app. simpl.
      by rewrite Nat.add_1_r.
    + rewrite (find_Some_omap _ _ _ _ Hfound). simpl. by rewrite Hlength.
    + congruence.
  - destruct (layer_create_callback_instance DEBUG_CALLBACK_INSTANCE debug_data
                (ReportCreateInfo create_info) eq_refl)
      as (d1 & item & cb & Hcreate & _). congruence.
Qed.

Lemma omap_after_last_messenger (chain : list (@ChainStruct W)) :
  omap is_messenger_create_info chain = [] →
  after_last_messenger chain = chain.
Proof.
  intros Hnone. apply after_last_messenger_none.
  destruct (has_messenger chain) eqn:Hhas; [|done].
  destruct (lvl_find_in_chain is_messenger_create_info chain) as [[ci rest]|] eqn:Hfind.
  - apply find_Some_omap in Hfind. congruence.
  - apply find_messenger_None in Hfind. congruence.
Qed.

(** X15: on a state without instance callbacks,
    [ActivateInstanceDebugCallbacks] followed by
    [DeactivateInstanceDebugCallbacks] gives back the callback list as it
    was, provided the addresses of the new entries differ from each other
    and from the handles already in the list.  The new entries are instance
    callbacks, one for each create-info that is registered, and have the
    addresses of their positions for handles. *)
Theorem Activate_then_Deactivate d :
  let chain := instance_pnext_chain d in
  let registered :=
    (length (omap is_messenger_create_info chain)
     + length (omap is_report_create_info (after_last_messenger chain)))%nat in
  Forall (λ item, IsInstance item = false) (debug_callback_list d) →
  NoDup ((own_handle <$> debug_callback_list d)
         ++ (address <$> seq (length (debug_callback_list d)) registered)) →
  ∃ d' new,
    ActivateInstanceDebugCallbacks address d = Some d'
    ∧ debug_callback_list d' = debug_callback_list d ++ new
    ∧ length new = registered
    ∧ Forall (λ item, IsInstance item = true) new
    ∧ own_handle <$> new = address <$> seq (length (debug_callback_list d)) registered
    ∧ debug_callback_list (DeactivateInstanceDebugCallbacks d') = debug_callback_list d.
Proof.
  intros chain registered Hordinary Hnodup. subst chain registered.
  unfold ActivateInstanceDebugCallbacks.
  set (registered := (length _ + length _)%nat) in *.
  destruct (activate_messengers_handles (instance_pnext_chain d) d)
    as (d1 & new1 & -> & Hlist1 & Hinst1 & Hown1 & Hlen1 & Hchain1). simpl.
  destruct (activate_reports_handles (after_last_messenger (instance_pnext_chain d)) d1)
    as (current & d2 & new2 & -> & Hlist2 & Hinst2 & Hown2 & Hlen2 & Hchain2). simpl.
  assert (length (new1 ++ new2) = registered) as Hlen.
  { unfold registered. by rewrite length_app, Hlen1, Hlen2. }
  assert (own_handle <$> new1 ++ new2
          = address <$> seq (length (debug_callback_list d)) registered) as Hown.
  { rewrite fmap_app, Hown1, Hown2, Hlist1, length_app, <- fmap_app, <- seq_app.
    by rewrite <- Hlen, length_app. }
  assert (debug_callback_list d2 = debug_callback_list d ++ (new1 ++ new2)) as Hlist.
  { by rewrite Hlist2, Hlist1, <- app_assoc. }
  exists d2, (new1 ++ new2).
  split; [done|]. split; [done|]. split; [done|].
  split; [by apply Forall_app|]. split; [done|].
  pose proof (Deactivate_without_create_info d2) as Hnothing.
  pose proof (Deactivate_filter d2) as Hremoves.
  destruct (decide (new1 ++ new2 = [])) as [Hnil|Hsome].
  - apply app_eq_nil in Hnil as [-> ->].
    assert (omap is_messenger_create_info (instance_pnext_chain d) = []) as Hm.
    { apply length_zero_iff_nil. by rewrite <- Hlen1. }
    rewrite Hnothing.
    + by rewrite Hlist, app_nil_r.
    + by rewrite Hchain2, Hchain1.
    + rewrite Hchain2, Hchain1. apply length_zero_iff_nil.
      rewrite <- (omap_after_last_messenger _ Hm). by rewrite <- Hlen2.
  - rewrite Hremoves.
    + rewrite Hlist, filter_app.
      rewrite (filter_all (λ item, IsInstance item = false) (debug_callback_list d))
        by done.
      assert (filter (λ item, IsInstance item = false) (new1 ++ new2) = []) as ->;
        [|by rewrite app_nil_r].
      apply filter_none.
      eapply Forall_impl; [apply Forall_app; split; [exact Hinst1|exact Hinst2]|].
      intros item Hitem. simpl in *. congruence.
    + by rewrite Hlist, fmap_app, Hown.
    + rewrite Hchain2, Hchain1.
      destruct (omap is_messenger_create_info (instance_pnext_chain d)) eqn:Hm;
        [|by left]. right. intros Hr. apply Hsome.
      apply length_zero_iff_nil. rewrite length_app, Hlen1, Hlen2.
      rewrite omap_after_last_messenger in * by done. by rewrite Hr.
Qed.
End RoundTrip.

Lemma layer_destroy_callback_first_match_witness :
  debug_callback_list
    (layer_destroy_callback (H:=vulkan_core_1_2) Example.default_and_ordinary 7)
  = [Example.default_entry; Example.ordinary_entry]
  ∧ debug_callback_list
      (layer_destroy_callback (H:=vulkan_core_1_2) Example.default_and_ordinary 1)
    = [Example.ordinary_entry].
Proof.
  destruct (@layer_destroy_callback_first_match unit vulkan_core_1_2
              Example.default_and_ordinary 7) as [Habsent _].
  destruct (@layer_destroy_callback_first_match unit vulkan_core_1_2
              Example.default_and_ordinary 1) as (_ & Hfirst & _).
  split.
  - rewrite Habsent; [reflexivity|]. repeat constructor.
  - apply (Hfirst [] Example.default_entry [Example.ordinary_entry]);
      [reflexivity | constructor | reflexivity].
Defined.

Lemma create_then_destroy_restores_witness :
  ∃ d',
    layer_create_report_callback (H:=vulkan_core_1_2) Example.address Example.one_report
      false Example.error_report 0
    = Some (0%Z, d', 0x1040)
    ∧ debug_callback_list (layer_destroy_callback (H:=vulkan_core_1_2) d' 0x1040)
      = debug_callback_list Example.one_report.
Proof.
  destruct (@create_then_destroy_restores unit vulkan_core_1_2 Example.address
              Example.one_report false Example.error_messenger Example.error_report 0)
    as [_ Hreport].
  - repeat constructor.
  - exact Hreport.
Defined.

Lemma aggregates_cover_entries_witness :
  aggregates_cover (H:=vulkan_core_1_2) Example.one_messenger.
Proof.
  destruct (@aggregates_cover_entries unit vulkan_core_1_2 Example.address Example.fresh
              DEBUG_CALLBACK_UTILS (MessengerCreateInfo Example.error_messenger) 5)
    as [Hcreate _].
  apply (Hcreate Example.one_messenger 5). reflexivity.
Defined.

Lemma registrations_keep_aggregates_exact_witness :
  aggregates_exact (H:=vulkan_core_1_2) Example.one_messenger.
Proof.
  destruct (@registrations_keep_aggregates_exact unit vulkan_core_1_2 Example.address
              Example.fresh false Example.error_messenger Example.error_report 5)
    as [Hfresh Hkeep].
  destruct (Hkeep (Hfresh [])) as [Hmessenger _].
  apply (Hmessenger 0%Z Example.one_messenger 5). reflexivity.
Defined.

(** ** More on dispatch *)

Section MoreDispatch.
Context {W : Type} `{VulkanCore}.
Implicit Types d : @debug_report_data W.
Implicit Types l : list (@VkLayerDbgFunctionState W).

Lemma log_callbacks_all_skipped d msg_flags object_type src_object location layer_prefix
    message text_vuid l :
  Forall (λ item, sink_eligible d item && sink_fires msg_flags item = false) l →
  ∀ index st,
    log_callbacks d msg_flags object_type src_object location layer_prefix message text_vuid
      l index st = Some st.
Proof.
  induction 1 as [|item l Hitem _ IH]; intros index st; simpl; [done|].
  rewrite log_callback_skips by done. simpl. apply IH.
Qed.

Lemma test_bits_0_r a : test_bits a 0 = false.
Proof. apply test_bits_false, N.land_0_r. Qed.

Lemma debug_log_msg_all_skipped d msg_flags object_type src_object location layer_prefix
    message text_vuid w :
  Forall (λ item, sink_eligible d item && sink_fires msg_flags item = false)
    (debug_callback_list d) →
  debug_log_msg d msg_flags object_type src_object location layer_prefix message text_vuid w
  = Some (false, [], w).
Proof.
  intros Hskip. unfold debug_log_msg. by rewrite log_callbacks_all_skipped.
Qed.

(** X16: when no entry of the callback list is both eligible and accepted by
    its filter, [debug_log_msg] calls nothing and returns false, whatever
    the function pointers are (a null one is harmless then).  This is so
    for every event without any flag: no sink of either scheme accepts it. *)
Theorem debug_log_msg_nothing_fires d msg_flags object_type src_object location layer_prefix
    message text_vuid w :
  (Forall (λ item, sink_eligible d item && sink_fires msg_flags item = false)
     (debug_callback_list d) →
   debug_log_msg d msg_flags object_type src_object location layer_prefix message text_vuid w
   = Some (false, [], w))
  ∧ debug_log_msg d 0 object_type src_object location layer_prefix message text_vuid w
    = Some (false, [], w).
Proof.
  split; [apply debug_log_msg_all_skipped|].
  apply debug_log_msg_all_skipped, Forall_forall. intros item _.
  unfold sink_fires, log_severity, log_types, DebugReportFlagsToAnnotFlags.
  rewrite !test_bits_0_l. simpl.
  rewrite !test_bits_0_r. by destruct (IsUtils item), (sink_eligible d item).
Qed.

Lemma calls_of_report_messages d msg_flags object_type src_object location layer_prefix
    message text_vuid sinks :
  ∀ msg calls k m,
    calls_of d msg_flags object_type src_object location layer_prefix message text_vuid
      msg sinks calls →
    report_messages calls !! k = Some m →
    m = Nat.iter (S k) (prepend_vuid text_vuid) msg.
Proof.
  induction sinks as [|[i item] sinks IH]; intros msg [|call calls] k m; simpl; try done.
  destruct (IsUtils item); intros [[r ->] Hof]; unfold report_messages; simpl.
  - apply IH, Hof.
  - destruct k as [|k]; simpl.
    + by intros [= <-].
    + intros Hk. rewrite (IH _ _ _ _ Hof Hk). simpl. by rewrite <- Nat.iter_succ_r.
Qed.

(** X17: the identifier is put in front of one message shared by all legacy
    sinks of a dispatch, so it piles up: the legacy sink that fires first
    receives the composed message behind one " [ <id> ] ", the second one
    behind two, and the one at position [k] (from 0) behind [k + 1] of
    them; with a null identifier they all receive the composed message. *)
Theorem legacy_prefix_accumulates d msg_flags object_type src_object location layer_prefix
    message text_vuid w :
  Forall (λ item, callable item = true) (debug_callback_list d) →
  ∃ bail calls w',
    debug_log_msg d msg_flags object_type src_object location layer_prefix message
      text_vuid w = Some (bail, calls, w')
    ∧ ∀ k m,
        report_messages calls !! k = Some m →
        m = Nat.iter (S k) (prepend_vuid text_vuid)
              (log_message d object_type src_object message).
Proof.
  intros Hcallable.
  destruct (debug_log_msg_run d msg_flags object_type src_object location layer_prefix
              message text_vuid w Hcallable) as (bail & calls & w' & Hrun & _ & Hof).
  exists bail, calls, w'. split; [done|]. intros k m.
  exact (calls_of_report_messages _ _ _ _ _ _ _ _ _ _ _ k m Hof).
Qed.

(** X18: what a modern sink is told about the object of the event.  For the
    null handle the record names no object and carries no label, whatever
    is stored under the key 0.  For any other handle the record carries the
    resolved name unless it is empty; the labels are those exported for the
    handle from the queue map when the object is a queue, from the
    command-buffer map when it is a command buffer, and never both. *)
Theorem messenger_record_of_object d msg_flags object_type src_object location layer_prefix
    message text_vuid w :
  Forall (λ item, callable item = true) (debug_callback_list d) →
  ∃ bail calls w',
    debug_log_msg d msg_flags object_type src_object location layer_prefix message
      text_vuid w = Some (bail, calls, w')
    ∧ ∀ index args result,
        MessengerInvocation index args result ∈ calls →
        let data := pCallbackData args in
        (src_object = 0 →
         pQueueLabels data = [] ∧ pCmdBufLabels data = []
         ∧ pObjects data
           = [{| objectType := convertDebugReportObjectToCoreObject object_type;
                 objectHandle := 0; pObjectName := None |}])
        ∧ (src_object ≠ 0 →
           pObjects data
           = [{| objectType := convertDebugReportObjectToCoreObject object_type;
                 objectHandle := src_object;
                 pObjectName :=
                   if empty (handle_name d src_object) then None
                   else Some (handle_name d src_object) |}]
           ∧ (convertDebugReportObjectToCoreObject object_type = VK_OBJECT_TYPE_QUEUE →
              pQueueLabels data = export_labels (debugUtilsQueueLabels d) src_object
              ∧ pCmdBufLabels data = [])
           ∧ (convertDebugReportObjectToCoreObject object_type ≠ VK_OBJECT_TYPE_QUEUE →
              pQueueLabels data = []
              ∧ (convertDebugReportObjectToCoreObject object_type
                 = VK_OBJECT_TYPE_COMMAND_BUFFER →
                 pCmdBufLabels data = export_labels (debugUtilsCmdBufLabels d) src_object)
              ∧ (convertDebugReportObjectToCoreObject object_type
                 ≠ VK_OBJECT_TYPE_COMMAND_BUFFER →
                 pCmdBufLabels data = []))).
Proof.
  intros Hcallable.
  destruct (debug_log_msg_run d msg_flags object_type src_object location layer_prefix
              message text_vuid w Hcallable) as (bail & calls & w' & Hrun & _ & Hof).
  exists bail, calls, w'. split; [done|]. intros index args result Hin.
  destruct (calls_of_messenger _ _ _ _ _ _ _ _ _ _ _ _ _ _ Hof Hin) as (item & _ & ->).
  cbn [pCallbackData]. unfold log_callback_data, log_queue_labels, log_cmd_buf_labels,
    log_object_name_info, log_object_label, log_objectType. cbn.
  split.
  - intros ->. done.
  - intros Hsrc. apply N.eqb_neq in Hsrc. rewrite Hsrc. cbn.
    split; [by destruct (empty (handle_name d src_object))|]. split.
    + intros ->. by rewrite N.eqb_refl.
    + intros Hq. rewrite (proj2 (N.eqb_neq _ _)) by done. split; [done|]. split.
      * intros ->. by rewrite N.eqb_refl.
      * intros Hc. by rewrite (proj2 (N.eqb_neq _ _)) by done.
Qed.
(** X19: a sink removed by its handle is not called again.  When the
    entries of the callback list have pairwise different handles, a dispatch
    after [layer_destroy_callback] calls only entries that were in the list
    before and whose handle is not the one removed; after
    [RemoveAllMessageCallbacks] no dispatch calls anything. *)
Theorem removed_sink_not_called d callback msg_flags object_type src_object location
    layer_prefix message text_vuid w :
  (NoDup (own_handle <$> debug_callback_list d) →
   Forall (λ item, callable item = true) (debug_callback_list d) →
   ∃ bail calls w',
     debug_log_msg (layer_destroy_callback d callback) msg_flags object_type src_object
       location layer_prefix message text_vuid w = Some (bail, calls, w')
     ∧ ∀ call, call ∈ calls →
         ∃ item,
           debug_callback_list (layer_destroy_callback d callback) !! invocation_index call
           = Some item
           ∧ item ∈ debug_callback_list d
           ∧ own_handle item ≠ callback)
  ∧ debug_log_msg (RemoveAllMessageCallbacks d) msg_flags object_type src_object location
      layer_prefix message text_vuid w = Some (false, [], w).
Proof.
  split; [|by apply debug_log_msg_all_skipped].
  intros Hnodup Hcallable.
  pose proof (layer_destroy_callback_filter d callback Hnodup) as Hlist.
  assert (Forall (λ item, callable item = true)
            (debug_callback_list (layer_destroy_callback d callback))) as Hcallable'.
  { rewrite Hlist. apply Forall_forall. intros item [_ Hitem]%list_elem_of_filter.
    by apply (proj1 (Forall_forall _ _) Hcallable). }
  destruct (debug_log_msg_run _ msg_flags object_type src_object location layer_prefix
              message text_vuid w Hcallable') as (bail & calls & w' & Hrun & _ & Hof).
  exists bail, calls, w'. split; [done|]. intros call Hcall.
  apply calls_of_indices in Hof.
  assert (invocation_index call ∈ invocation_index <$> calls) as Hindex
    by (by apply list_elem_of_fmap_2).
  rewrite Hof in Hindex. apply list_elem_of_fmap in Hindex as ([i item] & Hi & Hin).
  simpl in Hi. subst i. apply firing_sinks_elem in Hin as (j & Hj & Hitem & _).
  simpl in Hj. subst j. exists item. split; [done|].
  apply list_elem_of_lookup_2 in Hitem. rewrite Hlist in Hitem.
  apply list_elem_of_filter in Hitem as [? ?]. done.
Qed.
End MoreDispatch.

Lemma debug_log_msg_nothing_fires_witness :
  debug_log_msg (H:=vulkan_core_1_2) Example.two_reports 0x1 0 0 0 None "m" None tt
  = Some (false, [], tt).
Proof.
  destruct (@debug_log_msg_nothing_fires unit vulkan_core_1_2 Example.two_reports 0x1 0 0 0
              None "m" None tt) as [Hnone _].
  apply Hnone. repeat constructor.
Defined.

Lemma legacy_prefix_accumulates_witness :
  ∃ calls,
    Example.log_error Example.two_reports = Some (true, calls, tt)
    ∧ report_messages calls
      = [" [ V ] Object: VK_NULL_HANDLE (Type = 0) | m";
         " [ V ]  [ V ] Object: VK_NULL_HANDLE (Type = 0) | m"].
Proof.
  destruct (@legacy_prefix_accumulates unit vulkan_core_1_2 Example.two_reports 0x8 0 0 0
              (Some "Validation") "m" (Some "V") tt)
    as (bail & calls & w' & Hrun & Hmessages).
  - repeat constructor.
  - exists calls. vm_compute in Hrun. injection Hrun as <- <- <-. split; [reflexivity|].
    reflexivity.
Defined.

Lemma messenger_record_of_object_witness :
  ∃ calls,
    Example2.log_queue_error = Some (false, calls, tt)
    ∧ ∀ index args result,
        MessengerInvocation index args result ∈ calls →
        pQueueLabels (pCallbackData args) = [Example.exported "inner"; Example.exported "outer"]
        ∧ pObjects (pCallbackData args)
          = [{| objectType := 4; objectHandle := 9; pObjectName := Some "Q" |}].
Proof.
  destruct (@messenger_record_of_object unit vulkan_core_1_2 Example2.named_queue 0x8 4 9 0
              (Some "Validation") "m" (Some "V") tt)
    as (bail & calls & w' & Hrun & Hrecord).
  - repeat constructor.
  - exists calls. split.
    + vm_compute in Hrun. injection Hrun as <- <- <-. reflexivity.
    + intros index args result Hin.
      destruct (Hrecord index args result Hin) as [_ Hobject].
      destruct (Hobject ltac:(discriminate)) as (Hobjects & Hqueue & _).
      destruct (Hqueue eq_refl) as [-> _]. rewrite Hobjects. split; reflexivity.
Defined.

Lemma Activate_then_Deactivate_witness :
  ∃ d',
    ActivateInstanceDebugCallbacks (H:=vulkan_core_1_2) Example.address Example2.chain_state
    = Some d'
    ∧ length (debug_callback_list d') = 3%nat
    ∧ debug_callback_list (DeactivateInstanceDebugCallbacks (H:=vulkan_core_1_2) d')
      = debug_callback_list Example2.chain_state.
Proof.
  destruct (@Activate_then_Deactivate unit vulkan_core_1_2 Example.address
              Example2.chain_state)
    as (d' & new & Hrun & Hlist & Hlength & _ & _ & Hback).
  - repeat constructor.
  - apply (bool_decide_unpack _). vm_compute. reflexivity.
  - exists d'. split; [exact Hrun|]. split; [|exact Hback].
    rewrite Hlist, length_app, Hlength. reflexivity.
Defined.

Lemma removed_sink_not_called_witness :
  ∃ calls,
    Example.log_error
      (layer_destroy_callback (H:=vulkan_core_1_2) Example.two_reports 1)
    = Some (false, calls, tt)
    ∧ Forall (λ call, invocation_index call = 0%nat) calls.
Proof.
  destruct (@removed_sink_not_called unit vulkan_core_1_2 Example.two_reports 1 0x8 0 0 0
              (Some "Validation") "m" (Some "V") tt) as [Hremoved _].
  destruct Hremoved as (bail & calls & w' & Hrun & Hcalls).
  - apply (bool_decide_unpack _). vm_compute. reflexivity.
  - repeat constructor.
  - exists calls. vm_compute in Hrun. injection Hrun as <- <- <-.
    split; [reflexivity|]. repeat constructor.
Defined.
